(** * The TFLite jacdac host service of pxt-tensorflow (tfjacdac.ts)

    A shallow embedding of [Collector] and [TFLiteHost] and of the
    runtime interfaces they call, followed by the properties the
    specification states about them.

    Numbers.  TypeScript numbers that carry byte counts, offsets,
    timestamps and sample counts are integers here ([Z]); the places
    where the source truncates to 32 bits ([>>], [<<], [&],
    [Math.idiv]) are written out with [toInt32].  The collector's
    multiplier is a power of two and its products with 32-bit integers
    are exact in double precision, so they are exact rationals ([Q]).
    The IEEE-754 binary32 encoding used by [NumberFormat.Float32LE] is a
    parameter of the development ([float32Bits]).

    Diagnostics ([console.log], [control.dmesgValue]) have no effect on
    the state of the service and are left out. *)

From Stdlib Require Import ZArith QArith Qpower List String Bool Lia.
From stdpp Require Import base list.
Import ListNotations.

Local Open Scope Z_scope.

(** ** 32-bit integer operators of the language *)

Definition toInt32 (x : Z) : Z := (x + 2^31) mod 2^32 - 2^31.

(** [x >> n] *)
Definition sar (x n : Z) : Z := Z.shiftr (toInt32 x) n.

(** [x << n] *)
Definition shl (x n : Z) : Z := toInt32 (Z.shiftl (toInt32 x) n).

(** [x & y] *)
Definition band (x y : Z) : Z := Z.land (toInt32 x) (toInt32 y).

(** [x | y] *)
Definition bor (x y : Z) : Z := Z.lor (toInt32 x) (toInt32 y).

(** [Math.idiv(x, y)]: signed 32-bit division, truncating towards zero;
    division by zero gives 0. *)
Definition idiv (x y : Z) : Z :=
  let x := toInt32 x in
  let y := toInt32 y in
  if y =? 0 then 0 else toInt32 (Z.quot x y).

(** ** Buffers of the runtime

    [Buffer] is the runtime's byte array.  The operations below follow
    the runtime's behaviour at and beyond the ends of a buffer: reads
    out of range give 0, writes out of range are clipped or dropped. *)

Inductive NumberFormat : Type :=
| Int8LE | UInt8LE | Int16LE | UInt16LE | Int32LE | UInt32LE.

Module Buffer.

Definition t : Type := list Z.

Definition length (b : t) : Z := Z.of_nat (List.length b).

(** [Buffer.create(size)]: [size] zero bytes. *)
Definition create (size : Z) : t := replicate (Z.to_nat size) 0.

(** [buf.slice(offset, length)]; a negative [length] (the default)
    means up to the end. *)
Definition slice (b : t) (offset len : Z) : t :=
  let offset := Z.min (length b) offset in
  let len := if len <? 0 then length b else len in
  let len := Z.min len (length b - offset) in
  take (Z.to_nat len) (drop (Z.to_nat offset) b).

(** [dst.write(dstOffset, src)]: copies as much of [src] as fits. *)
Definition write (dst : t) (dstOffset : Z) (src : t) : t :=
  if (dstOffset <? 0) || (length dst <? dstOffset) then dst
  else
    let n := Z.min (length src) (length dst - dstOffset) in
    take (Z.to_nat dstOffset) dst ++ take (Z.to_nat n) src
      ++ drop (Z.to_nat (dstOffset + n)) dst.

(** [buf.shift(offset)]: shifts the contents left by [offset] bytes
    in place, padding with zeros (right for a negative [offset]). *)
Definition shift (b : t) (offset : Z) : t :=
  if (offset =? 0) || (length b =? 0) then b
  else if (length b <=? offset) || (offset <=? - length b) then create (length b)
  else if offset <? 0 then
    replicate (Z.to_nat (- offset)) 0 ++ take (Z.to_nat (length b + offset)) b
  else drop (Z.to_nat offset) b ++ replicate (Z.to_nat offset) 0.

(** [a.equals(b)] *)
Definition equals (a b : t) : bool := bool_decide (a = b).

Definition sizeOfNumberFormat (fmt : option NumberFormat) : Z :=
  match fmt with
  | Some Int8LE | Some UInt8LE => 1
  | Some Int16LE | Some UInt16LE => 2
  | Some Int32LE | Some UInt32LE => 4
  | None => 0
  end.

Definition isSigned (fmt : NumberFormat) : bool :=
  match fmt with
  | Int8LE | Int16LE | Int32LE => true
  | _ => false
  end.

(** Little-endian value of a byte sequence. *)
Definition leValue (bs : list Z) : Z :=
  fold_right (fun b acc => b mod 256 + 256 * acc) 0 bs.

(** Little-endian bytes of the low [n] bytes of [v]. *)
Fixpoint leBytes (n : nat) (v : Z) : list Z :=
  match n with
  | O => []
  | S n' => v mod 256 :: leBytes n' (v / 256)
  end.

(** [buf.getNumber(fmt, offset)] *)
Definition getNumber (b : t) (fmt : NumberFormat) (offset : Z) : Z :=
  let sz := sizeOfNumberFormat (Some fmt) in
  if (offset <? 0) || (length b <? offset + sz) then 0
  else
    let u := leValue (take (Z.to_nat sz) (drop (Z.to_nat offset) b)) in
    if isSigned fmt && (2 ^ (8 * sz - 1) <=? u) then u - 2 ^ (8 * sz) else u.

(** [buf.setNumber(fmt, offset, v)] for the integer formats. *)
Definition setNumber (b : t) (fmt : NumberFormat) (offset v : Z) : t :=
  let sz := sizeOfNumberFormat (Some fmt) in
  if (offset <? 0) || (length b <? offset + sz) then b
  else write b offset (leBytes (Z.to_nat sz) v).

(** [buf.toArray(fmt)] for one of the number formats.  With a missing
    format the runtime does not return a list at all; the one caller,
    the collector's packet handler, ends there (see
    [collectorHandlePacket]). *)
Definition toArray (b : t) (fmt : NumberFormat) : list Z :=
  let sz := sizeOfNumberFormat (Some fmt) in
  map (fun i => getNumber b fmt (Z.of_nat i * sz))
      (seq 0 (Z.to_nat (idiv (length b) sz))).

End Buffer.

(** ** Protocol constants *)

Module TFLiteSampleType.
Definition U8 : Z := 0x8.
Definition I8 : Z := 0x88.
Definition U16 : Z := 0x10.
Definition I16 : Z := 0x90.
Definition U32 : Z := 0x20.
Definition I32 : Z := 0xa0.
End TFLiteSampleType.

Module TFLiteCmd.
Definition SetModel : Z := 0x80.
Definition Predict : Z := 0x81.
End TFLiteCmd.

Module TFLiteReg.
Definition Inputs : Z := 0x80.
Definition AutoInvokeEvery : Z := 0x81.
Definition Outputs : Z := 0x101.
Definition InputShape : Z := 0x180.
Definition OutputShape : Z := 0x181.
Definition LastRunTime : Z := 0x182.
Definition AllocatedArenaSize : Z := 0x183.
Definition ModelSize : Z := 0x184.
Definition NumSamples : Z := 0x185.
Definition SampleSize : Z := 0x186.
Definition StreamSamples : Z := 0x82.
Definition CurrentSample : Z := 0x187.
Definition LastError : Z := 0x188.
End TFLiteReg.

(** Constants of the jacdac bus library the source refers to. *)
Definition CMD_GET_REG : Z := 0x1000.
Definition CMD_SET_REG : Z := 0x2000.
Definition REG_IS_STREAMING : Z := 0x03.
Definition REG_STREAMING_INTERVAL : Z := 0x04.
Definition REG_READING : Z := 0x101.

Definition numberFmt (stype : Z) : option NumberFormat :=
  if stype =? TFLiteSampleType.U8 then Some UInt8LE
  else if stype =? TFLiteSampleType.I8 then Some Int8LE
  else if stype =? TFLiteSampleType.U16 then Some UInt16LE
  else if stype =? TFLiteSampleType.I16 then Some Int16LE
  else if stype =? TFLiteSampleType.U32 then Some UInt32LE
  else if stype =? TFLiteSampleType.I32 then Some Int32LE
  else None.

(** A bus packet as the handlers see it. *)
Record JDPacket : Type := {
  service_command : Z;
  data : Buffer.t;
  timestamp : Z
}.

(** [packet.intData]: the payload read as a signed integer whose width
    follows the payload length. *)
Definition intData (p : JDPacket) : Z :=
  let n := Buffer.length (data p) in
  if n <=? 1 then Buffer.getNumber (data p) Int8LE 0
  else if n <=? 3 then Buffer.getNumber (data p) Int16LE 0
  else Buffer.getNumber (data p) Int32LE 0.

(** ** Collectors *)

Module Collector.

Record t : Type := mk {
  serviceClass : Z;
  devId : option Buffer.t;
  requiredServiceNum : Z;
  sampleType : Z;
  sampleMult : Q;
  numElts : Z;
  lastSample : Buffer.t
}.

(** [while (sh > 0) { sampleMult /= 2; sh-- }] *)
Fixpoint divLoop (fuel : nat) (mult : Q) (sh : Z) : Q * Z :=
  match fuel with
  | O => (mult, sh)
  | S fuel' =>
      if 0 <? sh then divLoop fuel' (mult / 2)%Q (sh - 1) else (mult, sh)
  end.

(** [while (sh < 0) { sampleMult *= 2; sh++ }] *)
Fixpoint mulLoop (fuel : nat) (mult : Q) (sh : Z) : Q * Z :=
  match fuel with
  | O => (mult, sh)
  | S fuel' =>
      if sh <? 0 then mulLoop fuel' (mult * 2)%Q (sh + 1) else (mult, sh)
  end.

(** The multiplier the constructor derives from [sampleShift]; each
    loop runs at most [|sampleShift|] times. *)
Definition computeSampleMult (sampleShift : Z) : Q :=
  let fuel := Z.abs_nat sampleShift in
  let '(m, sh) := divLoop fuel 1%Q sampleShift in
  let '(m, _) := mulLoop fuel m sh in
  m.

(** [new Collector(parent, config)], [config] being one 16-byte entry
    of the inputs blob. *)
Definition create (config : Buffer.t) : t :=
  let serviceClass := Buffer.getNumber config UInt32LE 8 in
  let serviceNum := Buffer.getNumber config UInt8LE 12 in
  let sampleSize := Buffer.getNumber config UInt8LE 13 in
  let sampleType := Buffer.getNumber config UInt8LE 14 in
  let sampleShift := Buffer.getNumber config Int8LE 15 in
  let devId :=
    if Buffer.getNumber config Int32LE 0 =? 0 then None
    else Some (Buffer.slice config 0 8) in
  let numElts :=
    idiv sampleSize (Buffer.sizeOfNumberFormat (numberFmt sampleType)) in
  {| serviceClass := serviceClass;
     devId := devId;
     requiredServiceNum := serviceNum;
     sampleType := sampleType;
     sampleMult := computeSampleMult sampleShift;
     numElts := numElts;
     lastSample := Buffer.create (numElts * 4) |}.

Definition with_lastSample (b : Buffer.t) (c : t) : t :=
  {| serviceClass := serviceClass c;
     devId := devId c;
     requiredServiceNum := requiredServiceNum c;
     sampleType := sampleType c;
     sampleMult := sampleMult c;
     numElts := numElts c;
     lastSample := b |}.

(** The value [arr[i] * this.sampleMult] handed to [setNumber]. *)
Definition scaled (c : t) (raw : Z) : Q := (inject_Z raw * sampleMult c)%Q.

End Collector.

(** ** State of the service and of the runtime around it *)

(** What a [catch (e)] clause can receive. *)
Inductive Thrown : Type :=
| ThrownString (s : string)
| ThrownOther.

(** Outcome of [tf.invokeModelF([samplesBuffer])]: the first output
    tensor, or an exception. *)
Inductive InvokeOutcome : Type :=
| InvokeReturns (res0 : list Q)
| InvokeThrows (e : Thrown).

(** Outcome of [tf.loadModel(model, sizeHint)]: the arena size the
    interpreter then reports, or an exception. *)
Inductive LoadOutcome : Type :=
| LoadReturns (arenaBytes : Z)
| LoadThrows (e : Thrown).

(** Closures handed to [control.runInBackground]. *)
Inductive Task : Type :=
| TaskRunModel
| TaskReadModel (packet : JDPacket).

(** What the service does to the outside. *)
Inductive Effect : Type :=
| SendReport (cmd : Z) (payload : Buffer.t)
| CollectorDestroy (c : Collector.t)
| CollectorSetRegInt (c : Collector.t) (reg v : Z)
| PipeOpen (port : Z)
| PipeClose.

Record TFLiteHost : Type := {
  autoInvokeSamples : Z;
  execTime : Z;
  outputs : Buffer.t;
  lastError : option string;
  collectors : list Collector.t;
  lastSample : Z;
  samplingInterval : Z;
  samplesInWindow : Z;
  sampleSize : Z;
  streamSamples : Z;
  samplesBuffer : Buffer.t;
  numSamples : Z;
  lastRunNumSamples : Z
}.

(** The host as its constructor leaves it.  The class initialises
    [autoInvokeSamples], [execTime] and [outputs]; the other fields are
    unassigned until [configureInputs] finds a saved blob and stand
    here as 0, [None] or the empty list.  The window buffer of a host
    that was never configured is such a stand-in: the code cannot
    dereference it, so what is proved below about reading the current
    frame is stated for configured hosts ([Configured]). *)
Definition newTFLiteHost : TFLiteHost :=
  {| autoInvokeSamples := 0; execTime := 0; outputs := Buffer.create 0;
     lastError := None; collectors := []; lastSample := 0;
     samplingInterval := 0; samplesInWindow := 0; sampleSize := 0;
     streamSamples := 0; samplesBuffer := []; numSamples := 0;
     lastRunNumSamples := 0 |}.

(** Modelled from the spec: the block store for the model blob
    ([binstore], not among the sources): a capacity and the regions
    allocated since the last erase.  A fresh region is erased flash,
    every byte 0xFF; a write stores bytes at an offset of a region. *)
Record Binstore : Type := {
  totalSize : Z;
  buffers : list Buffer.t
}.

(** Persistent settings under the two keys the service uses. *)
Record Settings : Type := {
  inputsSettings : option Buffer.t;
  arenaSizeSettings : option Z
}.

(** The interpreter ([tf]) as far as the service observes it. *)
Record Interp : Type := {
  loadedModel : option Buffer.t;
  arenaBytes : Z;
  inputShape : list Z;
  outputShape : list Z
}.

Record World : Type := {
  host : TFLiteHost;
  binstore : Binstore;
  settings : Settings;
  tf : Interp;
  effects : list Effect;
  background : list Task
}.

(** *** Field updates *)

Definition with_host (h : TFLiteHost) (w : World) : World :=
  {| host := h; binstore := binstore w; settings := settings w; tf := tf w;
     effects := effects w; background := background w |}.

Definition with_binstore (b : Binstore) (w : World) : World :=
  {| host := host w; binstore := b; settings := settings w; tf := tf w;
     effects := effects w; background := background w |}.

Definition with_settings (s : Settings) (w : World) : World :=
  {| host := host w; binstore := binstore w; settings := s; tf := tf w;
     effects := effects w; background := background w |}.

Definition with_tf (i : Interp) (w : World) : World :=
  {| host := host w; binstore := binstore w; settings := settings w; tf := i;
     effects := effects w; background := background w |}.

(** Effects and scheduled closures are recorded in the order they occur. *)
Definition emit (e : Effect) (w : World) : World :=
  {| host := host w; binstore := binstore w; settings := settings w; tf := tf w;
     effects := effects w ++ [e]; background := background w |}.

(** [control.runInBackground(task)] *)
Definition runInBackground (t : Task) (w : World) : World :=
  {| host := host w; binstore := binstore w; settings := settings w; tf := tf w;
     effects := effects w; background := background w ++ [t] |}.

Definition with_background (ts : list Task) (w : World) : World :=
  {| host := host w; binstore := binstore w; settings := settings w; tf := tf w;
     effects := effects w; background := ts |}.

Definition set_autoInvokeSamples (v : Z) (h : TFLiteHost) : TFLiteHost :=
  {| autoInvokeSamples := v; execTime := execTime h; outputs := outputs h;
     lastError := lastError h; collectors := collectors h;
     lastSample := lastSample h; samplingInterval := samplingInterval h;
     samplesInWindow := samplesInWindow h; sampleSize := sampleSize h;
     streamSamples := streamSamples h; samplesBuffer := samplesBuffer h;
     numSamples := numSamples h; lastRunNumSamples := lastRunNumSamples h |}.

Definition set_execTime (v : Z) (h : TFLiteHost) : TFLiteHost :=
  {| autoInvokeSamples := autoInvokeSamples h; execTime := v; outputs := outputs h;
     lastError := lastError h; collectors := collectors h;
     lastSample := lastSample h; samplingInterval := samplingInterval h;
     samplesInWindow := samplesInWindow h; sampleSize := sampleSize h;
     streamSamples := streamSamples h; samplesBuffer := samplesBuffer h;
     numSamples := numSamples h; lastRunNumSamples := lastRunNumSamples h |}.

Definition set_outputs (v : Buffer.t) (h : TFLiteHost) : TFLiteHost :=
  {| autoInvokeSamples := autoInvokeSamples h; execTime := execTime h; outputs := v;
     lastError := lastError h; collectors := collectors h;
     lastSample := lastSample h; samplingInterval := samplingInterval h;
     samplesInWindow := samplesInWindow h; sampleSize := sampleSize h;
     streamSamples := streamSamples h; samplesBuffer := samplesBuffer h;
     numSamples := numSamples h; lastRunNumSamples := lastRunNumSamples h |}.

Definition set_lastError (v : option string) (h : TFLiteHost) : TFLiteHost :=
  {| autoInvokeSamples := autoInvokeSamples h; execTime := execTime h;
     outputs := outputs h; lastError := v; collectors := collectors h;
     lastSample := lastSample h; samplingInterval := samplingInterval h;
     samplesInWindow := samplesInWindow h; sampleSize := sampleSize h;
     streamSamples := streamSamples h; samplesBuffer := samplesBuffer h;
     numSamples := numSamples h; lastRunNumSamples := lastRunNumSamples h |}.

Definition set_collectors (v : list Collector.t) (h : TFLiteHost) : TFLiteHost :=
  {| autoInvokeSamples := autoInvokeSamples h; execTime := execTime h;
     outputs := outputs h; lastError := lastError h; collectors := v;
     lastSample := lastSample h; samplingInterval := samplingInterval h;
     samplesInWindow := samplesInWindow h; sampleSize := sampleSize h;
     streamSamples := streamSamples h; samplesBuffer := samplesBuffer h;
     numSamples := numSamples h; lastRunNumSamples := lastRunNumSamples h |}.

Definition set_lastSample (v : Z) (h : TFLiteHost) : TFLiteHost :=
  {| autoInvokeSamples := autoInvokeSamples h; execTime := execTime h;
     outputs := outputs h; lastError := lastError h; collectors := collectors h;
     lastSample := v; samplingInterval := samplingInterval h;
     samplesInWindow := samplesInWindow h; sampleSize := sampleSize h;
     streamSamples := streamSamples h; samplesBuffer := samplesBuffer h;
     numSamples := numSamples h; lastRunNumSamples := lastRunNumSamples h |}.

Definition set_streamSamples (v : Z) (h : TFLiteHost) : TFLiteHost :=
  {| autoInvokeSamples := autoInvokeSamples h; execTime := execTime h;
     outputs := outputs h; lastError := lastError h; collectors := collectors h;
     lastSample := lastSample h; samplingInterval := samplingInterval h;
     samplesInWindow := samplesInWindow h; sampleSize := sampleSize h;
     streamSamples := v; samplesBuffer := samplesBuffer h;
     numSamples := numSamples h; lastRunNumSamples := lastRunNumSamples h |}.

Definition set_samplesBuffer (v : Buffer.t) (h : TFLiteHost) : TFLiteHost :=
  {| autoInvokeSamples := autoInvokeSamples h; execTime := execTime h;
     outputs := outputs h; lastError := lastError h; collectors := collectors h;
     lastSample := lastSample h; samplingInterval := samplingInterval h;
     samplesInWindow := samplesInWindow h; sampleSize := sampleSize h;
     streamSamples := streamSamples h; samplesBuffer := v;
     numSamples := numSamples h; lastRunNumSamples := lastRunNumSamples h |}.

Definition set_numSamples (v : Z) (h : TFLiteHost) : TFLiteHost :=
  {| autoInvokeSamples := autoInvokeSamples h; execTime := execTime h;
     outputs := outputs h; lastError := lastError h; collectors := collectors h;
     lastSample := lastSample h; samplingInterval := samplingInterval h;
     samplesInWindow := samplesInWindow h; sampleSize := sampleSize h;
     streamSamples := streamSamples h; samplesBuffer := samplesBuffer h;
     numSamples := v; lastRunNumSamples := lastRunNumSamples h |}.

Definition set_lastRunNumSamples (v : Z) (h : TFLiteHost) : TFLiteHost :=
  {| autoInvokeSamples := autoInvokeSamples h; execTime := execTime h;
     outputs := outputs h; lastError := lastError h; collectors := collectors h;
     lastSample := lastSample h; samplingInterval := samplingInterval h;
     samplesInWindow := samplesInWindow h; sampleSize := sampleSize h;
     streamSamples := streamSamples h; samplesBuffer := samplesBuffer h;
     numSamples := numSamples h; lastRunNumSamples := v |}.

(** Update of the host inside a world. *)
Definition onHost (f : TFLiteHost -> TFLiteHost) (w : World) : World :=
  with_host (f (host w)) w.

(** [this.sendReport(JDPacket.from(cmd, payload))] *)
Definition sendReport (cmd : Z) (payload : Buffer.t) (w : World) : World :=
  emit (SendReport cmd payload) w.

(** Truthiness of a nullable string: [null] and the empty string are
    false. *)
Definition isSet (s : option string) : bool :=
  match s with
  | None => false
  | Some s => negb (String.eqb s EmptyString)
  end.

(** ** The model store *)

(** Modelled from the spec: [binstore.erase()] drops every region. *)
Definition binstore_erase (b : Binstore) : Binstore :=
  {| totalSize := totalSize b; buffers := [] |}.

(** Modelled from the spec: [binstore.addBuffer(sz)] allocates an
    erased region and hands out its handle, here its index. *)
Definition binstore_addBuffer (sz : Z) (b : Binstore) : nat * Binstore :=
  (List.length (buffers b),
   {| totalSize := totalSize b;
      buffers := buffers b ++ [replicate (Z.to_nat sz) 255] |}).

(** Modelled from the spec: [binstore.write(region, off, src)]. *)
Definition binstore_write (region : nat) (off : Z) (src : Buffer.t)
    (b : Binstore) : Binstore :=
  {| totalSize := totalSize b;
     buffers := alter (fun r => Buffer.write r off src) region (buffers b) |}.

(** [get modelBuffer()] *)
Definition modelBuffer (w : World) : option Buffer.t :=
  match buffers (binstore w) !! 0%nat with
  | None => None
  | Some b0 => if Buffer.getNumber b0 Int32LE 0 =? -1 then None else Some b0
  end.

(** [get modelSize()] *)
Definition modelSize (w : World) : Z :=
  match modelBuffer w with
  | Some m => Buffer.length m
  | None => 0
  end.

(** [get inputSettings()] *)
Definition inputSettings (w : World) : option Buffer.t :=
  inputsSettings (settings w).

(** [eraseModel()] *)
Definition eraseModel (w : World) : World :=
  let w := with_tf {| loadedModel := None; arenaBytes := arenaBytes (tf w);
                      inputShape := inputShape (tf w);
                      outputShape := outputShape (tf w) |} w in
  let w := with_binstore (binstore_erase (binstore w)) w in
  with_settings {| inputsSettings := inputsSettings (settings w);
                   arenaSizeSettings := None |} w.

(** The assignment in [catch (e) { if (typeof e == "string") this.lastError = e }]. *)
Definition catchIntoLastError (e : Thrown) (h : TFLiteHost) : TFLiteHost :=
  match e with
  | ThrownString s => set_lastError (Some s) h
  | ThrownOther => h
  end.

(** [loadModel()]; [lo] is what [tf.loadModel] does when it is called. *)
Definition loadModel (lo : LoadOutcome) (w : World) : World :=
  let w := onHost (set_lastError None) w in
  match modelBuffer w with
  | None => onHost (set_lastError (Some "no model"%string)) w
  | Some m =>
      let sizeHint := arenaSizeSettings (settings w) in
      match lo with
      | LoadReturns arena =>
          let w := with_tf {| loadedModel := Some m; arenaBytes := arena;
                              inputShape := inputShape (tf w);
                              outputShape := outputShape (tf w) |} w in
          match sizeHint with
          | None =>
              with_settings {| inputsSettings := inputsSettings (settings w);
                               arenaSizeSettings := Some (arena + 32) |} w
          | Some _ => w
          end
      | LoadThrows e => onHost (catchIntoLastError e) w
      end
  end.

Definition set_samplingInterval (v : Z) (h : TFLiteHost) : TFLiteHost :=
  {| autoInvokeSamples := autoInvokeSamples h; execTime := execTime h;
     outputs := outputs h; lastError := lastError h; collectors := collectors h;
     lastSample := lastSample h; samplingInterval := v;
     samplesInWindow := samplesInWindow h; sampleSize := sampleSize h;
     streamSamples := streamSamples h; samplesBuffer := samplesBuffer h;
     numSamples := numSamples h; lastRunNumSamples := lastRunNumSamples h |}.

Definition set_samplesInWindow (v : Z) (h : TFLiteHost) : TFLiteHost :=
  {| autoInvokeSamples := autoInvokeSamples h; execTime := execTime h;
     outputs := outputs h; lastError := lastError h; collectors := collectors h;
     lastSample := lastSample h; samplingInterval := samplingInterval h;
     samplesInWindow := v; sampleSize := sampleSize h;
     streamSamples := streamSamples h; samplesBuffer := samplesBuffer h;
     numSamples := numSamples h; lastRunNumSamples := lastRunNumSamples h |}.

Definition set_sampleSize (v : Z) (h : TFLiteHost) : TFLiteHost :=
  {| autoInvokeSamples := autoInvokeSamples h; execTime := execTime h;
     outputs := outputs h; lastError := lastError h; collectors := collectors h;
     lastSample := lastSample h; samplingInterval := samplingInterval h;
     samplesInWindow := samplesInWindow h; sampleSize := v;
     streamSamples := streamSamples h; samplesBuffer := samplesBuffer h;
     numSamples := numSamples h; lastRunNumSamples := lastRunNumSamples h |}.

(** ** The window buffer *)

(** [sendLastSample()] *)
Definition sendLastSample (w : World) : World :=
  let h := host w in
  let buf := Buffer.slice (samplesBuffer h)
               (Buffer.length (samplesBuffer h) - sampleSize h) (sampleSize h) in
  sendReport (bor TFLiteReg.CurrentSample CMD_GET_REG) buf w.

(** The loop of [pushData] over the collectors. *)
Fixpoint writeSamples (colls : list Collector.t) (buf : Buffer.t) (off : Z)
    : Buffer.t :=
  match colls with
  | [] => buf
  | coll :: rest =>
      writeSamples rest (Buffer.write buf off (Collector.lastSample coll))
        (off + Buffer.length (Collector.lastSample coll))
  end.

(** [pushData()] *)
Definition pushData (w : World) : World :=
  let h := host w in
  let buf := Buffer.shift (samplesBuffer h) (sampleSize h) in
  let off := Buffer.length buf - sampleSize h in
  let buf := writeSamples (collectors h) buf off in
  let w := onHost (set_samplesBuffer buf) w in
  let w := onHost (fun h => set_numSamples (numSamples h + 1) h) w in
  if 0 <? streamSamples (host w) then
    let w := onHost (fun h => set_streamSamples (streamSamples h - 1) h) w in
    sendLastSample w
  else w.

(** The frame count [_newData] computes from the time since the last
    tick: [Math.idiv(d + (d >> 1), this.samplingInterval)]. *)
Definition frameCount (d interval : Z) : Z := idiv (d + sar d 1) interval.

(** [_newData(timestamp, isPost)] *)
Definition newData (timestamp : Z) (isPost : bool) (w : World) : World :=
  let w := if lastSample (host w) =? 0
           then onHost (set_lastSample timestamp) w else w in
  let d := timestamp - lastSample (host w) in
  let numSamples' := frameCount d (samplingInterval (host w)) in
  if numSamples' =? 0 then w
  else if isPost then
    let w := onHost (set_lastSample timestamp) w in
    let w := pushData w in
    let h := host w in
    if negb (autoInvokeSamples h =? 0) && (0 <=? lastRunNumSamples h)
       && (autoInvokeSamples h <=? numSamples h - lastRunNumSamples h)
    then
      let w := onHost (set_lastRunNumSamples (-1)) w in
      runInBackground TaskRunModel w
    else w
  else
    let n := numSamples' - 1 in
    let n := if 5 <? n then 5 else n in
    Nat.iter (Z.to_nat n) pushData w.

(** ** Configuration *)

(** The [while (off < config.length)] loop of [configureInputs]; every
    turn advances [off] by the entry size, so [fuel] turns suffice when
    [fuel] is the length of the blob. *)
Fixpoint configureLoop (fuel : nat) (config : Buffer.t) (off frameSz : Z)
    (w : World) : Z * World :=
  match fuel with
  | O => (frameSz, w)
  | S fuel' =>
      if off <? Buffer.length config then
        let coll := Collector.create (Buffer.slice config off 16) in
        let w := emit (CollectorSetRegInt coll REG_STREAMING_INTERVAL
                         (samplingInterval (host w))) w in
        let w := emit (CollectorSetRegInt coll REG_IS_STREAMING 255) w in
        let w := onHost (fun h => set_collectors (collectors h ++ [coll]) h) w in
        configureLoop fuel' config (off + 16)
          (frameSz + Buffer.length (Collector.lastSample coll)) w
      else (frameSz, w)
  end.

(** [configureInputs()] *)
Definition configureInputs (w : World) : World :=
  match inputSettings w with
  | None => w
  | Some config =>
      let w := onHost (set_samplingInterval (Buffer.getNumber config UInt16LE 0)) w in
      let w := onHost (set_samplesInWindow (Buffer.getNumber config UInt16LE 2)) w in
      let w := fold_left (fun w coll => emit (CollectorDestroy coll) w)
                 (collectors (host w)) w in
      let w := onHost (set_collectors []) w in
      let '(frameSz, w) := configureLoop (List.length config) config 8 0 w in
      let w := onHost (set_sampleSize frameSz) w in
      let w := onHost (fun h => set_samplesBuffer
                         (Buffer.create (samplesInWindow h * frameSz)) h) w in
      let w := onHost (set_numSamples 0) w in
      onHost (set_lastRunNumSamples 0) w
  end.

(** ** Model upload *)

(** How [readModel] ends: at the capacity check, at the end of the
    stream, at the alignment check, or after the header is written. *)
Inductive ReadStatus : Type :=
| Rejected
| StreamClosed
| InvalidStreamSize
| Completed.

(** The [while (true)] loop of [readModel]; [chunks] is what
    [pipe.read()] returns until the stream closes. *)
Fixpoint readLoop (flash : nat) (sz : Z) (chunks : list Buffer.t) (off : Z)
    (headBuffer : Buffer.t) (w : World) : ReadStatus * World :=
  match chunks with
  | [] => (StreamClosed, w)
  | buf :: rest =>
      let headBuffer :=
        if off =? 0 then Buffer.write headBuffer 0 buf else headBuffer in
      let w :=
        if off =? 0
        then with_binstore
               (binstore_write flash 8 (Buffer.slice buf 8 (-1)) (binstore w)) w
        else with_binstore (binstore_write flash off buf (binstore w)) w in
      let off := off + Buffer.length buf in
      if sz <=? off then
        (Completed, with_binstore (binstore_write flash 0 headBuffer (binstore w)) w)
      else if negb (band off 7 =? 0) then (InvalidStreamSize, w)
      else readLoop flash sz rest off headBuffer w
  end.

(** [readModel(packet)]; [port] is the port of the pipe it opens. *)
Definition readModel (packet : JDPacket) (port : Z) (chunks : list Buffer.t)
    (lo : LoadOutcome) (w : World) : ReadStatus * World :=
  let sz := intData packet in
  if totalSize (binstore w) - 8 <? sz then (Rejected, w)
  else
    let w := eraseModel w in
    let '(flash, b) := binstore_addBuffer sz (binstore w) in
    let w := with_binstore b w in
    let w := emit (PipeOpen port) w in
    let w := sendReport (service_command packet) (Buffer.leBytes 2 port) w in
    match readLoop flash sz chunks 0 (Buffer.create 8) w with
    | (Completed, w) => (Completed, loadModel lo (emit PipeClose w))
    | r => r
    end.

(** ** Register access of the host base class *)

(** Modelled from the spec: [handleRegInt(packet, register, current)]
    belongs to the host base class of the bus library, which is not
    among the sources.  The register table of the specification gives
    the protocol: a read of [register] reports [current] as a 32-bit
    integer; a write returns the written value, and for a read-only
    register (0x1xx) returns [current]; a packet for another register,
    or no register access at all, returns [current].  The service keeps
    the returned value only for the two writable registers 0x81 and
    0x82. *)
Definition handleRegInt (packet : JDPacket) (register current : Z)
    (w : World) : Z * World :=
  let getset := sar (service_command packet) 12 in
  let reg := band (service_command packet) 0xfff in
  if (getset =? 0) || (2 <? getset) then (current, w)
  else if negb (reg =? register) then (current, w)
  else if getset =? 1 then
    (current, sendReport (service_command packet) (Buffer.leBytes 4 current) w)
  else if sar register 8 =? 1 then (current, w)
  else (intData packet, w).

(** Modelled from the spec: [handleRegBuffer(packet, register, current)]
    of the same base class, likewise not among the sources.  A read of
    [register] reports the bytes of [current].  A write copies the
    payload, cut or padded with zeros to the length of [current], into
    [current] itself: the buffer is changed in place and keeps its
    length.  The first component is the contents of [current]
    afterwards. *)
Definition handleRegBuffer (packet : JDPacket) (register : Z)
    (current : Buffer.t) (w : World) : Buffer.t * World :=
  let getset := sar (service_command packet) 12 in
  let reg := band (service_command packet) 0xfff in
  if (getset =? 0) || (2 <? getset) then (current, w)
  else if negb (reg =? register) then (current, w)
  else if getset =? 1 then (current, sendReport (service_command packet) current w)
  else
    let payload :=
      take (List.length current)
        (data packet ++ replicate (List.length current) 0) in
    (Buffer.write current 0 payload, w).

(** [packArray(arr, NumberFormat.UInt16LE)] *)
Definition packArray (arr : list Z) (fmt : NumberFormat) : Buffer.t :=
  let sz := Buffer.sizeOfNumberFormat (Some fmt) in
  fold_left (fun res '(i, v) => Buffer.setNumber res fmt (Z.of_nat i * sz) v)
    (imap (fun i v => (i, v)) arr)
    (Buffer.create (Z.of_nat (List.length arr) * sz)).

(** [Buffer.fromUTF8(s)] for the texts the service produces (ASCII). *)
Definition fromUTF8 (s : string) : Buffer.t :=
  map (fun c => Z.of_nat (Ascii.nat_of_ascii c)) (list_ascii_of_string s).

Section WithFloat32.

(** The binary32 bit pattern [NumberFormat.Float32LE] stores for a
    number. *)
Variable float32Bits : Q -> Z.

(** [buf.setNumber(NumberFormat.Float32LE, offset, v)] *)
Definition setNumberF32 (b : Buffer.t) (offset : Z) (v : Q) : Buffer.t :=
  if (offset <? 0) || (Buffer.length b <? offset + 4) then b
  else Buffer.write b offset (Buffer.leBytes 4 (float32Bits v)).

(** [packArray(arr, NumberFormat.Float32LE)] *)
Definition packArrayF32 (arr : list Q) : Buffer.t :=
  fold_left (fun res '(i, v) => setNumberF32 res (Z.of_nat i * 4) v)
    (imap (fun i v => (i, v)) arr)
    (Buffer.create (Z.of_nat (List.length arr) * 4)).

(** The loop of [Collector.handlePacket] over the decoded elements,
    from index [i] on. *)
Fixpoint storeSamples (c : Collector.t) (arr : list Z) (i : Z)
    (lastSample : Buffer.t) : Buffer.t :=
  match arr with
  | [] => lastSample
  | a :: rest =>
      storeSamples c rest (i + 1)
        (setNumberF32 lastSample (shl i 2) (Collector.scaled c a))
  end.

(** What a register-read report does to the collector itself, [fmt]
    being the number format of its sample type. *)
Definition collectorUpdate (c : Collector.t) (fmt : NumberFormat)
    (payload : Buffer.t) : Collector.t :=
  let arr := Buffer.toArray payload fmt in
  Collector.with_lastSample (storeSamples c arr 0 (Collector.lastSample c)) c.

(** [Collector.handlePacket(packet)] for the collector at index [i]
    of the host; a packet for a collector the host does not have
    reaches no handler.  [numberFmt] has no case for a sample type
    outside the six, and [toArray] does not return for the missing
    format: the handler then ends after the pre phase, with nothing
    stored and no post phase. *)
Definition collectorHandlePacket (i : nat) (packet : JDPacket) (w : World)
    : World :=
  match collectors (host w) !! i with
  | None => w
  | Some c =>
      if service_command packet =? bor CMD_GET_REG REG_READING then
        let w := newData (timestamp packet) false w in
        match numberFmt (Collector.sampleType c) with
        | None => w
        | Some fmt =>
            let w := onHost (fun h =>
                       set_collectors
                         (alter (fun c => collectorUpdate c fmt (data packet)) i
                            (collectors h)) h) w in
            newData (timestamp packet) true w
        end
      else w
  end.

(** [runModel()]; [t0] and [t1] are the two readings of
    [control.micros()], [io] is what [tf.invokeModelF] does. *)
Definition runModel (t0 t1 : Z) (io : InvokeOutcome) (w : World) : World :=
  if isSet (lastError (host w)) then w
  else
    let numSamples' := numSamples (host w) in
    let w :=
      match io with
      | InvokeReturns res0 => onHost (set_outputs (packArrayF32 res0)) w
      | InvokeThrows e => onHost (catchIntoLastError e) w
      end in
    let w := onHost (set_execTime (t1 - t0)) w in
    let w := onHost (set_lastRunNumSamples numSamples') w in
    sendReport (bor CMD_GET_REG TFLiteReg.Outputs) (outputs (host w)) w.

(** [TFLiteHost.handlePacket(packet)], first part: the register
    handlers of the base class, in the order of the source.  The buffer
    handed to [handleRegBuffer] is [this.outputs] itself, so what the
    handler writes into it is the host's output vector afterwards. *)
Definition handleRegisters (packet : JDPacket) (w : World) : World :=
  let '(_, w) := handleRegInt packet TFLiteReg.AllocatedArenaSize (arenaBytes (tf w)) w in
  let '(_, w) := handleRegInt packet TFLiteReg.LastRunTime (execTime (host w)) w in
  let '(_, w) := handleRegInt packet TFLiteReg.ModelSize (modelSize w) w in
  let '(_, w) := handleRegInt packet TFLiteReg.NumSamples (numSamples (host w)) w in
  let '(_, w) := handleRegInt packet TFLiteReg.SampleSize (sampleSize (host w)) w in
  let '(out, w) := handleRegBuffer packet TFLiteReg.Outputs (outputs (host w)) w in
  let w := onHost (set_outputs out) w in
  let '(v, w) := handleRegInt packet TFLiteReg.StreamSamples (streamSamples (host w)) w in
  let w := onHost (set_streamSamples v) w in
  let '(v, w) := handleRegInt packet TFLiteReg.AutoInvokeEvery (autoInvokeSamples (host w)) w in
  onHost (set_autoInvokeSamples v) w.

(** [TFLiteHost.handlePacket(packet)], second part: the [switch] on
    the command.  The OutputShape case falls through to the
    InputShape case with [arr] already set.  A read of the inputs with
    nothing saved hands the missing blob to [JDPacket.from]; no report
    comes of it and the handler ends there. *)
Definition handleCommand (packet : JDPacket) (w : World) : World :=
  let cmd := service_command packet in
  if cmd =? TFLiteCmd.SetModel then runInBackground (TaskReadModel packet) w
  else if cmd =? bor TFLiteReg.Inputs CMD_GET_REG then
    match inputSettings w with
    | Some blob => sendReport cmd blob w
    | None => w
    end
  else if cmd =? bor TFLiteReg.Inputs CMD_SET_REG then
    match inputSettings w with
    | Some current =>
        if Buffer.equals (data packet) current then w
        else
          configureInputs
            (with_settings {| inputsSettings := Some (data packet);
                              arenaSizeSettings := arenaSizeSettings (settings w) |} w)
    | None =>
        configureInputs
          (with_settings {| inputsSettings := Some (data packet);
                            arenaSizeSettings := arenaSizeSettings (settings w) |} w)
    end
  else if cmd =? bor TFLiteReg.OutputShape CMD_GET_REG then
    sendReport cmd (packArray (outputShape (tf w)) UInt16LE) w
  else if cmd =? bor TFLiteReg.InputShape CMD_GET_REG then
    sendReport cmd (packArray (inputShape (tf w)) UInt16LE) w
  else if cmd =? bor TFLiteReg.CurrentSample CMD_GET_REG then sendLastSample w
  else if cmd =? bor TFLiteReg.LastError CMD_GET_REG then
    sendReport cmd (fromUTF8 (if isSet (lastError (host w))
                              then default EmptyString (lastError (host w))
                              else EmptyString)) w
  else w.

(** [TFLiteHost.handlePacket(packet)] *)
Definition handlePacket (packet : JDPacket) (w : World) : World :=
  handleCommand packet (handleRegisters packet w).

(** *** The service as a transition system

    The bus delivers packets to the host and to its collectors; in
    between, the closure at the head of the background queue may run.
    What the environment decides during a background closure is
    gathered in an [Oracle]. *)

Record Oracle : Type := {
  micros0 : Z;
  micros1 : Z;
  invoke : InvokeOutcome;
  pipePort : Z;
  pipeChunks : list Buffer.t;
  load : LoadOutcome
}.

Definition runTask (o : Oracle) (w : World) : World :=
  match background w with
  | [] => w
  | TaskRunModel :: rest =>
      runModel (micros0 o) (micros1 o) (invoke o) (with_background rest w)
  | TaskReadModel packet :: rest =>
      snd (readModel packet (pipePort o) (pipeChunks o) (load o)
             (with_background rest w))
  end.

Inductive Event : Type :=
| HostPacket (packet : JDPacket)
| CollectorPacket (i : nat) (packet : JDPacket)
| Background (o : Oracle).

Definition step (w : World) (e : Event) : World :=
  match e with
  | HostPacket packet => handlePacket packet w
  | CollectorPacket i packet => collectorHandlePacket i packet w
  | Background o => runTask o w
  end.

Definition run (es : list Event) (w : World) : World := fold_left step es w.

End WithFloat32.

(** A device with [capacity] bytes of model storage, nothing stored
    and [saved] as its inputs setting, before [start()]. *)
Definition device (capacity : Z) (saved : option Buffer.t) : World :=
  {| host := newTFLiteHost;
     binstore := {| totalSize := capacity; buffers := [] |};
     settings := {| inputsSettings := saved; arenaSizeSettings := None |};
     tf := {| loadedModel := None; arenaBytes := 0;
              inputShape := []; outputShape := [] |};
     effects := []; background := [] |}.

(** [start()] on such a device: [loadModel], then [configureInputs]. *)
Definition start (capacity : Z) (saved : option Buffer.t) (lo : LoadOutcome)
    : World :=
  configureInputs (loadModel lo (device capacity saved)).

(** ** Notions the properties are stated with *)

(** Following the specification's words: [round(d / I)], halves
    rounding up. *)
Definition roundHalfUp (d interval : Z) : Z := (2 * d + interval) / (2 * interval).

(** The 16-byte collector entries of a configuration blob, in order:
    the slices [configureInputs] hands to the collector constructor. *)
Definition entriesFrom (config : Buffer.t) (off : Z) : list Buffer.t :=
  map (fun k => Buffer.slice config (off + 16 * Z.of_nat k) 16)
      (seq 0 (Z.to_nat ((Buffer.length config - off + 15) / 16))).

Definition configEntries (config : Buffer.t) : list Buffer.t :=
  entriesFrom config 8.

(** One turn of the configuration loop for an already built collector. *)
Definition attachCollector (w : World) (coll : Collector.t) : World :=
  let w := emit (CollectorSetRegInt coll REG_STREAMING_INTERVAL
                   (samplingInterval (host w))) w in
  let w := emit (CollectorSetRegInt coll REG_IS_STREAMING 255) w in
  onHost (fun h => set_collectors (collectors h ++ [coll]) h) w.

(** Sum of the lengths of the collectors' last-sample vectors. *)
Definition frameBytes (colls : list Collector.t) : Z :=
  foldr Z.add 0 (map (fun c => Buffer.length (Collector.lastSample c)) colls).

(** Fields of an entry, as the blob layout names them. *)
Definition entrySampleSize (entry : Buffer.t) : Z := Buffer.getNumber entry UInt8LE 13.
Definition entrySampleType (entry : Buffer.t) : Z := Buffer.getNumber entry UInt8LE 14.
Definition entrySampleShift (entry : Buffer.t) : Z := Buffer.getNumber entry Int8LE 15.

(** Following the specification's words: the sum over the collectors of
    their declared [sampleSizeBytes]. *)
Definition declaredFrameBytes (config : Buffer.t) : Z :=
  foldr Z.add 0 (map entrySampleSize (configEntries config)).

(** Bytes one entry contributes to a frame: four per declared element. *)
Definition entryFrameBytes (entry : Buffer.t) : Z :=
  4 * idiv (entrySampleSize entry)
        (Buffer.sizeOfNumberFormat (numberFmt (entrySampleType entry))).

Definition float32FrameBytes (config : Buffer.t) : Z :=
  foldr Z.add 0 (map entryFrameBytes (configEntries config)).

(** The frame a push appends: the collectors' last samples, in order. *)
Definition currentFrame (h : TFLiteHost) : Buffer.t :=
  concat (map Collector.lastSample (collectors h)).

(** The last [n] elements of a list. *)
Definition lastN {A : Type} (n : nat) (l : list A) : list A :=
  drop (List.length l - n) l.

(** The window over a history of pushed frames (oldest first): the
    [window] most recent frames, the buffer's initial zero frames
    standing for the pushes that have not happened yet. *)
Definition windowOf (window frameSz : Z) (history : list Buffer.t) : Buffer.t :=
  concat (lastN (Z.to_nat window)
            (replicate (Z.to_nat window) (Buffer.create frameSz) ++ history)).

(** The window buffer of [w] holds the window over [history]. *)
Definition WindowHolds (w : World) (history : list Buffer.t) : Prop :=
  let h := host w in
  0 <= samplesInWindow h
  /\ 0 <= sampleSize h
  /\ Buffer.length (currentFrame h) = sampleSize h
  /\ Forall (fun f => Buffer.length f = sampleSize h) history
  /\ samplesBuffer h = windowOf (samplesInWindow h) (sampleSize h) history.

(** Model runs scheduled and not yet executed. *)
Definition isRunModel (t : Task) : bool :=
  match t with
  | TaskRunModel => true
  | TaskReadModel _ => false
  end.

Definition pendingRuns (w : World) : nat :=
  List.length (List.filter isRunModel (background w)).

(** A write of the inputs register, the one event that reconfigures. *)
Definition isInputsWrite (e : Event) : bool :=
  match e with
  | HostPacket packet => service_command packet =? bor TFLiteReg.Inputs CMD_SET_REG
  | _ => false
  end.

(** A get of register [reg], and the reports the host answers it with. *)
Definition getRegister (reg : Z) : JDPacket :=
  {| service_command := bor CMD_GET_REG reg; data := []; timestamp := 0 |}.

Definition registerReply (reg : Z) (w : World) : list Effect :=
  drop (List.length (effects w)) (effects (handlePacket (getRegister reg) w)).

(** Total number of bytes a stream delivers. *)
Definition streamBytes (chunks : list Buffer.t) : Z :=
  foldr Z.add 0 (map Buffer.length chunks).

(** The four bytes of element [i] of a float32 vector. *)
Definition float32Cell (i : nat) (b : Buffer.t) : list Z :=
  take 4 (drop (4 * i) b).

(** The register writes [configureInputs] sends to a new collector. *)
Definition streamingSetup (interval : Z) (coll : Collector.t) : list Effect :=
  [CollectorSetRegInt coll REG_STREAMING_INTERVAL interval;
   CollectorSetRegInt coll REG_IS_STREAMING 255].

(** At most one run is in flight, and while one is, the sentinel is set. *)
Definition RunGuard (w : World) : Prop :=
  (pendingRuns w <= 1)%nat
  /\ (pendingRuns w = 1%nat -> lastRunNumSamples (host w) < 0).

(** The header bytes and the length of a storage region, if allocated. *)
Definition regionHeader (region : nat) (w : World) : option (list Z * nat) :=
  (fun r => (take 8 r, List.length r)) <$> buffers (binstore w) !! region.

(** ** Example data *)

(** A configuration entry with a wildcard device id, as in the blob
    layout: device id, service class, service index, sample size,
    sample type, sample shift. *)
Definition sampleEntry (sampleSize sampleType sampleShift : Z) : Buffer.t :=
  [0; 0; 0; 0; 0; 0; 0; 0; 0x8c; 0x11; 0xfe; 0x13; 0;
   sampleSize; sampleType; sampleShift].

(** A configuration: 100 ms interval, a window of 3 frames, one
    collector of four 16-bit elements (8 bytes per reading). *)
Definition exampleConfig : Buffer.t :=
  [100; 0; 3; 0; 0; 0; 0; 0] ++ sampleEntry 8 TFLiteSampleType.I16 0.

(** The example device after [start()]: configured, no model stored. *)
Definition configuredDevice : World :=
  start 4096 (Some exampleConfig) (LoadReturns 0).

(** A SetModel command declaring [size] bytes. *)
Definition setModelPacket (size : Z) : JDPacket :=
  {| service_command := TFLiteCmd.SetModel; data := Buffer.leBytes 4 size;
     timestamp := 0 |}.

(** The example device after the complete upload of a 16-byte model
    that the interpreter accepts. *)
Definition loadedDevice : World :=
  snd (readModel (setModelPacket 16) 1
         [[28; 0; 0; 0; 84; 70; 76; 51; 0; 0; 0; 0; 0; 0; 0; 0]]
         (LoadReturns 2000) configuredDevice).

(** A register-read report carrying four 16-bit readings, and a write
    of the auto-invoke threshold. *)
Definition readingReport (ts : Z) (a b c d : Z) : JDPacket :=
  {| service_command := bor CMD_GET_REG REG_READING;
     data := [a; 0; b; 0; c; 0; d; 0]; timestamp := ts |}.

Definition setAutoInvoke (n : Z) : JDPacket :=
  {| service_command := bor TFLiteReg.AutoInvokeEvery CMD_SET_REG;
     data := Buffer.leBytes 2 n; timestamp := 0 |}.

Definition setInputs (config : Buffer.t) : JDPacket :=
  {| service_command := bor TFLiteReg.Inputs CMD_SET_REG;
     data := config; timestamp := 0 |}.

(** A stream that delivers 512 bytes in two chunks and then closes. *)
Definition halfStream : list Buffer.t := [replicate 256 7; replicate 256 9].

(** The value [getNumber] reads back for [v] stored in format [fmt]:
    [v] reduced to the width of the format, as a signed or unsigned
    number. *)
Definition wrapNumber (fmt : NumberFormat) (v : Z) : Z :=
  let bits := 8 * Buffer.sizeOfNumberFormat (Some fmt) in
  let u := v mod 2 ^ bits in
  if Buffer.isSigned fmt && (2 ^ (bits - 1) <=? u) then u - 2 ^ bits else u.

(** A stream every chunk of which, except the last, has a length that
    is a multiple of 8: the streams the alignment check of [readModel]
    lets through. *)
Fixpoint alignedStream (chunks : list Buffer.t) : Prop :=
  match chunks with
  | [] => True
  | c :: rest =>
      match rest with
      | [] => True
      | _ :: _ => Buffer.length c mod 8 = 0 /\ alignedStream rest
      end
  end.

(** What a read of each register reports: the register codes the code
    answers, each with the payload it sends. *)
Definition registerTable (w : World) : list (Z * Buffer.t) :=
  [ (TFLiteReg.AllocatedArenaSize, Buffer.leBytes 4 (arenaBytes (tf w)));
    (TFLiteReg.LastRunTime, Buffer.leBytes 4 (execTime (host w)));
    (TFLiteReg.ModelSize, Buffer.leBytes 4 (modelSize w));
    (TFLiteReg.NumSamples, Buffer.leBytes 4 (numSamples (host w)));
    (TFLiteReg.SampleSize, Buffer.leBytes 4 (sampleSize (host w)));
    (TFLiteReg.Outputs, outputs (host w));
    (TFLiteReg.StreamSamples, Buffer.leBytes 4 (streamSamples (host w)));
    (TFLiteReg.AutoInvokeEvery, Buffer.leBytes 4 (autoInvokeSamples (host w)));
    (TFLiteReg.Inputs, default [] (inputSettings w));
    (TFLiteReg.OutputShape, packArray (outputShape (tf w)) UInt16LE);
    (TFLiteReg.InputShape, packArray (inputShape (tf w)) UInt16LE);
    (TFLiteReg.CurrentSample,
     Buffer.slice (samplesBuffer (host w))
       (Buffer.length (samplesBuffer (host w)) - sampleSize (host w))
       (sampleSize (host w)));
    (TFLiteReg.LastError, fromUTF8 (default EmptyString (lastError (host w)))) ].

Definition registerPayload (reg : Z) (w : World) : option Buffer.t :=
  snd <$> find (fun entry => fst entry =? reg) (registerTable w).

(** Two host states with the same window: window length, frame size,
    collectors and window buffer. *)
Definition sameWindow (h h' : TFLiteHost) : Prop :=
  samplesInWindow h' = samplesInWindow h
  /\ sampleSize h' = sampleSize h
  /\ collectors h' = collectors h
  /\ samplesBuffer h' = samplesBuffer h.

(** A host that has been configured: at some point [configureInputs]
    found a saved blob, and has thereby assigned the window buffer (and
    every other field the constructor leaves unassigned, except the tick
    and the stream counter); events do not unassign them. *)
Inductive Configured (float32Bits : Q -> Z) : World -> Prop :=
| Configured_now (w : World) :
    inputSettings w <> None -> Configured float32Bits (configureInputs w)
| Configured_later (w : World) (e : Event) :
    Configured float32Bits w -> Configured float32Bits (step float32Bits w e).

(** *** The history of frames an execution pushes

    Written from the description of the timing reconciler: a report for
    collector [i] pushes, when the frame count [fc] for the time since
    the tick is not 0, [min(fc - 1, 5)] copies of the frame as it was
    before the report and then, if the collector's sample type has a
    number format, one frame with the collector's readings replaced by
    those of the report. *)
Definition reportFrames (float32Bits : Q -> Z) (i : nat) (packet : JDPacket)
    (w : World) : list Buffer.t :=
  match collectors (host w) !! i with
  | None => []
  | Some c =>
      if service_command packet =? bor CMD_GET_REG REG_READING then
        let tick := if lastSample (host w) =? 0 then timestamp packet
                    else lastSample (host w) in
        let fc := frameCount (timestamp packet - tick)
                    (samplingInterval (host w)) in
        if fc =? 0 then []
        else
          replicate (Z.to_nat (Z.min 5 (fc - 1))) (currentFrame (host w))
            ++ match numberFmt (Collector.sampleType c) with
               | None => []
               | Some fmt =>
                   [concat
                      (map Collector.lastSample
                         (alter (fun c => collectorUpdate float32Bits c fmt
                                            (data packet)) i
                            (collectors (host w))))]
               end
      else []
  end.

(** Only collector reports push frames. *)
Definition eventFrames (float32Bits : Q -> Z) (e : Event) (w : World)
    : list Buffer.t :=
  match e with
  | CollectorPacket i packet => reportFrames float32Bits i packet w
  | _ => []
  end.

(** A write of the inputs register with a blob other than the stored
    one: the event that rebuilds the window. *)
Definition reconfigures (e : Event) (w : World) : bool :=
  match e with
  | HostPacket packet =>
      (service_command packet =? bor TFLiteReg.Inputs CMD_SET_REG)
      && negb (bool_decide (inputSettings w = Some (data packet)))
  | _ => false
  end.

(** The history after the events [es], starting from [history] in
    [w]: a reconfiguration empties it, every other event appends the
    frames it pushes. *)
Fixpoint historyAfter (float32Bits : Q -> Z) (es : list Event) (w : World)
    (history : list Buffer.t) : list Buffer.t :=
  match es with
  | [] => history
  | e :: rest =>
      historyAfter float32Bits rest (step float32Bits w e)
        (if reconfigures e w then []
         else history ++ eventFrames float32Bits e w)
  end.

(** Following the specification's words: the declared total size [S]
    of a SetModel command, its argument read as the unsigned 32-bit
    integer the command is documented to carry. *)
Definition declaredSize (packet : JDPacket) : Z :=
  Buffer.getNumber (data packet) UInt32LE 0.

(** Following the layout of the configuration blob: what a 16-byte
    entry says about its collector (service class and index, pinned
    device if any, sample type, element count, scale and a zeroed
    vector of one float32 per element). *)
Definition builtFrom (entry : Buffer.t) (c : Collector.t) : Prop :=
  Collector.serviceClass c = Buffer.getNumber entry UInt32LE 8
  /\ Collector.requiredServiceNum c = Buffer.getNumber entry UInt8LE 12
  /\ Collector.devId c
     = (if Buffer.getNumber entry Int32LE 0 =? 0 then None
        else Some (Buffer.slice entry 0 8))
  /\ Collector.sampleType c = entrySampleType entry
  /\ Collector.numElts c
     = idiv (entrySampleSize entry)
         (Buffer.sizeOfNumberFormat (numberFmt (entrySampleType entry)))
  /\ (Collector.sampleMult c == 2 ^ (- entrySampleShift entry))%Q
  /\ Collector.lastSample c = Buffer.create (4 * Collector.numElts c).

(** * Properties *)

(** ** The runtime's buffers on small inputs *)

Example slice_demo : Buffer.slice [1; 2; 3; 4; 5] 1 3 = [2; 3; 4].
Proof. reflexivity. Qed.

Example write_clipped : Buffer.write [0; 0; 0] 2 [7; 8] = [0; 0; 7].
Proof. reflexivity. Qed.

Example shift_demo : Buffer.shift [1; 2; 3; 4] 1 = [2; 3; 4; 0].
Proof. reflexivity. Qed.

Example getNumber_erased : Buffer.getNumber [255; 255; 255; 255; 9] Int32LE 0 = -1.
Proof. reflexivity. Qed.

Example toArray_i16 : Buffer.toArray [1; 0; 255; 255] Int16LE = [1; -1].
Proof. reflexivity. Qed.

(** ** 32-bit arithmetic *)

Lemma toInt32_small (x : Z) : - 2 ^ 31 <= x < 2 ^ 31 -> toInt32 x = x.
Proof.
  intros Hx. unfold toInt32.
  rewrite Z.mod_small by lia. lia.
Qed.

Lemma idiv_nonneg (x y : Z) :
  0 <= x < 2 ^ 31 -> 0 < y < 2 ^ 31 -> idiv x y = x / y.
Proof.
  intros Hx Hy. unfold idiv.
  rewrite (toInt32_small x), (toInt32_small y) by lia.
  destruct (Z.eqb_spec y 0) as [->|_]; [lia|].
  rewrite Z.quot_div_nonneg by lia.
  apply toInt32_small.
  assert (0 <= x / y) by (apply Z.div_pos; lia).
  assert (x / y <= x) by (apply Z.div_le_upper_bound; nia).
  lia.
Qed.

Lemma idiv_zero_divisor (x : Z) : idiv x 0 = 0.
Proof. reflexivity. Qed.

Lemma sar_one (d : Z) : 0 <= d < 2 ^ 31 -> sar d 1 = d / 2.
Proof.
  intros Hd. unfold sar. rewrite toInt32_small by lia.
  now rewrite Z.shiftr_div_pow2 by lia.
Qed.

Lemma frameCount_floor (d interval : Z) :
  0 <= d -> d + d / 2 < 2 ^ 31 -> 0 < interval < 2 ^ 31 ->
  frameCount d interval = (d + d / 2) / interval.
Proof.
  intros Hd Hsum Hi. unfold frameCount.
  assert (0 <= d / 2) by (apply Z.div_pos; lia).
  rewrite sar_one by lia.
  apply idiv_nonneg; lia.
Qed.

(** ** Record bookkeeping *)

Lemma host_eta (h : TFLiteHost) :
  {| autoInvokeSamples := autoInvokeSamples h; execTime := execTime h;
     outputs := outputs h; lastError := lastError h; collectors := collectors h;
     lastSample := lastSample h; samplingInterval := samplingInterval h;
     samplesInWindow := samplesInWindow h; sampleSize := sampleSize h;
     streamSamples := streamSamples h; samplesBuffer := samplesBuffer h;
     numSamples := numSamples h; lastRunNumSamples := lastRunNumSamples h |} = h.
Proof. now destruct h. Qed.

Lemma with_host_same (w : World) : with_host (host w) w = w.
Proof. now destruct w. Qed.

Lemma set_lastSample_same (w : World) :
  onHost (set_lastSample (lastSample (host w))) w = w.
Proof.
  unfold onHost, set_lastSample. rewrite host_eta. apply with_host_same.
Qed.

Lemma set_streamSamples_same (w : World) :
  onHost (set_streamSamples (streamSamples (host w))) w = w.
Proof.
  unfold onHost, set_streamSamples. rewrite host_eta. apply with_host_same.
Qed.

Lemma set_autoInvokeSamples_same (w : World) :
  onHost (set_autoInvokeSamples (autoInvokeSamples (host w))) w = w.
Proof.
  unfold onHost, set_autoInvokeSamples. rewrite host_eta. apply with_host_same.
Qed.

Lemma set_outputs_same (w : World) :
  onHost (set_outputs (outputs (host w))) w = w.
Proof.
  unfold onHost, set_outputs. rewrite host_eta. apply with_host_same.
Qed.

(** ** Timing reconciler *)

(** C4 (as amended).  For an event with elapsed time [d >= 0] since the
    last tick and a sampling interval [I > 0] (both within 32 bits),
    the number of frames is [floor((d + floor(d / 2)) / I)]; when it is
    0 the event changes neither the window buffer, nor the sample
    counter, nor anything else but the initialisation of the tick. *)
Theorem C4_frame_count_floor (ts : Z) (isPost : bool) (w : World) :
  let tick := if lastSample (host w) =? 0 then ts else lastSample (host w) in
  let d := ts - tick in
  let interval := samplingInterval (host w) in
  0 <= d -> d + d / 2 < 2 ^ 31 -> 0 < interval < 2 ^ 31 ->
  frameCount d interval = (d + d / 2) / interval
  /\ (frameCount d interval = 0 ->
      newData ts isPost w = onHost (set_lastSample tick) w
      /\ samplesBuffer (host (newData ts isPost w)) = samplesBuffer (host w)
      /\ numSamples (host (newData ts isPost w)) = numSamples (host w)
      /\ effects (newData ts isPost w) = effects w
      /\ background (newData ts isPost w) = background w).
Proof.
  intros tick d interval Hd Hsum Hi.
  split; [now apply frameCount_floor|].
  intros Hzero.
  assert (Hnew : newData ts isPost w = onHost (set_lastSample tick) w).
  { unfold newData. subst d interval tick.
    destruct (Z.eqb_spec (lastSample (host w)) 0) as [E|E]; cbn [host onHost with_host set_lastSample lastSample samplingInterval] in *.
    - rewrite Hzero. reflexivity.
    - rewrite Hzero. cbn. symmetry. apply set_lastSample_same. }
  rewrite Hnew. repeat split; reflexivity.
Qed.

Lemma C4_frame_count_floor_witness :
  let w := onHost (set_lastSample 1000) configuredDevice in
  frameCount (1100 - 1000) 100 = (100 + 100 / 2) / 100
  /\ frameCount (1010 - 1000) 100 = 0
  /\ newData 1010 true w = w.
Proof.
  intros w.
  destruct (C4_frame_count_floor 1100 true w) as [Hcount _];
    [vm_compute; discriminate|vm_compute; reflexivity|vm_compute; split; reflexivity|].
  destruct (C4_frame_count_floor 1010 true w) as [Hnone Hidle];
    [vm_compute; discriminate|vm_compute; reflexivity|vm_compute; split; reflexivity|].
  split; [exact Hcount|]. split; [vm_compute; reflexivity|].
  destruct Hidle as [Hsame _]; [vm_compute; reflexivity|].
  rewrite Hsame. apply set_lastSample_same.
Defined.

(** C4 (as stated) fails: 200 ms at a 100 ms interval give 3 frames,
    while rounding 200 / 100 gives 2.  (And for a negative elapsed time
    the division truncates towards zero rather than flooring.) *)
Lemma C4_counterexample :
  frameCount 200 100 = 3 /\ roundHalfUp 200 100 = 2
  /\ frameCount 200 100 <> roundHalfUp 200 100
  /\ frameCount (-1) 100 = 0 /\ (-1 + -1 / 2) / 100 = -1.
Proof. vm_compute. intuition discriminate. Qed.

(** ** Collector scaling *)

Lemma Qpower2_succ (n : nat) : (2 ^ Z.of_nat (S n) == 2 * 2 ^ Z.of_nat n)%Q.
Proof.
  rewrite Nat2Z.inj_succ. unfold Z.succ.
  rewrite Qpower_plus by discriminate.
  rewrite Qmult_comm. reflexivity.
Qed.

Lemma Qpower2_nonzero (n : nat) : ~ (2 ^ Z.of_nat n == 0)%Q.
Proof.
  intros H. apply Qpower_not_0 in H; [exact H|discriminate].
Qed.

Lemma divLoop_exact (n : nat) (m : Q) :
  snd (Collector.divLoop n m (Z.of_nat n)) = 0
  /\ (fst (Collector.divLoop n m (Z.of_nat n)) == m / 2 ^ Z.of_nat n)%Q.
Proof.
  revert m. induction n as [|n IH]; intros m.
  - split; [reflexivity|]. cbn. change (Z.of_nat 0) with 0. field.
  - cbn [Collector.divLoop].
    replace (0 <? Z.of_nat (S n)) with true by (symmetry; apply Z.ltb_lt; lia).
    replace (Z.of_nat (S n) - 1) with (Z.of_nat n) by lia.
    destruct (IH (m / 2)%Q) as [Hs Hf]. split; [exact Hs|].
    rewrite Hf, Qpower2_succ.
    pose proof (Qpower2_nonzero n) as Hnz.
    set (p := (2 ^ Z.of_nat n)%Q) in *. field. exact Hnz.
Qed.

Lemma mulLoop_exact (n : nat) (m : Q) :
  snd (Collector.mulLoop n m (- Z.of_nat n)) = 0
  /\ (fst (Collector.mulLoop n m (- Z.of_nat n)) == m * 2 ^ Z.of_nat n)%Q.
Proof.
  revert m. induction n as [|n IH]; intros m.
  - split; [reflexivity|]. cbn. change (Z.of_nat 0) with 0. ring.
  - cbn [Collector.mulLoop].
    replace (- Z.of_nat (S n) <? 0) with true by (symmetry; apply Z.ltb_lt; lia).
    replace (- Z.of_nat (S n) + 1) with (- Z.of_nat n) by lia.
    destruct (IH (m * 2)%Q) as [Hs Hf]. split; [exact Hs|].
    rewrite Hf, Qpower2_succ.
    set (p := (2 ^ Z.of_nat n)%Q). ring.
Qed.

Lemma mulLoop_done (n : nat) (m : Q) : Collector.mulLoop n m 0 = (m, 0).
Proof. destruct n; reflexivity. Qed.

Lemma divLoop_skipped (n : nat) (m : Q) (sh : Z) :
  sh <= 0 -> Collector.divLoop n m sh = (m, sh).
Proof.
  intros H. destruct n; [reflexivity|]. cbn.
  now replace (0 <? sh) with false by (symmetry; apply Z.ltb_ge; lia).
Qed.

(** The two loops of the constructor leave [2^(-sampleShift)]: a
    positive shift divides, a negative one multiplies. *)
Lemma computeSampleMult_power (e : Z) :
  (Collector.computeSampleMult e == 2 ^ (- e))%Q.
Proof.
  unfold Collector.computeSampleMult.
  destruct (Z.lt_trichotomy e 0) as [Hneg|[->|Hpos]].
  - rewrite divLoop_skipped by lia.
    replace e with (- Z.of_nat (Z.abs_nat e)) at 2 3 by lia.
    destruct (mulLoop_exact (Z.abs_nat e) 1%Q) as [_ Hf].
    destruct (Collector.mulLoop _ _ _) as [m sh]. cbn [fst] in Hf.
    rewrite Hf, Z.opp_involutive.
    set (p := (2 ^ Z.of_nat (Z.abs_nat e))%Q). ring.
  - reflexivity.
  - replace e with (Z.of_nat (Z.abs_nat e)) at 2 3 by lia.
    destruct (divLoop_exact (Z.abs_nat e) 1%Q) as [Hs Hf].
    destruct (Collector.divLoop _ _ _) as [m sh]. cbn [fst snd] in Hs, Hf.
    subst sh. rewrite mulLoop_done, Hf, Qpower_opp.
    pose proof (Qpower2_nonzero (Z.abs_nat e)) as Hnz.
    set (p := (2 ^ Z.of_nat (Z.abs_nat e))%Q) in *. field. exact Hnz.
Qed.

(** ** Buffer writes *)

Lemma Buffer_length_nonneg (b : Buffer.t) : 0 <= Buffer.length b.
Proof. unfold Buffer.length. lia. Qed.

Lemma Buffer_write_inside (dst src : Buffer.t) (off : Z) :
  0 <= off -> off + Buffer.length src <= Buffer.length dst ->
  Buffer.write dst off src
  = take (Z.to_nat off) dst ++ src
      ++ drop (Z.to_nat off + List.length src)%nat dst.
Proof.
  unfold Buffer.write, Buffer.length. intros Hoff Hfit.
  replace (off <? 0) with false by (symmetry; apply Z.ltb_ge; lia).
  replace (Z.of_nat (List.length dst) <? off) with false
    by (symmetry; apply Z.ltb_ge; lia).
  cbn [orb]. rewrite Z.min_l by lia.
  rewrite Nat2Z.id, firstn_all.
  do 3 f_equal. lia.
Qed.

Lemma Buffer_length_write (dst src : Buffer.t) (off : Z) :
  Buffer.length (Buffer.write dst off src) = Buffer.length dst.
Proof.
  unfold Buffer.write, Buffer.length.
  destruct (_ || _) eqn:E; [reflexivity|].
  apply orb_false_iff in E as [E1 E2].
  apply Z.ltb_ge in E1, E2.
  rewrite !length_app, !length_take, length_drop. lia.
Qed.

Lemma Buffer_length_create (n : Z) : 0 <= n -> Buffer.length (Buffer.create n) = n.
Proof.
  intros Hn. unfold Buffer.length, Buffer.create. rewrite length_replicate. lia.
Qed.

Lemma length_leBytes (n : nat) (v : Z) : List.length (Buffer.leBytes n v) = n.
Proof. revert v. induction n; intros v; cbn; [reflexivity|now rewrite IHn]. Qed.

(** Splicing [src] into [dst] at position [a]. *)
Lemma splice_at (dst src : list Z) (a : nat) :
  (a + List.length src <= List.length dst)%nat ->
  take (List.length src)
    (drop a (take a dst ++ src ++ drop (a + List.length src) dst)) = src.
Proof.
  intros H. rewrite drop_app_length' by (rewrite length_take; lia).
  apply take_app_length.
Qed.

Lemma splice_before (dst src : list Z) (a b n : nat) :
  (b + n <= a)%nat -> (a <= List.length dst)%nat ->
  take n (drop b (take a dst ++ src ++ drop (a + List.length src) dst))
  = take n (drop b dst).
Proof.
  intros H1 H2.
  rewrite drop_app_le by (rewrite length_take; lia).
  rewrite take_app_le by (rewrite length_drop, length_take; lia).
  rewrite !take_drop_commute, take_take. do 2 f_equal. lia.
Qed.

Lemma splice_after (dst src : list Z) (a b n : nat) :
  (a + List.length src <= b)%nat -> (a <= List.length dst)%nat ->
  take n (drop b (take a dst ++ src ++ drop (a + List.length src) dst))
  = take n (drop b dst).
Proof.
  intros H1 H2.
  rewrite app_assoc, drop_app_ge by (rewrite length_app, length_take; lia).
  rewrite length_app, length_take, drop_drop. do 2 f_equal. lia.
Qed.

Lemma shl_two (i : nat) : Z.of_nat i < 2 ^ 29 -> shl (Z.of_nat i) 2 = Z.of_nat (4 * i).
Proof.
  intros Hi. unfold shl.
  rewrite (toInt32_small (Z.of_nat i)) by lia.
  rewrite Z.shiftl_mul_pow2 by lia.
  rewrite toInt32_small by lia. lia.
Qed.

Lemma toArray_length (payload : Buffer.t) (f : NumberFormat) :
  Buffer.length payload < 2 ^ 29 ->
  Z.of_nat (List.length (Buffer.toArray payload f)) <= Buffer.length payload.
Proof.
  intros Hlen. pose proof (Buffer_length_nonneg payload) as Hpos.
  unfold Buffer.toArray. cbv zeta.
  rewrite length_map, length_seq.
  assert (Hsz : 0 < Buffer.sizeOfNumberFormat (Some f) < 2 ^ 31)
    by (destruct f; cbn; lia).
  rewrite idiv_nonneg by lia.
  assert (0 <= Buffer.length payload / Buffer.sizeOfNumberFormat (Some f))
    by (apply Z.div_pos; lia).
  assert (Buffer.length payload / Buffer.sizeOfNumberFormat (Some f)
          <= Buffer.length payload) by (apply Z.div_le_upper_bound; nia).
  lia.
Qed.

Section ScalingProofs.

Variable float32Bits : Q -> Z.

Lemma setNumberF32_length (b : Buffer.t) (off : Z) (v : Q) :
  Buffer.length (setNumberF32 float32Bits b off v) = Buffer.length b.
Proof.
  unfold setNumberF32. destruct (_ || _); [reflexivity|].
  apply Buffer_length_write.
Qed.

Lemma setNumberF32_inside (b : Buffer.t) (i : nat) (v : Q) :
  Z.of_nat (4 * i + 4) <= Buffer.length b ->
  setNumberF32 float32Bits b (Z.of_nat (4 * i)) v
  = take (4 * i) b ++ Buffer.leBytes 4 (float32Bits v)
      ++ drop (4 * i + List.length (Buffer.leBytes 4 (float32Bits v)))%nat b.
Proof.
  intros Hfit. unfold setNumberF32.
  replace (Z.of_nat (4 * i) <? 0) with false by (symmetry; apply Z.ltb_ge; lia).
  replace (Buffer.length b <? Z.of_nat (4 * i) + 4) with false
    by (symmetry; apply Z.ltb_ge; lia).
  cbn [orb]. rewrite Buffer_write_inside.
  - now rewrite Nat2Z.id.
  - lia.
  - unfold Buffer.length in *. rewrite length_leBytes. lia.
Qed.

Lemma setNumberF32_cell_eq (b : Buffer.t) (i : nat) (v : Q) :
  Z.of_nat (4 * i + 4) <= Buffer.length b ->
  float32Cell i (setNumberF32 float32Bits b (Z.of_nat (4 * i)) v)
  = Buffer.leBytes 4 (float32Bits v).
Proof.
  intros Hfit. rewrite setNumberF32_inside by exact Hfit.
  unfold float32Cell.
  rewrite <- (length_leBytes 4 (float32Bits v)) at 1.
  apply splice_at. unfold Buffer.length in Hfit.
  rewrite length_leBytes. lia.
Qed.

Lemma setNumberF32_cell_ne (b : Buffer.t) (i k : nat) (v : Q) :
  k <> i ->
  float32Cell k (setNumberF32 float32Bits b (Z.of_nat (4 * i)) v)
  = float32Cell k b.
Proof.
  intros Hne.
  destruct (Z_le_gt_dec (Z.of_nat (4 * i + 4)) (Buffer.length b)) as [Hfit|Hout].
  - rewrite setNumberF32_inside by exact Hfit.
    unfold float32Cell, Buffer.length in *.
    destruct (Nat.lt_ge_cases k i).
    + apply splice_before; lia.
    + apply splice_after; [rewrite length_leBytes|]; lia.
  - unfold setNumberF32.
    replace (Buffer.length b <? Z.of_nat (4 * i) + 4) with true
      by (symmetry; apply Z.ltb_lt; lia).
    now rewrite orb_true_r.
Qed.

Lemma storeSamples_length (c : Collector.t) (arr : list Z) (i : Z) (b : Buffer.t) :
  Buffer.length (storeSamples float32Bits c arr i b) = Buffer.length b.
Proof.
  revert i b. induction arr as [|a rest IH]; intros i b; cbn; [reflexivity|].
  now rewrite IH, setNumberF32_length.
Qed.

(** Elements below the running index are left alone. *)
Lemma storeSamples_before (c : Collector.t) (arr : list Z) (i k : nat)
    (b : Buffer.t) :
  Z.of_nat (i + List.length arr) < 2 ^ 29 -> (k < i)%nat ->
  float32Cell k (storeSamples float32Bits c arr (Z.of_nat i) b) = float32Cell k b.
Proof.
  revert i b. induction arr as [|a rest IH]; intros i b Hsmall Hk; [reflexivity|].
  cbn [storeSamples List.length] in *.
  replace (Z.of_nat i + 1) with (Z.of_nat (S i)) by lia.
  rewrite IH by lia.
  rewrite shl_two by lia.
  apply setNumberF32_cell_ne. lia.
Qed.

(** Element [i + j] receives the scaled [j]-th decoded value. *)
Lemma storeSamples_at (c : Collector.t) (arr : list Z) (i j : nat)
    (b : Buffer.t) (raw : Z) :
  Z.of_nat (i + List.length arr) < 2 ^ 29 ->
  arr !! j = Some raw ->
  Z.of_nat (4 * (i + j) + 4) <= Buffer.length b ->
  float32Cell (i + j) (storeSamples float32Bits c arr (Z.of_nat i) b)
  = Buffer.leBytes 4 (float32Bits (Collector.scaled c raw)).
Proof.
  revert i j b. induction arr as [|a rest IH]; intros i j b Hsmall Hj Hfit;
    [discriminate|].
  cbn [storeSamples List.length] in *.
  replace (Z.of_nat i + 1) with (Z.of_nat (S i)) by lia.
  rewrite shl_two by lia.
  destruct j as [|j]; cbn in Hj.
  - injection Hj as ->. rewrite Nat.add_0_r in *.
    rewrite storeSamples_before by lia.
    now apply setNumberF32_cell_eq.
  - replace (i + S j)%nat with (S i + j)%nat in * by lia.
    apply IH; [lia|exact Hj|].
    now rewrite setNumberF32_length.
Qed.

(** C3 (as amended).  For a collector configured by [entry] with
    shift field [e] and a register-read report [payload], every
    element decoded in the format [fmt] of the collector's sample type
    that has a slot in the last-sample vector is multiplied by
    [2^(-e)] (a positive [e] divides, a negative one multiplies) and
    the product is stored as float32 in that slot. *)
Theorem C3_scaled_by_negated_shift (entry previous payload : Buffer.t)
    (fmt : NumberFormat) (i : nat) (raw : Z) :
  let c := Collector.with_lastSample previous (Collector.create entry) in
  numberFmt (Collector.sampleType c) = Some fmt ->
  Buffer.length previous = 4 * Collector.numElts c ->
  Buffer.length payload < 2 ^ 29 ->
  Buffer.toArray payload fmt !! i = Some raw ->
  Z.of_nat i < Collector.numElts c ->
  float32Cell i (Collector.lastSample (collectorUpdate float32Bits c fmt payload))
  = Buffer.leBytes 4 (float32Bits (Collector.scaled c raw))
  /\ (Collector.scaled c raw == inject_Z raw * 2 ^ (- entrySampleShift entry))%Q.
Proof.
  intros c Hfmt Hlen Hpayload Hraw Hi. split.
  - unfold collectorUpdate. cbn [Collector.lastSample Collector.with_lastSample].
    pose proof (toArray_length payload fmt Hpayload) as Harr.
    apply (storeSamples_at c _ 0 i); [cbn [Nat.add]; lia|exact Hraw|].
    cbn [Collector.lastSample c Collector.with_lastSample Nat.add].
    lia.
  - unfold Collector.scaled, c, entrySampleShift.
    cbn [Collector.sampleMult Collector.with_lastSample Collector.create].
    now rewrite computeSampleMult_power.
Qed.

End ScalingProofs.

Lemma C3_scaled_by_negated_shift_witness :
  let c := Collector.with_lastSample [0; 0; 0; 0; 0; 0; 0; 0]
             (Collector.create (sampleEntry 2 TFLiteSampleType.U8 1)) in
  float32Cell 1 (Collector.lastSample (collectorUpdate Qnum c UInt8LE [4; 6]))
  = Buffer.leBytes 4 (Qnum (Collector.scaled c 6))
  /\ (Collector.scaled c 6 == inject_Z 6 * 2 ^ (- 1))%Q.
Proof.
  apply (C3_scaled_by_negated_shift Qnum (sampleEntry 2 TFLiteSampleType.U8 1)
           [0; 0; 0; 0; 0; 0; 0; 0] [4; 6] UInt8LE 1 6); vm_compute; congruence.
Defined.

(** C3 (as stated) fails: with shift 1 the element 4 is stored as
    4 * 2^(-1) = 2, not as 4 * 2^1 = 8. *)
Lemma C3_counterexample :
  let entry := sampleEntry 1 TFLiteSampleType.U8 1 in
  let c := Collector.create entry in
  entrySampleShift entry = 1
  /\ numberFmt (Collector.sampleType c) = Some UInt8LE
  /\ Buffer.toArray [4] UInt8LE = [4]
  /\ (Collector.scaled c 4 == 2)%Q
  /\ ~ (Collector.scaled c 4 == inject_Z 4 * 2 ^ entrySampleShift entry)%Q.
Proof.
  cbv zeta. repeat split; try reflexivity.
  vm_compute. discriminate.
Qed.

(** ** Configuration *)

Lemma entriesFrom_done (config : Buffer.t) (off : Z) :
  Buffer.length config <= off -> entriesFrom config off = [].
Proof.
  intros H. unfold entriesFrom.
  assert ((Buffer.length config - off + 15) / 16 <= 0).
  { apply Z.lt_succ_r, Z.div_lt_upper_bound; lia. }
  now replace (Z.to_nat _) with 0%nat by lia.
Qed.

Lemma entriesFrom_next (config : Buffer.t) (off : Z) :
  off < Buffer.length config ->
  entriesFrom config off
  = Buffer.slice config off 16 :: entriesFrom config (off + 16).
Proof.
  intros H. unfold entriesFrom.
  replace (Buffer.length config - off + 15)
    with (Buffer.length config - (off + 16) + 15 + 1 * 16) by lia.
  rewrite Z.div_add by lia.
  assert (0 <= (Buffer.length config - (off + 16) + 15) / 16)
    by (apply Z.div_pos; lia).
  rewrite Z2Nat.inj_add by lia.
  change (Z.to_nat 1) with 1%nat. rewrite Nat.add_1_r.
  cbn [seq map]. f_equal; [f_equal; lia|].
  rewrite <- seq_shift, map_map.
  apply map_ext. intros k. f_equal. lia.
Qed.

Lemma configureLoop_unroll (config : Buffer.t) (fuel : nat) (off frameSz : Z)
    (w : World) :
  (Z.to_nat ((Buffer.length config - off + 15) / 16) <= fuel)%nat ->
  configureLoop fuel config off frameSz w
  = (frameSz + frameBytes (map Collector.create (entriesFrom config off)),
     fold_left attachCollector (map Collector.create (entriesFrom config off)) w).
Proof.
  revert off frameSz w. induction fuel as [|fuel IH]; intros off frameSz w Hfuel.
  - assert (Buffer.length config <= off) as Hdone.
    { destruct (Z_le_gt_dec (Buffer.length config) off) as [|Hlt]; [assumption|].
      exfalso.
      assert (1 <= (Buffer.length config - off + 15) / 16)
        by (apply Z.div_le_lower_bound; lia).
      lia. }
    rewrite entriesFrom_done by exact Hdone. cbn. f_equal. lia.
  - cbn [configureLoop].
    destruct (Z.ltb_spec off (Buffer.length config)) as [Hlt|Hge].
    + rewrite entriesFrom_next by exact Hlt.
      rewrite IH.
      * cbn [map fold_left frameBytes foldr]. f_equal.
        unfold frameBytes. lia.
      * replace (Buffer.length config - off + 15)
          with (Buffer.length config - (off + 16) + 15 + 1 * 16) in Hfuel by lia.
        rewrite Z.div_add in Hfuel by lia.
        assert (0 <= (Buffer.length config - (off + 16) + 15) / 16)
          by (apply Z.div_pos; lia).
        lia.
    + rewrite entriesFrom_done by exact Hge. cbn. f_equal. lia.
Qed.

Lemma fold_destroy (colls : list Collector.t) (w : World) :
  fold_left (fun w coll => emit (CollectorDestroy coll) w) colls w
  = {| host := host w; binstore := binstore w; settings := settings w;
       tf := tf w; effects := effects w ++ map CollectorDestroy colls;
       background := background w |}.
Proof.
  revert w. induction colls as [|c colls IH]; intros w; cbn [fold_left map].
  - rewrite app_nil_r. now destruct w.
  - rewrite IH. unfold emit. cbn. now rewrite <- app_assoc.
Qed.

Lemma fold_attach (colls : list Collector.t) (w : World) :
  fold_left attachCollector colls w
  = {| host := set_collectors (collectors (host w) ++ colls) (host w);
       binstore := binstore w; settings := settings w; tf := tf w;
       effects := effects w
                  ++ flat_map (streamingSetup (samplingInterval (host w))) colls;
       background := background w |}.
Proof.
  revert w. induction colls as [|c colls IH]; intros w; cbn [fold_left flat_map].
  - rewrite !app_nil_r. unfold set_collectors. rewrite host_eta. now destruct w.
  - rewrite IH. unfold attachCollector, onHost, with_host, emit, set_collectors.
    cbn. rewrite <- !app_assoc. reflexivity.
Qed.

Lemma configEntries_fuel (config : Buffer.t) :
  (Z.to_nat ((Buffer.length config - 8 + 15) / 16) <= List.length config)%nat.
Proof.
  pose proof (Buffer_length_nonneg config) as Hpos. unfold Buffer.length in *.
  assert ((Z.of_nat (List.length config) - 8 + 15) / 16
          <= Z.of_nat (List.length config)).
  { apply Z.lt_succ_r, Z.div_lt_upper_bound; lia. }
  lia.
Qed.

(** What [configureInputs] leaves behind when a blob is stored. *)
Lemma configureInputs_stored (config : Buffer.t) (w : World) :
  inputSettings w = Some config ->
  let colls := map Collector.create (configEntries config) in
  let interval := Buffer.getNumber config UInt16LE 0 in
  let window := Buffer.getNumber config UInt16LE 2 in
  configureInputs w
  = {| host :=
         {| autoInvokeSamples := autoInvokeSamples (host w);
            execTime := execTime (host w);
            outputs := outputs (host w);
            lastError := lastError (host w);
            collectors := colls;
            lastSample := lastSample (host w);
            samplingInterval := interval;
            samplesInWindow := window;
            sampleSize := frameBytes colls;
            streamSamples := streamSamples (host w);
            samplesBuffer := Buffer.create (window * frameBytes colls);
            numSamples := 0;
            lastRunNumSamples := 0 |};
       binstore := binstore w; settings := settings w; tf := tf w;
       effects := effects w ++ map CollectorDestroy (collectors (host w))
                  ++ flat_map (streamingSetup interval) colls;
       background := background w |}.
Proof.
  intros Hcfg colls interval window. unfold configureInputs. rewrite Hcfg.
  rewrite fold_destroy.
  rewrite configureLoop_unroll by apply configEntries_fuel.
  rewrite fold_attach. cbn. rewrite <- app_assoc. reflexivity.
Qed.

Lemma leValue_nonneg (bs : list Z) : 0 <= Buffer.leValue bs.
Proof.
  unfold Buffer.leValue. induction bs as [|b bs IH]; cbn; [lia|].
  pose proof (Z.mod_pos_bound b 256 ltac:(lia)). lia.
Qed.

Lemma getNumber_unsigned_nonneg (b : Buffer.t) (fmt : NumberFormat) (off : Z) :
  Buffer.isSigned fmt = false -> 0 <= Buffer.getNumber b fmt off.
Proof.
  intros Hfmt. unfold Buffer.getNumber. rewrite Hfmt. cbn [andb].
  destruct (_ || _); [lia|apply leValue_nonneg].
Qed.

Lemma getNumber_u8_range (b : Buffer.t) (off : Z) :
  0 <= Buffer.getNumber b UInt8LE off <= 255.
Proof.
  unfold Buffer.getNumber. cbn [Buffer.isSigned andb Buffer.sizeOfNumberFormat].
  destruct (_ || _); [lia|].
  change (Z.to_nat 1) with 1%nat.
  destruct (drop (Z.to_nat off) b) as [|x rest]; cbn; [lia|].
  rewrite take_0. cbn.
  pose proof (Z.mod_pos_bound x 256 ltac:(lia)). lia.
Qed.

Lemma numElts_nonneg (entry : Buffer.t) :
  0 <= idiv (entrySampleSize entry)
         (Buffer.sizeOfNumberFormat (numberFmt (entrySampleType entry))).
Proof.
  pose proof (getNumber_u8_range entry 13) as Hsz. fold (entrySampleSize entry) in Hsz.
  destruct (numberFmt (entrySampleType entry)) as [f|];
    [|cbn [Buffer.sizeOfNumberFormat]; rewrite idiv_zero_divisor; lia].
  assert (0 < Buffer.sizeOfNumberFormat (Some f) < 2 ^ 31) by (destruct f; cbn; lia).
  rewrite idiv_nonneg by lia.
  apply Z.div_pos; lia.
Qed.

Lemma create_lastSample_length (entry : Buffer.t) :
  Buffer.length (Collector.lastSample (Collector.create entry))
  = entryFrameBytes entry.
Proof.
  cbn [Collector.lastSample Collector.create].
  pose proof (numElts_nonneg entry) as H.
  unfold entryFrameBytes, entrySampleSize, entrySampleType in *.
  rewrite Buffer_length_create; lia.
Qed.

Lemma frameBytes_created (entries : list Buffer.t) :
  frameBytes (map Collector.create entries)
  = foldr Z.add 0 (map entryFrameBytes entries).
Proof.
  unfold frameBytes. induction entries as [|e es IH]; [reflexivity|].
  cbn [map foldr]. now rewrite IH, create_lastSample_length.
Qed.

Lemma frameBytes_nonneg (colls : list Collector.t) : 0 <= frameBytes colls.
Proof.
  unfold frameBytes. induction colls as [|c cs IH]; cbn; [lia|].
  pose proof (Buffer_length_nonneg (Collector.lastSample c)). lia.
Qed.

Lemma frameBytes_concat (colls : list Collector.t) :
  Buffer.length (concat (map Collector.lastSample colls)) = frameBytes colls.
Proof.
  unfold frameBytes, Buffer.length.
  induction colls as [|c cs IH]; [reflexivity|].
  cbn [map concat foldr]. rewrite length_app, Nat2Z.inj_add, IH. reflexivity.
Qed.

Lemma concat_zero_frames (n : nat) (m : Z) :
  0 <= m ->
  concat (replicate n (Buffer.create m)) = Buffer.create (Z.of_nat n * m).
Proof.
  intros Hm. unfold Buffer.create. induction n as [|n IH].
  - reflexivity.
  - cbn [replicate concat]. rewrite IH, <- replicate_add. f_equal. nia.
Qed.

Lemma windowOf_initial (window frameSz : Z) :
  0 <= window -> 0 <= frameSz ->
  windowOf window frameSz [] = Buffer.create (window * frameSz).
Proof.
  intros Hw Hf. unfold windowOf, lastN.
  rewrite app_nil_r, length_replicate, Nat.sub_diag, drop_0.
  rewrite concat_zero_frames by exact Hf. f_equal. lia.
Qed.

(** After configuration the window holds the empty history, and its
    length is the window length times four bytes per declared element. *)
Lemma configureInputs_window (config : Buffer.t) (w : World) :
  inputSettings w = Some config ->
  WindowHolds (configureInputs w) []
  /\ collectors (host (configureInputs w))
     = map Collector.create (configEntries config)
  /\ samplesInWindow (host (configureInputs w)) = Buffer.getNumber config UInt16LE 2
  /\ sampleSize (host (configureInputs w)) = float32FrameBytes config
  /\ Buffer.length (samplesBuffer (host (configureInputs w)))
     = Buffer.getNumber config UInt16LE 2 * float32FrameBytes config.
Proof.
  intros Hcfg. rewrite (configureInputs_stored config w Hcfg). cbn [host].
  pose proof (getNumber_unsigned_nonneg config UInt16LE 2 eq_refl) as Hwin.
  pose proof (frameBytes_nonneg (map Collector.create (configEntries config))) as Hfr.
  unfold WindowHolds, currentFrame, float32FrameBytes.
  cbn [host samplesInWindow sampleSize collectors samplesBuffer].
  rewrite frameBytes_concat, windowOf_initial by assumption.
  rewrite Buffer_length_create by nia.
  rewrite <- frameBytes_created.
  repeat split; auto.
Qed.

(** What configuration reads from the blob itself: the two header
    fields, the frame size its entries give, a zeroed buffer of the
    window length times that size, and both counters at 0. *)
Lemma configureInputs_fields (config : Buffer.t) (w : World) :
  inputSettings w = Some config ->
  let h := host (configureInputs w) in
  samplingInterval h = Buffer.getNumber config UInt16LE 0
  /\ samplesInWindow h = Buffer.getNumber config UInt16LE 2
  /\ sampleSize h = float32FrameBytes config
  /\ samplesBuffer h
     = Buffer.create (Buffer.getNumber config UInt16LE 2 * float32FrameBytes config)
  /\ numSamples h = 0
  /\ lastRunNumSamples h = 0.
Proof.
  intros Hcfg. rewrite (configureInputs_stored config w Hcfg). cbv zeta.
  cbn [host samplingInterval samplesInWindow sampleSize samplesBuffer
       numSamples lastRunNumSamples].
  unfold float32FrameBytes. rewrite <- frameBytes_created.
  repeat split; reflexivity.
Qed.

Lemma create_builtFrom (entry : Buffer.t) : builtFrom entry (Collector.create entry).
Proof.
  unfold builtFrom, Collector.create, entrySampleType, entrySampleSize,
    entrySampleShift.
  cbn [Collector.serviceClass Collector.requiredServiceNum Collector.devId
       Collector.sampleType Collector.numElts Collector.sampleMult
       Collector.lastSample].
  repeat split; try reflexivity.
  - apply computeSampleMult_power.
  - f_equal. apply Z.mul_comm.
Qed.

Lemma created_builtFrom (entries : list Buffer.t) :
  Forall2 builtFrom entries (map Collector.create entries).
Proof.
  induction entries as [|e es IH]; constructor; [apply create_builtFrom|exact IH].
Qed.

(** ** Window buffer *)

Lemma Buffer_write_nil (off : Z) (src : Buffer.t) : Buffer.write [] off src = [].
Proof.
  unfold Buffer.write. destruct (_ || _) eqn:E; [reflexivity|].
  apply orb_false_iff in E as [E1 E2]. apply Z.ltb_ge in E1, E2.
  pose proof (Buffer_length_nonneg src) as Hsrc.
  change (Buffer.length []) with 0 in *.
  replace off with 0 by lia. rewrite Z.min_r by lia.
  reflexivity.
Qed.

Lemma writeSamples_nil (colls : list Collector.t) (off : Z) :
  writeSamples colls [] off = [].
Proof.
  revert off. induction colls as [|c cs IH]; intros off; cbn; [reflexivity|].
  now rewrite Buffer_write_nil.
Qed.

Lemma writeSamples_inside (colls : list Collector.t) (buf : Buffer.t) (o : nat) :
  (o + List.length (concat (map Collector.lastSample colls)) <= List.length buf)%nat ->
  writeSamples colls buf (Z.of_nat o)
  = take o buf ++ concat (map Collector.lastSample colls)
      ++ drop (o + List.length (concat (map Collector.lastSample colls))) buf.
Proof.
  revert buf o. induction colls as [|c cs IH]; intros buf o Hfit.
  - cbn. rewrite Nat.add_0_r. now rewrite take_drop.
  - cbn [writeSamples map concat] in *. rewrite length_app in Hfit.
    set (s := Collector.lastSample c) in *.
    rewrite Buffer_write_inside
      by (unfold Buffer.length; lia).
    rewrite Nat2Z.id.
    replace (Z.of_nat o + Buffer.length s) with (Z.of_nat (o + List.length s))
      by (unfold Buffer.length; lia).
    rewrite IH
      by (rewrite !length_app, length_take, length_drop; lia).
    set (n := List.length (concat (map Collector.lastSample cs))) in *.
    rewrite (app_assoc (take o buf) s).
    rewrite take_app_length' by (rewrite length_app, length_take; lia).
    rewrite drop_app_ge by (rewrite length_app, length_take; lia).
    rewrite !length_app, length_take, drop_drop, <- !app_assoc.
    fold n. do 4 f_equal. lia.
Qed.

Lemma Buffer_length_shift (buf : Buffer.t) (k : Z) :
  List.length (Buffer.shift buf k) = List.length buf.
Proof.
  unfold Buffer.shift, Buffer.create, Buffer.length.
  destruct ((k =? 0) || _) eqn:E1; [reflexivity|].
  destruct ((_ <=? k) || _) eqn:E2; [rewrite length_replicate; lia|].
  apply orb_false_iff in E2 as [E2 E3]. apply Z.leb_gt in E2, E3.
  destruct (Z.ltb_spec k 0).
  - rewrite length_app, length_replicate, length_take. lia.
  - rewrite length_app, length_replicate, length_drop. lia.
Qed.

Lemma Buffer_shift_nil (k : Z) : Buffer.shift [] k = [].
Proof. unfold Buffer.shift. cbn. now rewrite orb_true_r. Qed.

(** Shifting by one frame keeps all but the oldest frame in front. *)
Lemma Buffer_shift_front (buf : Buffer.t) (k : nat) :
  (k <= List.length buf)%nat ->
  take (List.length buf - k) (Buffer.shift buf (Z.of_nat k)) = drop k buf.
Proof.
  intros Hk. unfold Buffer.shift, Buffer.create, Buffer.length.
  destruct ((_ =? 0) || _) eqn:E1.
  - apply orb_true_iff in E1 as [E|E]; apply Z.eqb_eq in E.
    + replace k with 0%nat by lia. now rewrite Nat.sub_0_r, firstn_all, drop_0.
    + assert (buf = []) as -> by (destruct buf; [reflexivity|cbn in E; lia]).
      now rewrite take_nil, drop_nil.
  - apply orb_false_iff in E1 as [E1 E1']. apply Z.eqb_neq in E1, E1'.
    destruct ((_ <=? Z.of_nat k) || _) eqn:E2.
    + apply orb_true_iff in E2 as [E|E]; apply Z.leb_le in E; [|lia].
      replace (List.length buf - k)%nat with 0%nat by lia.
      rewrite take_0. symmetry. apply drop_ge. lia.
    + apply orb_false_iff in E2 as [E2 _]. apply Z.leb_gt in E2.
      replace (Z.of_nat k <? 0) with false by (symmetry; apply Z.ltb_ge; lia).
      rewrite Nat2Z.id. apply take_app_length'. rewrite length_drop. lia.
Qed.

Lemma pushData_host (w : World) :
  let h := host w in
  let shifted := Buffer.shift (samplesBuffer h) (sampleSize h) in
  samplesBuffer (host (pushData w))
  = writeSamples (collectors h) shifted (Buffer.length shifted - sampleSize h)
  /\ numSamples (host (pushData w)) = numSamples h + 1
  /\ collectors (host (pushData w)) = collectors h
  /\ sampleSize (host (pushData w)) = sampleSize h
  /\ samplesInWindow (host (pushData w)) = samplesInWindow h.
Proof.
  unfold pushData. cbn zeta.
  destruct (0 <? _); cbn; repeat split; reflexivity.
Qed.

(** One push on a buffer that starts with a whole frame: the oldest
    frame goes, the current frame is appended. *)
Lemma pushData_slides (w : World) :
  0 <= sampleSize (host w) ->
  Buffer.length (currentFrame (host w)) = sampleSize (host w) ->
  sampleSize (host w) <= Buffer.length (samplesBuffer (host w)) ->
  samplesBuffer (host (pushData w))
  = drop (Z.to_nat (sampleSize (host w))) (samplesBuffer (host w))
      ++ currentFrame (host w).
Proof.
  intros Hpos Hframe Hfit.
  destruct (pushData_host w) as [-> _].
  unfold currentFrame, Buffer.length in *.
  set (buf := samplesBuffer (host w)) in *.
  set (F := sampleSize (host w)) in *.
  rewrite Buffer_length_shift.
  replace (Z.of_nat (List.length buf) - F)
    with (Z.of_nat (List.length buf - Z.to_nat F)) by lia.
  rewrite writeSamples_inside by (rewrite Buffer_length_shift; lia).
  replace F with (Z.of_nat (Z.to_nat F)) at 2 by lia.
  rewrite Buffer_shift_front by lia.
  rewrite (drop_ge (Buffer.shift _ _)) by (rewrite Buffer_length_shift; lia).
  now rewrite app_nil_r.
Qed.

Lemma lastN_zero {A : Type} (l : list A) : lastN 0 l = [].
Proof. unfold lastN. rewrite Nat.sub_0_r. apply drop_all. Qed.

Lemma lastN_length {A : Type} (n : nat) (l : list A) :
  (n <= List.length l)%nat -> List.length (lastN n l) = n.
Proof. intros H. unfold lastN. rewrite length_drop. lia. Qed.

Lemma lastN_snoc {A : Type} (n : nat) (l : list A) (a : A) :
  (1 <= n <= List.length l)%nat ->
  lastN n (l ++ [a]) = drop 1 (lastN n l) ++ [a].
Proof.
  intros H. unfold lastN.
  rewrite length_app, drop_app_le by (cbn [List.length]; lia).
  rewrite drop_drop. cbn [List.length]. do 2 f_equal. lia.
Qed.

(** A push slides the window over the history by one frame. *)
Lemma pushData_window (w : World) (history : list Buffer.t) :
  WindowHolds w history ->
  WindowHolds (pushData w) (history ++ [currentFrame (host w)]).
Proof.
  intros (Hwin & Hsz & Hframe & Hhist & Hbuf).
  destruct (pushData_host w) as (Hpush & _ & Hcolls & Hsize & Hwindow).
  unfold WindowHolds, currentFrame in *.
  rewrite Hcolls, Hsize, Hwindow.
  split; [exact Hwin|]. split; [exact Hsz|]. split; [exact Hframe|].
  split; [apply Forall_app; split; [exact Hhist|now constructor]|].
  set (F := sampleSize (host w)) in *.
  set (frame := concat (map Collector.lastSample (collectors (host w)))) in *.
  set (L := replicate (Z.to_nat (samplesInWindow (host w))) (Buffer.create F)
            ++ history) in *.
  assert (HL : Forall (fun f => Buffer.length f = F) L).
  { apply Forall_app; split; [|exact Hhist].
    apply Forall_replicate. now apply Buffer_length_create. }
  assert (HlenL : (Z.to_nat (samplesInWindow (host w)) <= List.length L)%nat).
  { unfold L. rewrite length_app, length_replicate. lia. }
  unfold windowOf in *. fold L in Hbuf. rewrite app_assoc. fold L.
  destruct (Z.to_nat (samplesInWindow (host w))) as [|n] eqn:En.
  - rewrite lastN_zero in *. cbn [concat] in *.
    rewrite Hpush, Hbuf, Buffer_shift_nil. apply writeSamples_nil.
  - rewrite lastN_snoc by lia.
    pose proof (lastN_length (S n) L HlenL) as HlenX.
    assert (HX : Forall (fun f => Buffer.length f = F) (lastN (S n) L))
      by (apply Forall_drop, HL).
    destruct (lastN (S n) L) as [|x X]; [discriminate|].
    apply Forall_cons in HX as [Hx _].
    cbn [concat] in Hbuf. cbn [drop].
    rewrite concat_app. cbn [concat]. rewrite app_nil_r.
    rewrite pushData_slides.
    + rewrite Hbuf. f_equal. apply drop_app_length'.
      unfold Buffer.length in Hx. lia.
    + exact Hsz.
    + exact Hframe.
    + rewrite Hbuf. unfold Buffer.length in *. rewrite length_app. fold F. lia.
Qed.

(** C2 (as amended).  For every stored configuration blob, the window
    buffer allocated by configuration is exactly [samplesInWindow] (the
    blob's 16-bit field at offset 2) times the sum over the blob's
    entries of four bytes per declared element
    (4 * floor(sampleSizeBytes / element width)), all zeros, and it
    holds the empty history; and every push keeps the buffer holding
    the [samplesInWindow] most recent frames in chronological order,
    oldest first, frames not pushed yet reading as zeros. *)
Theorem C2_window_buffer (config : Buffer.t) (w w' : World)
    (history : list Buffer.t) :
  (inputSettings w = Some config ->
   let window := Buffer.getNumber config UInt16LE 2 in
   samplesInWindow (host (configureInputs w)) = window
   /\ sampleSize (host (configureInputs w)) = float32FrameBytes config
   /\ samplesBuffer (host (configureInputs w))
      = Buffer.create (window * float32FrameBytes config)
   /\ Buffer.length (samplesBuffer (host (configureInputs w)))
      = window * float32FrameBytes config
   /\ WindowHolds (configureInputs w) [])
  /\ (WindowHolds w' history ->
      WindowHolds (pushData w') (history ++ [currentFrame (host w')])
      /\ Buffer.length (samplesBuffer (host (pushData w')))
         = Buffer.length (samplesBuffer (host w'))).
Proof.
  split.
  - intros Hcfg window.
    destruct (configureInputs_window config w Hcfg) as (Hwin & _ & _ & _ & Hlen).
    destruct (configureInputs_fields config w Hcfg) as (_ & Hw & Hsz & Hbuf & _).
    split; [exact Hw|]. split; [exact Hsz|]. split; [exact Hbuf|].
    split; [exact Hlen|exact Hwin].
  - intros Hwin. split; [now apply pushData_window|].
    destruct (pushData_host w') as (-> & _).
    clear. generalize (collectors (host w')). intros colls.
    set (b := Buffer.shift _ _).
    assert (Hb : Buffer.length b = Buffer.length (samplesBuffer (host w')))
      by (unfold Buffer.length, b; now rewrite Buffer_length_shift).
    rewrite <- Hb. generalize (Buffer.length b - sampleSize (host w')).
    clear Hb. generalize b. clear b.
    induction colls as [|c cs IH]; intros b off; cbn; [reflexivity|].
    now rewrite IH, Buffer_length_write.
Qed.

Lemma C2_window_buffer_witness :
  let w := device 4096 (Some exampleConfig) in
  let w' := configureInputs w in
  (samplesInWindow (host w') = 3
   /\ sampleSize (host w') = 16
   /\ samplesBuffer (host w') = replicate 48 0
   /\ WindowHolds w' [])
  /\ WindowHolds (pushData w') ([] ++ [currentFrame (host w')])
  /\ Buffer.length (samplesBuffer (host (pushData w')))
     = Buffer.length (samplesBuffer (host w')).
Proof.
  intros w w'.
  destruct (C2_window_buffer exampleConfig w w' []) as [Hconf Hpush].
  destruct (Hconf eq_refl) as (Hw & Hsz & Hbuf & _ & Hwin).
  split; [split; [exact Hw|split; [exact Hsz|split; [exact Hbuf|exact Hwin]]]|].
  apply Hpush. exact Hwin.
Defined.

(** C2 (as stated) fails: a collector declaring 8 bytes of 16-bit
    elements contributes 16 bytes to a frame, so a window of 3 frames
    takes 48 bytes, not 3 * 8. *)
Lemma C2_counterexample :
  let w := configureInputs (device 4096 (Some exampleConfig)) in
  samplesInWindow (host w) = 3
  /\ declaredFrameBytes exampleConfig = 8
  /\ Buffer.length (samplesBuffer (host w)) = 48
  /\ Buffer.length (samplesBuffer (host w))
     <> samplesInWindow (host w) * declaredFrameBytes exampleConfig.
Proof. vm_compute. repeat split; discriminate. Qed.

(** *** The window across whole events *)

Lemma WindowHolds_same (w w' : World) (history : list Buffer.t) :
  samplesInWindow (host w') = samplesInWindow (host w) ->
  sampleSize (host w') = sampleSize (host w) ->
  collectors (host w') = collectors (host w) ->
  samplesBuffer (host w') = samplesBuffer (host w) ->
  WindowHolds w history -> WindowHolds w' history.
Proof.
  unfold WindowHolds, currentFrame. intros -> -> -> ->. auto.
Qed.

Lemma iter_pushData_window (n : nat) (w : World) (history : list Buffer.t) :
  WindowHolds w history ->
  WindowHolds (Nat.iter n pushData w)
    (history ++ replicate n (currentFrame (host w)))
  /\ collectors (host (Nat.iter n pushData w)) = collectors (host w).
Proof.
  intros Hwin. induction n as [|n [IH Hc]].
  - cbn. now rewrite app_nil_r.
  - rewrite Nat.iter_succ, replicate_S_end, app_assoc.
    destruct (pushData_host (Nat.iter n pushData w)) as (_ & _ & Hc' & _).
    split; [|congruence].
    replace (currentFrame (host w))
      with (currentFrame (host (Nat.iter n pushData w))) at 2
      by (unfold currentFrame; now rewrite Hc).
    now apply pushData_window.
Qed.

(** An event of the reconciler extends the history by copies of the
    frame current at the event: at most five in the pre phase, at most
    one in the post phase. *)
Lemma newData_window (ts : Z) (isPost : bool) (w : World)
    (history : list Buffer.t) :
  WindowHolds w history ->
  exists k : nat,
    (k <= if isPost then 1 else 5)%nat
    /\ WindowHolds (newData ts isPost w)
         (history ++ replicate k (currentFrame (host w)))
    /\ collectors (host (newData ts isPost w)) = collectors (host w).
Proof.
  intros Hwin. unfold newData.
  set (w0 := if lastSample (host w) =? 0 then onHost (set_lastSample ts) w else w).
  assert (H0 : WindowHolds w0 history /\ collectors (host w0) = collectors (host w)).
  { unfold w0. destruct (_ =? 0); [|now split].
    split; [|reflexivity]. eapply WindowHolds_same; [..|exact Hwin]; reflexivity. }
  destruct H0 as [Hwin0 Hc0].
  assert (Hframe : currentFrame (host w0) = currentFrame (host w))
    by (unfold currentFrame; now rewrite Hc0).
  destruct (frameCount _ _ =? 0).
  { exists 0%nat. cbn [replicate]. rewrite app_nil_r.
    split; [destruct isPost; lia|now split]. }
  destruct isPost.
  - exists 1%nat. split; [lia|]. cbn [replicate]. rewrite <- Hframe.
    set (w1 := onHost (set_lastSample ts) w0).
    assert (Hwin1 : WindowHolds w1 history)
      by (eapply WindowHolds_same; [..|exact Hwin0]; reflexivity).
    pose proof (pushData_window w1 history Hwin1) as Hpush.
    destruct (pushData_host w1) as (_ & _ & Hc1 & _).
    change (currentFrame (host w1)) with (currentFrame (host w0)) in Hpush.
    change (collectors (host w1)) with (collectors (host w0)) in Hc1.
    destruct (_ && _).
    + split; [|cbn; congruence].
      eapply WindowHolds_same; [..|exact Hpush]; reflexivity.
    + split; [exact Hpush|congruence].
  - match goal with |- context [Nat.iter ?n pushData w0] =>
      exists n; destruct (iter_pushData_window n w0 history Hwin0) as [Hit Hc]
    end.
    split; [destruct (5 <? _) eqn:E; [|apply Z.ltb_ge in E]; lia|].
    rewrite <- Hframe. split; [exact Hit|congruence].
Qed.

Section WindowAcrossReports.

Variable float32Bits : Q -> Z.

Lemma collectorUpdate_length (c : Collector.t) (fmt : NumberFormat)
    (payload : Buffer.t) :
  Collector.lastSample (collectorUpdate float32Bits c fmt payload)
  = storeSamples float32Bits c (Buffer.toArray payload fmt) 0
      (Collector.lastSample c)
  /\ Buffer.length (Collector.lastSample (collectorUpdate float32Bits c fmt payload))
     = Buffer.length (Collector.lastSample c).
Proof.
  unfold collectorUpdate. cbn [Collector.lastSample Collector.with_lastSample].
  split; [reflexivity|apply storeSamples_length].
Qed.

Lemma frameBytes_alter (f : Collector.t -> Collector.t) (i : nat)
    (colls : list Collector.t) :
  (forall c, Buffer.length (Collector.lastSample (f c))
             = Buffer.length (Collector.lastSample c)) ->
  frameBytes (alter f i colls) = frameBytes colls.
Proof.
  intros Hf. unfold frameBytes. revert i.
  induction colls as [|c cs IH]; intros [|i]; cbn; try reflexivity.
  - now rewrite Hf.
  - f_equal. apply IH.
Qed.

(** A register-read report first flushes up to five copies of the
    stale frame, then stores the new readings, then pushes the fresh
    frame at most once; the window follows. *)
Lemma collectorHandlePacket_window (i : nat) (packet : JDPacket) (w : World)
    (history : list Buffer.t) :
  WindowHolds w history ->
  exists (stale fresh : nat) (frame : Buffer.t),
    (stale <= 5)%nat /\ (fresh <= 1)%nat
    /\ WindowHolds (collectorHandlePacket float32Bits i packet w)
         (history ++ replicate stale (currentFrame (host w))
            ++ replicate fresh frame).
Proof.
  intros Hwin.
  assert (Hnone : exists (stale fresh : nat) (frame : Buffer.t),
             (stale <= 5)%nat /\ (fresh <= 1)%nat
             /\ WindowHolds w
                  (history ++ replicate stale (currentFrame (host w))
                     ++ replicate fresh frame)).
  { exists 0%nat, 0%nat, []. cbn [replicate]. rewrite !app_nil_r.
    split; [lia|split; [lia|exact Hwin]]. }
  unfold collectorHandlePacket.
  destruct (collectors (host w) !! i) as [c|]; [|exact Hnone].
  destruct (_ =? _); [clear Hnone|exact Hnone].
  destruct (newData_window (timestamp packet) false w history Hwin)
    as (stale & Hstale & Hpre & Hcolls).
  set (w1 := newData (timestamp packet) false w) in *.
  destruct (numberFmt (Collector.sampleType c)) as [fmt|].
  2: { exists stale, 0%nat, []. cbn [replicate]. rewrite app_nil_r.
       split; [lia|split; [lia|exact Hpre]]. }
  set (w2 := onHost (fun h => set_collectors
                       (alter (fun c => collectorUpdate float32Bits c fmt
                                          (data packet)) i
                          (collectors h)) h) w1).
  assert (Hwin2 : WindowHolds w2
                    (history ++ replicate stale (currentFrame (host w)))).
  { destruct Hpre as (H1 & H2 & H3 & H4 & H5).
    unfold WindowHolds, currentFrame in *.
    cbn [w2 host onHost with_host set_collectors samplesInWindow sampleSize
         collectors samplesBuffer].
    repeat split; try assumption.
    rewrite frameBytes_concat in *.
    rewrite frameBytes_alter; [exact H3|].
    intros c0. apply collectorUpdate_length. }
  destruct (newData_window (timestamp packet) true w2 _ Hwin2)
    as (fresh & Hfresh & Hpost & _).
  exists stale, fresh, (currentFrame (host w2)).
  rewrite app_assoc. split; [lia|split; [lia|exact Hpost]].
Qed.

End WindowAcrossReports.

(** Three reports 100 ms apart: the first only starts the clock, the
    other two push one frame each (with [Qnum] standing in for the
    float32 encoding, an integer reading shows as its own bytes). *)
Example reports_fill_window :
  let w := run Qnum [CollectorPacket 0 (readingReport 1000 1 2 3 4);
                     CollectorPacket 0 (readingReport 1100 5 6 7 8);
                     CollectorPacket 0 (readingReport 1200 9 9 9 9)]
             loadedDevice in
  numSamples (host w) = 2
  /\ samplesBuffer (host w)
     = replicate 16 0
         ++ [5; 0; 0; 0; 6; 0; 0; 0; 7; 0; 0; 0; 8; 0; 0; 0]
         ++ [9; 0; 0; 0; 9; 0; 0; 0; 9; 0; 0; 0; 9; 0; 0; 0].
Proof. vm_compute. split; reflexivity. Qed.

(** ** Register dispatch *)

Lemma handleRegInt_idle (packet : JDPacket) (register current : Z) (w : World) :
  sar (service_command packet) 12 = 0
  \/ band (service_command packet) 0xfff <> register ->
  handleRegInt packet register current w = (current, w).
Proof.
  intros [H|H]; unfold handleRegInt.
  - now rewrite H.
  - destruct (_ || _); [reflexivity|].
    now destruct (Z.eqb_spec (band (service_command packet) 4095) register).
Qed.

Lemma handleRegBuffer_idle (packet : JDPacket) (register : Z) (current : Buffer.t)
    (w : World) :
  sar (service_command packet) 12 = 0
  \/ band (service_command packet) 0xfff <> register ->
  handleRegBuffer packet register current w = (current, w).
Proof.
  intros [H|H]; unfold handleRegBuffer.
  - now rewrite H.
  - destruct (_ || _); [reflexivity|].
    now destruct (Z.eqb_spec (band (service_command packet) 4095) register).
Qed.

(** A packet that addresses none of the integer and buffer registers
    passes the register handlers without a trace. *)
Lemma handleRegisters_idle (packet : JDPacket) (w : World) :
  sar (service_command packet) 12 = 0
  \/ band (service_command packet) 0xfff = TFLiteReg.Inputs ->
  handleRegisters packet w = w.
Proof.
  intros H.
  assert (Hidle : forall reg, reg <> TFLiteReg.Inputs ->
            sar (service_command packet) 12 = 0
            \/ band (service_command packet) 0xfff <> reg).
  { intros reg Hreg. destruct H as [H|H]; [now left|right; congruence]. }
  unfold handleRegisters.
  repeat first
    [ rewrite handleRegInt_idle by (apply Hidle; discriminate)
    | rewrite handleRegBuffer_idle by (apply Hidle; discriminate)
    | rewrite set_outputs_same ].
  rewrite !set_streamSamples_same.
  now rewrite !set_autoInvokeSamples_same.
Qed.

(** ** Upload: the capacity check *)

Lemma readModel_rejects (packet : JDPacket) (port : Z) (chunks : list Buffer.t)
    (lo : LoadOutcome) (w : World) :
  totalSize (binstore w) - 8 < intData packet ->
  readModel packet port chunks lo w = (Rejected, w).
Proof.
  intros H. unfold readModel.
  now replace (_ <? _) with true by (symmetry; apply Z.ltb_lt; exact H).
Qed.

(** ** Configuration writes *)

(** C8.  Writing the inputs register with a blob byte-identical to the
    stored one changes nothing at all (sample counter, collectors,
    window buffer, effects); writing any other blob stores it, destroys
    the old collectors and rebuilds everything from the new blob alone:
    the sampling interval and the window length are its two header
    fields, there is one collector per entry, each as its entry
    describes it, every new collector is sent its streaming setup with
    the new interval, the frame size is what the entries give, the
    window buffer is zeroed at the window length times the frame size,
    and both sample counters are reset to zero. *)
Theorem C8_configuration_write (packet : JDPacket) (w : World) :
  service_command packet = bor TFLiteReg.Inputs CMD_SET_REG ->
  (inputSettings w = Some (data packet) -> handlePacket packet w = w)
  /\ (inputSettings w <> Some (data packet) ->
      let w' := handlePacket packet w in
      let blob := data packet in
      inputSettings w' = Some blob
      /\ numSamples (host w') = 0
      /\ lastRunNumSamples (host w') = 0
      /\ samplingInterval (host w') = Buffer.getNumber blob UInt16LE 0
      /\ samplesInWindow (host w') = Buffer.getNumber blob UInt16LE 2
      /\ collectors (host w') = map Collector.create (configEntries blob)
      /\ Forall2 builtFrom (configEntries blob) (collectors (host w'))
      /\ sampleSize (host w') = float32FrameBytes blob
      /\ sampleSize (host w') = frameBytes (collectors (host w'))
      /\ samplesBuffer (host w')
         = Buffer.create (Buffer.getNumber blob UInt16LE 2 * float32FrameBytes blob)
      /\ samplesBuffer (host w')
         = Buffer.create (samplesInWindow (host w') * sampleSize (host w'))
      /\ effects w'
         = effects w ++ map CollectorDestroy (collectors (host w))
             ++ flat_map (streamingSetup (Buffer.getNumber blob UInt16LE 0))
                  (collectors (host w'))).
Proof.
  intros Hcmd.
  assert (Hstep : handlePacket packet w
            = match inputSettings w with
              | Some current =>
                  if Buffer.equals (data packet) current then w
                  else configureInputs
                         (with_settings
                            {| inputsSettings := Some (data packet);
                               arenaSizeSettings := arenaSizeSettings (settings w) |} w)
              | None =>
                  configureInputs
                    (with_settings
                       {| inputsSettings := Some (data packet);
                          arenaSizeSettings := arenaSizeSettings (settings w) |} w)
              end).
  { unfold handlePacket, handleCommand.
    rewrite handleRegisters_idle by (right; now rewrite Hcmd).
    cbv zeta. now rewrite Hcmd. }
  split.
  - intros Hsame. rewrite Hstep, Hsame. unfold Buffer.equals.
    now rewrite bool_decide_eq_true_2.
  - intros Hdiff w' blob.
    set (w0 := with_settings
                 {| inputsSettings := Some (data packet);
                    arenaSizeSettings := arenaSizeSettings (settings w) |} w).
    assert (Hw' : w' = configureInputs w0).
    { unfold w'. rewrite Hstep. destruct (inputSettings w) as [current|]; [|reflexivity].
      unfold Buffer.equals. rewrite bool_decide_eq_false_2; [reflexivity|].
      congruence. }
    assert (Hcfg : inputSettings w0 = Some blob) by reflexivity.
    destruct (configureInputs_fields blob w0 Hcfg)
      as (Hint & Hwin & Hsz & Hbuf & Hnum & Hlast).
    cbv zeta in Hint, Hwin, Hsz, Hbuf, Hnum, Hlast.
    assert (Hcolls : collectors (host (configureInputs w0))
                     = map Collector.create (configEntries blob))
      by (rewrite (configureInputs_stored blob w0 Hcfg); reflexivity).
    rewrite Hw'.
    split; [rewrite (configureInputs_stored blob w0 Hcfg); reflexivity|].
    split; [exact Hnum|]. split; [exact Hlast|]. split; [exact Hint|].
    split; [exact Hwin|]. split; [exact Hcolls|].
    split; [rewrite Hcolls; apply created_builtFrom|].
    split; [exact Hsz|].
    split; [rewrite (configureInputs_stored blob w0 Hcfg); reflexivity|].
    split; [exact Hbuf|].
    split; [rewrite (configureInputs_stored blob w0 Hcfg); reflexivity|].
    rewrite (configureInputs_stored blob w0 Hcfg). reflexivity.
Qed.

Lemma C8_configuration_write_witness :
  let w := configureInputs (device 4096 (Some exampleConfig)) in
  let same := {| service_command := 0x2080; data := exampleConfig; timestamp := 0 |} in
  let other := {| service_command := 0x2080;
                  data := [50; 0; 2; 0; 0; 0; 0; 0]
                          ++ sampleEntry 4 TFLiteSampleType.I16 1;
                  timestamp := 0 |} in
  handlePacket same w = w
  /\ numSamples (host (handlePacket other w)) = 0
  /\ samplingInterval (host (handlePacket other w)) = 50
  /\ samplesInWindow (host (handlePacket other w)) = 2
  /\ sampleSize (host (handlePacket other w)) = 8
  /\ samplesBuffer (host (handlePacket other w)) = replicate 16 0
  /\ Forall2 builtFrom [sampleEntry 4 TFLiteSampleType.I16 1]
       (collectors (host (handlePacket other w))).
Proof.
  intros w same other.
  destruct (C8_configuration_write same w) as [Hsame _]; [reflexivity|].
  destruct (C8_configuration_write other w) as [_ Hother]; [reflexivity|].
  split; [apply Hsame; reflexivity|].
  destruct Hother as (_ & Hn & _ & Hint & Hwin & _ & Hbuilt & Hsz & _ & Hbuf & _);
    [vm_compute; discriminate|].
  split; [exact Hn|]. split; [exact Hint|]. split; [exact Hwin|].
  split; [exact Hsz|]. split; [exact Hbuf|exact Hbuilt].
Defined.

(** ** Model runs *)

Section RunProofs.

Variable float32Bits : Q -> Z.

(** C10.  A run that is not skipped by a sticky error always ends by
    sending the Outputs report, also when the invocation throws; on
    failure the output vector is left as it was (and that is what
    the report carries), while the run time and the start mark are
    updated all the same. *)
Theorem C10_run_always_reports (t0 t1 : Z) (io : InvokeOutcome) (w : World) :
  isSet (lastError (host w)) = false ->
  let w' := runModel float32Bits t0 t1 io w in
  effects w'
  = effects w ++ [SendReport (bor CMD_GET_REG TFLiteReg.Outputs) (outputs (host w'))]
  /\ execTime (host w') = t1 - t0
  /\ lastRunNumSamples (host w') = numSamples (host w)
  /\ (forall e, io = InvokeThrows e -> outputs (host w') = outputs (host w))
  /\ (forall res0, io = InvokeReturns res0 ->
      outputs (host w') = packArrayF32 float32Bits res0).
Proof.
  intros Hclear w'. unfold w', runModel. rewrite Hclear.
  destruct io as [res0|[s|]]; cbn; repeat split; intros; congruence.
Qed.

Lemma runModel_skipped (t0 t1 : Z) (io : InvokeOutcome) (w : World) :
  isSet (lastError (host w)) = true -> runModel float32Bits t0 t1 io w = w.
Proof. intros H. unfold runModel. now rewrite H. Qed.

End RunProofs.

Lemma C10_run_always_reports_witness :
  let w := loadedDevice in
  let w' := runModel Qnum 10 25 (InvokeThrows (ThrownString "arena too small")) w in
  effects w' = effects w ++ [SendReport 0x1101 []]
  /\ execTime (host w') = 15
  /\ outputs (host w') = outputs (host w).
Proof.
  intros w w'.
  destruct (C10_run_always_reports Qnum 10 25
              (InvokeThrows (ThrownString "arena too small")) w)
    as (Heff & Htime & _ & Hout & _); [reflexivity|].
  split; [exact Heff|]. split; [exact Htime|].
  now apply (Hout (ThrownString "arena too small")).
Defined.

(** ** What each operation leaves alone *)

Lemma pushData_keeps (w : World) :
  lastError (host (pushData w)) = lastError (host w)
  /\ lastRunNumSamples (host (pushData w)) = lastRunNumSamples (host w)
  /\ autoInvokeSamples (host (pushData w)) = autoInvokeSamples (host w)
  /\ background (pushData w) = background w.
Proof.
  unfold pushData. cbn zeta.
  destruct (0 <? _); cbn; repeat split; reflexivity.
Qed.

Lemma iter_pushData_keeps (n : nat) (w : World) :
  lastError (host (Nat.iter n pushData w)) = lastError (host w)
  /\ lastRunNumSamples (host (Nat.iter n pushData w)) = lastRunNumSamples (host w)
  /\ background (Nat.iter n pushData w) = background w.
Proof.
  induction n as [|n (IH1 & IH2 & IH3)]; [repeat split; reflexivity|].
  rewrite Nat.iter_succ.
  destruct (pushData_keeps (Nat.iter n pushData w)) as (H1 & H2 & _ & H3).
  rewrite H1, H2, H3. repeat split; assumption.
Qed.

(** [_newData] either leaves the schedule alone or, on a post-phase
    event, sets the sentinel and queues one run; the latter only under
    the three conditions of the source. *)
Lemma newData_schedule (ts : Z) (isPost : bool) (w : World) :
  lastError (host (newData ts isPost w)) = lastError (host w)
  /\ ((background (newData ts isPost w) = background w
       /\ lastRunNumSamples (host (newData ts isPost w)) = lastRunNumSamples (host w))
      \/ (isPost = true
          /\ background (newData ts isPost w) = background w ++ [TaskRunModel]
          /\ lastRunNumSamples (host (newData ts isPost w)) = -1
          /\ autoInvokeSamples (host w) <> 0
          /\ 0 <= lastRunNumSamples (host w)
          /\ autoInvokeSamples (host w)
             <= numSamples (host w) + 1 - lastRunNumSamples (host w))).
Proof.
  unfold newData.
  set (w0 := if lastSample (host w) =? 0 then onHost (set_lastSample ts) w else w).
  assert (H0 : lastError (host w0) = lastError (host w)
               /\ lastRunNumSamples (host w0) = lastRunNumSamples (host w)
               /\ autoInvokeSamples (host w0) = autoInvokeSamples (host w)
               /\ numSamples (host w0) = numSamples (host w)
               /\ background w0 = background w)
    by (unfold w0; destruct (_ =? 0); repeat split; reflexivity).
  destruct H0 as (He & Hr & Ha & Hn & Hb).
  destruct (frameCount _ _ =? 0); [split; [exact He|left; now split]|].
  destruct isPost.
  - set (w1 := onHost (set_lastSample ts) w0).
    destruct (pushData_keeps w1) as (Pe & Pr & Pa & Pb).
    destruct (pushData_host w1) as (_ & Pn & _).
    change (lastError (host w1)) with (lastError (host w0)) in Pe.
    change (lastRunNumSamples (host w1)) with (lastRunNumSamples (host w0)) in Pr.
    change (autoInvokeSamples (host w1)) with (autoInvokeSamples (host w0)) in Pa.
    change (background w1) with (background w0) in Pb.
    change (numSamples (host w1)) with (numSamples (host w0)) in Pn.
    destruct (_ && _) eqn:Hcond.
    + apply andb_true_iff in Hcond as [Hcond H3].
      apply andb_true_iff in Hcond as [H1 H2].
      apply negb_true_iff, Z.eqb_neq in H1. apply Z.leb_le in H2, H3.
      cbn [host onHost with_host runInBackground background lastError
           set_lastRunNumSamples lastRunNumSamples].
      split; [congruence|]. right.
      rewrite Pb, Hb. repeat split; try reflexivity; lia.
    + split; [congruence|]. left. split; congruence.
  - destruct (iter_pushData_keeps
                (Z.to_nat (if 5 <? frameCount (ts - lastSample (host w0))
                                     (samplingInterval (host w0)) - 1
                           then 5
                           else frameCount (ts - lastSample (host w0))
                                  (samplingInterval (host w0)) - 1)) w0)
      as (Ie & Ir & Ib).
    split; [congruence|]. left. split; congruence.
Qed.

Lemma configureInputs_keeps (w : World) :
  lastError (host (configureInputs w)) = lastError (host w)
  /\ background (configureInputs w) = background w
  /\ autoInvokeSamples (host (configureInputs w)) = autoInvokeSamples (host w).
Proof.
  destruct (inputSettings w) as [config|] eqn:Hcfg.
  - rewrite (configureInputs_stored config w Hcfg). repeat split; reflexivity.
  - unfold configureInputs. rewrite Hcfg. repeat split; reflexivity.
Qed.

Lemma handleRegInt_frame (packet : JDPacket) (register current : Z) (w : World) :
  host (snd (handleRegInt packet register current w)) = host w
  /\ background (snd (handleRegInt packet register current w)) = background w
  /\ settings (snd (handleRegInt packet register current w)) = settings w.
Proof.
  unfold handleRegInt.
  repeat match goal with |- context [if ?c then _ else _] => destruct c end;
    repeat split; reflexivity.
Qed.

Lemma handleRegBuffer_frame (packet : JDPacket) (register : Z) (current : Buffer.t)
    (w : World) :
  host (snd (handleRegBuffer packet register current w)) = host w
  /\ background (snd (handleRegBuffer packet register current w)) = background w
  /\ settings (snd (handleRegBuffer packet register current w)) = settings w.
Proof.
  unfold handleRegBuffer.
  repeat match goal with |- context [if ?c then _ else _] => destruct c end;
    repeat split; reflexivity.
Qed.

Ltac frame_register :=
  match goal with
  | |- context [handleRegInt ?p ?r ?c ?w] =>
      let F := fresh "F" in
      pose proof (handleRegInt_frame p r c w) as F;
      destruct (handleRegInt p r c w) as [? ?];
      cbn [snd] in F; destruct F as (? & ? & ?)
  | |- context [handleRegBuffer ?p ?r ?c ?w] =>
      let F := fresh "F" in
      pose proof (handleRegBuffer_frame p r c w) as F;
      destruct (handleRegBuffer p r c w) as [? ?];
      cbn [snd] in F; destruct F as (? & ? & ?)
  end.

Lemma handleRegBuffer_length (packet : JDPacket) (register : Z)
    (current : Buffer.t) (w : World) :
  Buffer.length (fst (handleRegBuffer packet register current w))
  = Buffer.length current.
Proof.
  unfold handleRegBuffer.
  repeat match goal with |- context [if ?c then _ else _] => destruct c end;
    cbn [fst]; try reflexivity.
  apply Buffer_length_write.
Qed.

(** The register handlers change at most three fields of the host: the
    contents (not the length) of the output vector, the stream counter
    and the auto-invoke threshold. *)
Lemma handleRegisters_host (packet : JDPacket) (w : World) :
  exists (out : Buffer.t) (stream auto : Z),
    host (handleRegisters packet w)
    = set_autoInvokeSamples auto
        (set_streamSamples stream (set_outputs out (host w)))
    /\ Buffer.length out = Buffer.length (outputs (host w))
    /\ background (handleRegisters packet w) = background w
    /\ settings (handleRegisters packet w) = settings w.
Proof.
  unfold handleRegisters.
  do 5 frame_register.
  match goal with
  | |- context [handleRegBuffer ?p ?r ?c ?w0] =>
      pose proof (handleRegBuffer_length p r c w0) as Hlen
  end.
  repeat frame_register.
  cbn [fst host onHost with_host background settings] in *.
  eexists _, _, _. split; [|split; [|split]].
  - f_equal. etrans; [eassumption|]. f_equal. etrans; [eassumption|].
    f_equal. congruence.
  - rewrite Hlen. congruence.
  - congruence.
  - congruence.
Qed.

Lemma handleRegisters_keeps (packet : JDPacket) (w : World) :
  lastError (host (handleRegisters packet w)) = lastError (host w)
  /\ lastRunNumSamples (host (handleRegisters packet w)) = lastRunNumSamples (host w)
  /\ background (handleRegisters packet w) = background w.
Proof.
  destruct (handleRegisters_host packet w) as (out & stream & auto & -> & _ & Hb & _).
  repeat split; [exact Hb].
Qed.

Lemma pendingRuns_runInBackground_read (packet : JDPacket) (w : World) :
  pendingRuns (runInBackground (TaskReadModel packet) w) = pendingRuns w.
Proof.
  unfold pendingRuns, runInBackground. cbn [background].
  rewrite List.filter_app, length_app. cbn. lia.
Qed.

Lemma handleCommand_keeps (packet : JDPacket) (w : World) :
  lastError (host (handleCommand packet w)) = lastError (host w)
  /\ pendingRuns (handleCommand packet w) = pendingRuns w
  /\ (service_command packet <> bor TFLiteReg.Inputs CMD_SET_REG ->
      lastRunNumSamples (host (handleCommand packet w)) = lastRunNumSamples (host w)).
Proof.
  unfold handleCommand. cbv zeta.
  destruct (_ =? TFLiteCmd.SetModel).
  { split; [reflexivity|]. split; [apply pendingRuns_runInBackground_read|reflexivity]. }
  destruct (_ =? bor TFLiteReg.Inputs CMD_GET_REG);
    [destruct (inputSettings w); repeat split; reflexivity|].
  destruct (Z.eqb_spec (service_command packet) (bor TFLiteReg.Inputs CMD_SET_REG)).
  { assert (Hcfg : forall w0, lastError (host w0) = lastError (host w) ->
                     background w0 = background w ->
                     lastError (host (configureInputs w0)) = lastError (host w)
                     /\ pendingRuns (configureInputs w0) = pendingRuns w).
    { intros w0 He Hb. destruct (configureInputs_keeps w0) as (He' & Hb' & _).
      unfold pendingRuns. rewrite He', Hb'. split; congruence. }
    destruct (inputSettings w) as [current|].
    - destruct (Buffer.equals _ _); [repeat split; reflexivity|].
      destruct (Hcfg (with_settings
                        {| inputsSettings := Some (data packet);
                           arenaSizeSettings := arenaSizeSettings (settings w) |} w))
        as [He Hp]; try reflexivity.
      repeat split; [exact He|exact Hp|congruence].
    - destruct (Hcfg (with_settings
                        {| inputsSettings := Some (data packet);
                           arenaSizeSettings := arenaSizeSettings (settings w) |} w))
        as [He Hp]; try reflexivity.
      repeat split; [exact He|exact Hp|congruence]. }
  repeat match goal with |- context [if ?c then _ else _] => destruct c end;
    repeat split; reflexivity.
Qed.

Lemma handlePacket_keeps (packet : JDPacket) (w : World) :
  lastError (host (handlePacket packet w)) = lastError (host w)
  /\ pendingRuns (handlePacket packet w) = pendingRuns w
  /\ (service_command packet <> bor TFLiteReg.Inputs CMD_SET_REG ->
      lastRunNumSamples (host (handlePacket packet w)) = lastRunNumSamples (host w)).
Proof.
  unfold handlePacket.
  destruct (handleCommand_keeps packet (handleRegisters packet w)) as (He & Hp & Hr).
  destruct (handleRegisters_keeps packet w) as (He' & Hr' & Hb').
  split; [congruence|]. split.
  - rewrite Hp. unfold pendingRuns. now rewrite Hb'.
  - intros Hcmd. rewrite Hr by exact Hcmd. exact Hr'.
Qed.

(** ** Upload: what the loop touches *)

Lemma readLoop_frame (flash : nat) (sz : Z) (chunks : list Buffer.t) (off : Z)
    (headBuffer : Buffer.t) (w : World) :
  host (snd (readLoop flash sz chunks off headBuffer w)) = host w
  /\ background (snd (readLoop flash sz chunks off headBuffer w)) = background w
  /\ settings (snd (readLoop flash sz chunks off headBuffer w)) = settings w
  /\ effects (snd (readLoop flash sz chunks off headBuffer w)) = effects w.
Proof.
  revert off headBuffer w.
  induction chunks as [|buf rest IH]; intros off headBuffer w;
    [repeat split; reflexivity|].
  cbn [readLoop].
  destruct (sz <=? _); [destruct (off =? 0); repeat split; reflexivity|].
  destruct (negb _); [destruct (off =? 0); repeat split; reflexivity|].
  destruct (IH (off + Buffer.length buf)
              (if off =? 0 then Buffer.write headBuffer 0 buf else headBuffer)
              (if off =? 0
               then with_binstore
                      (binstore_write flash 8 (Buffer.slice buf 8 (-1)) (binstore w)) w
               else with_binstore (binstore_write flash off buf (binstore w)) w))
    as (H1 & H2 & H3 & H4).
  rewrite H1, H2, H3, H4. destruct (off =? 0); repeat split; reflexivity.
Qed.

Lemma loadModel_keeps (lo : LoadOutcome) (w : World) :
  lastRunNumSamples (host (loadModel lo w)) = lastRunNumSamples (host w)
  /\ background (loadModel lo w) = background w
  /\ binstore (loadModel lo w) = binstore w.
Proof.
  unfold loadModel.
  destruct (modelBuffer _); [|repeat split; reflexivity].
  destruct lo as [arena|[s|]]; [destruct (arenaSizeSettings _)| |];
    repeat split; reflexivity.
Qed.

(** Short of completion, an upload leaves the host as it was; in any
    case it leaves the schedule alone. *)
Lemma readModel_frame (packet : JDPacket) (port : Z) (chunks : list Buffer.t)
    (lo : LoadOutcome) (w : World) :
  let r := readModel packet port chunks lo w in
  (fst r <> Completed -> host (snd r) = host w)
  /\ lastRunNumSamples (host (snd r)) = lastRunNumSamples (host w)
  /\ background (snd r) = background w.
Proof.
  unfold readModel. cbv zeta.
  destruct (_ <? intData packet); [repeat split; reflexivity|].
  cbn [binstore_addBuffer].
  match goal with |- context [readLoop ?f ?s ?c ?o ?h ?w0] =>
    destruct (readLoop_frame f s c o h w0) as (Hh & Hb & _);
    destruct (readLoop f s c o h w0) as [st w1]
  end.
  cbn [snd fst] in *.
  change (host w1 = host w) in Hh. change (background w1 = background w) in Hb.
  destruct st; cbn [fst snd];
    try (split; [intros _; exact Hh|split; [now rewrite Hh|exact Hb]]).
  destruct (loadModel_keeps lo (emit PipeClose w1)) as (Lr & Lb & _).
  split; [congruence|]. rewrite Lr, Lb. cbn [emit host background].
  split; [now rewrite Hh|exact Hb].
Qed.

Example loadedDevice_ready :
  lastError (host loadedDevice) = None /\ modelSize loadedDevice = 16
  /\ arenaSizeSettings (settings loadedDevice) = Some 2032.
Proof. vm_compute. repeat split; reflexivity. Qed.

(** ** The sticky error *)

Section StickyError.

Variable float32Bits : Q -> Z.

Lemma runModel_background (t0 t1 : Z) (io : InvokeOutcome) (w : World) :
  background (runModel float32Bits t0 t1 io w) = background w.
Proof.
  unfold runModel. destruct (isSet _); [reflexivity|].
  destruct io as [res0|[s|]]; reflexivity.
Qed.

Lemma collectorHandlePacket_lastError (i : nat) (packet : JDPacket) (w : World) :
  lastError (host (collectorHandlePacket float32Bits i packet w))
  = lastError (host w).
Proof.
  unfold collectorHandlePacket.
  destruct (collectors (host w) !! i) as [c|]; [|reflexivity].
  destruct (_ =? _); [|reflexivity].
  destruct (newData_schedule (timestamp packet) false w) as [He _].
  destruct (numberFmt _) as [fmt|]; [|exact He].
  match goal with |- lastError (host (newData ?t true ?w1)) = _ =>
    destruct (newData_schedule t true w1) as [He' _]; rewrite He' end.
  exact He.
Qed.

(** While the error is set, nothing but a completed upload (which
    ends in a model load) changes it. *)
Lemma step_keeps_error (w : World) (e : Event) :
  isSet (lastError (host w)) = true ->
  lastError (host (step float32Bits w e)) = lastError (host w)
  \/ exists o packet rest,
       e = Background o /\ background w = TaskReadModel packet :: rest
       /\ fst (readModel packet (pipePort o) (pipeChunks o) (load o)
                 (with_background rest w)) = Completed.
Proof.
  intros Hset. destruct e as [packet|i packet|o]; cbn [step].
  - left. apply handlePacket_keeps.
  - left. apply collectorHandlePacket_lastError.
  - unfold runTask. destruct (background w) as [|[|packet] rest] eqn:Hbg.
    + now left.
    + left. now rewrite runModel_skipped.
    + destruct (readModel_frame packet (pipePort o) (pipeChunks o) (load o)
                  (with_background rest w)) as (Hhost & _).
      destruct (fst (readModel packet (pipePort o) (pipeChunks o) (load o)
                       (with_background rest w))) eqn:Hst.
      4: { right. exists o, packet, rest. auto. }
      all: left; rewrite Hhost by discriminate; reflexivity.
Qed.

(** C6 (as amended).  A run that fails with a non-empty string sets
    the sticky last-error to that string.  While the last-error is
    set, every run attempt returns without invoking the model, and no
    event changes the last-error except an upload that completes and
    so loads a model.  A load clears it when a model is present and
    the interpreter's load returns; it sets "no model" when none is
    present and the thrown string when the load throws one; a
    non-string exception, of a run or of a load, never reaches the
    last-error. *)
Theorem C6_sticky_error (w : World) :
  (forall t0 t1 s,
      isSet (lastError (host w)) = false -> s <> EmptyString ->
      let w1 := runModel float32Bits t0 t1 (InvokeThrows (ThrownString s)) w in
      lastError (host w1) = Some s /\ isSet (lastError (host w1)) = true)
  /\ (isSet (lastError (host w)) = true ->
      (forall t0 t1 io, runModel float32Bits t0 t1 io w = w)
      /\ (forall e,
            lastError (host (step float32Bits w e)) = lastError (host w)
            \/ exists o packet rest,
                 e = Background o /\ background w = TaskReadModel packet :: rest
                 /\ fst (readModel packet (pipePort o) (pipeChunks o) (load o)
                           (with_background rest w)) = Completed))
  /\ (forall lo,
        match modelBuffer w, lo with
        | None, _ => lastError (host (loadModel lo w)) = Some "no model"%string
        | Some _, LoadReturns _ => lastError (host (loadModel lo w)) = None
        | Some _, LoadThrows (ThrownString s) =>
            lastError (host (loadModel lo w)) = Some s
        | Some _, LoadThrows ThrownOther => lastError (host (loadModel lo w)) = None
        end).
Proof.
  split; [|split].
  - intros t0 t1 s Hclear Hs w1. unfold w1, runModel. rewrite Hclear. cbn.
    split; [reflexivity|].
    destruct s; [congruence|reflexivity].
  - intros Hset. split.
    + intros t0 t1 io. now apply runModel_skipped.
    + intros e. now apply step_keeps_error.
  - intros lo. unfold loadModel.
    change (modelBuffer (onHost (set_lastError None) w)) with (modelBuffer w).
    destruct (modelBuffer w) as [m|]; [|reflexivity].
    destruct lo as [arena|[s|]]; [destruct (arenaSizeSettings _)| |]; reflexivity.
Qed.

End StickyError.

Lemma C6_sticky_error_witness :
  let w1 := runModel Qnum 0 5 (InvokeThrows (ThrownString "invoke failed")) loadedDevice in
  (lastError (host w1) = Some "invoke failed"%string
   /\ isSet (lastError (host w1)) = true)
  /\ runModel Qnum 5 9 (InvokeReturns [1%Q]) w1 = w1.
Proof.
  intros w1.
  assert (Hclear : isSet (lastError (host loadedDevice)) = false)
    by (vm_compute; reflexivity).
  destruct (C6_sticky_error Qnum loadedDevice) as (Hfail & _ & _).
  specialize (Hfail 0 5 "invoke failed"%string Hclear ltac:(discriminate)).
  split; [exact Hfail|].
  destruct (C6_sticky_error Qnum w1) as (_ & Hskip & _).
  apply Hskip, Hfail.
Defined.

(** C6 (as stated) fails: a run that fails with an exception that is
    not a string leaves the last-error clear, and the next run attempt
    invokes the model. *)
Lemma C6_counterexample :
  let w1 := runModel Qnum 0 5 (InvokeThrows ThrownOther) loadedDevice in
  let w2 := runModel Qnum 5 9 (InvokeReturns [1%Q]) w1 in
  lastError (host loadedDevice) = None
  /\ lastError (host w1) = None
  /\ outputs (host w1) = []
  /\ outputs (host w2) = [1; 0; 0; 0]
  /\ w2 <> w1.
Proof.
  cbv zeta. repeat split; try (vm_compute; reflexivity).
  intros H. apply (f_equal (fun w => outputs (host w))) in H.
  vm_compute in H. discriminate.
Qed.

(** ** Scheduling of runs *)

Lemma RunGuard_same (w w' : World) :
  background w' = background w ->
  lastRunNumSamples (host w') = lastRunNumSamples (host w) ->
  RunGuard w -> RunGuard w'.
Proof.
  unfold RunGuard, pendingRuns. intros -> ->. auto.
Qed.

Lemma newData_guard (ts : Z) (isPost : bool) (w : World) :
  RunGuard w -> RunGuard (newData ts isPost w).
Proof.
  intros Hg.
  destruct (newData_schedule ts isPost w) as [_ [[Hb Hr]|(_ & Hb & Hr & _ & Hfree & _)]].
  - now apply (RunGuard_same w).
  - destruct Hg as [Hle Hset]. unfold RunGuard, pendingRuns in *.
    rewrite Hb, Hr, List.filter_app, length_app. cbn [List.filter isRunModel List.length].
    assert (List.length (List.filter isRunModel (background w)) <> 1%nat)
      by (intros H1; specialize (Hset H1); lia).
    split; lia.
Qed.

Section Scheduling.

Variable float32Bits : Q -> Z.

Lemma collectorHandlePacket_guard (i : nat) (packet : JDPacket) (w : World) :
  RunGuard w -> RunGuard (collectorHandlePacket float32Bits i packet w).
Proof.
  intros Hg. unfold collectorHandlePacket.
  destruct (collectors (host w) !! i) as [c|]; [|exact Hg].
  destruct (_ =? _); [|exact Hg].
  destruct (numberFmt _) as [fmt|]; [|apply newData_guard, Hg].
  apply newData_guard.
  eapply RunGuard_same; [| |apply newData_guard, Hg]; reflexivity.
Qed.

Lemma runTask_guard (o : Oracle) (w : World) :
  RunGuard w -> RunGuard (runTask float32Bits o w).
Proof.
  intros [Hle Hset]. unfold runTask.
  destruct (background w) as [|[|packet] rest] eqn:Hbg.
  - split; assumption.
  - unfold RunGuard, pendingRuns in *. rewrite Hbg in Hle.
    cbn [List.filter isRunModel List.length] in Hle.
    rewrite runModel_background. cbn [with_background background].
    split; lia.
  - destruct (readModel_frame packet (pipePort o) (pipeChunks o) (load o)
                (with_background rest w)) as (_ & Hr & Hb).
    unfold RunGuard, pendingRuns in *. rewrite Hb, Hr, Hbg in *.
    cbn [with_background background host List.filter isRunModel] in *.
    split; assumption.
Qed.

Lemma step_guard (w : World) (e : Event) :
  isInputsWrite e = false -> RunGuard w -> RunGuard (step float32Bits w e).
Proof.
  intros Hnot [Hle Hset]. destruct e as [packet|i packet|o]; cbn [step].
  - cbn [isInputsWrite] in Hnot. apply Z.eqb_neq in Hnot.
    destruct (handlePacket_keeps packet w) as (_ & Hp & Hr).
    unfold RunGuard. rewrite Hp, (Hr Hnot). split; assumption.
  - apply collectorHandlePacket_guard. split; assumption.
  - apply runTask_guard. split; assumption.
Qed.

Lemma run_guard (es : list Event) (w : World) :
  Forall (fun e => isInputsWrite e = false) es ->
  RunGuard w -> RunGuard (run float32Bits es w).
Proof.
  unfold run. revert w. induction es as [|e es IH]; intros w Hes Hg; [exact Hg|].
  apply Forall_cons in Hes as [He Hes]. cbn [fold_left].
  apply IH; [exact Hes|]. now apply step_guard.
Qed.

(** C5 (as amended).  With auto-invoke threshold N, a post-phase
    event schedules a background run only when N is not 0, the
    sentinel is not set (lastRunNumSamples >= 0) and the sample count
    including the frame just pushed, minus the previous run's start
    mark, is at least N; it sets the sentinel to -1 as it schedules.
    A run that is not skipped puts its start mark back in place of
    the sentinel, and so does a reconfiguration of the inputs, which
    resets the mark to 0.  As long as no inputs write intervenes, two
    runs are never in flight at once. *)
Theorem C5_single_run_in_flight (w : World) :
  (forall ts isPost,
      pendingRuns (newData ts isPost w) <> pendingRuns w ->
      isPost = true
      /\ background (newData ts isPost w) = background w ++ [TaskRunModel]
      /\ lastRunNumSamples (host (newData ts isPost w)) = -1
      /\ autoInvokeSamples (host w) <> 0
      /\ 0 <= lastRunNumSamples (host w)
      /\ autoInvokeSamples (host w)
         <= numSamples (host w) + 1 - lastRunNumSamples (host w))
  /\ (forall t0 t1 io,
        isSet (lastError (host w)) = false ->
        lastRunNumSamples (host (runModel float32Bits t0 t1 io w))
        = numSamples (host w))
  /\ (forall config,
        inputSettings w = Some config ->
        lastRunNumSamples (host (configureInputs w)) = 0)
  /\ (forall es,
        RunGuard w -> Forall (fun e => isInputsWrite e = false) es ->
        RunGuard (run float32Bits es w)
        /\ (pendingRuns (run float32Bits es w) <= 1)%nat).
Proof.
  split; [|split; [|split]].
  - intros ts isPost Hchanged.
    destruct (newData_schedule ts isPost w) as [_ [[Hb _]|H]]; [|exact H].
    exfalso. apply Hchanged. unfold pendingRuns. now rewrite Hb.
  - intros t0 t1 io Hclear. unfold runModel. rewrite Hclear.
    destruct io as [res0|[s|]]; reflexivity.
  - intros config Hcfg. now rewrite (configureInputs_stored config w Hcfg).
  - intros es Hg Hes. pose proof (run_guard es w Hes Hg) as H.
    split; [exact H|apply H].
Qed.

End Scheduling.

Lemma RunGuard_idle (w : World) : background w = [] -> RunGuard w.
Proof.
  intros H. unfold RunGuard, pendingRuns. rewrite H. cbn. split; [lia|discriminate].
Qed.

Lemma C5_single_run_in_flight_witness :
  let armed := run Qnum [HostPacket (setAutoInvoke 1);
                         CollectorPacket 0 (readingReport 1000 1 2 3 4)]
                 loadedDevice in
  let es := [HostPacket (setAutoInvoke 1);
             CollectorPacket 0 (readingReport 1000 1 2 3 4);
             CollectorPacket 0 (readingReport 1100 5 6 7 8);
             CollectorPacket 0 (readingReport 1200 9 9 9 9)] in
  (background (newData 1100 true armed) = background armed ++ [TaskRunModel]
   /\ lastRunNumSamples (host (newData 1100 true armed)) = -1)
  /\ lastRunNumSamples (host (runModel Qnum 0 7 (InvokeReturns []) armed)) = 0
  /\ lastRunNumSamples (host (configureInputs armed)) = 0
  /\ (pendingRuns (run Qnum es loadedDevice) <= 1)%nat.
Proof.
  intros armed es.
  destruct (C5_single_run_in_flight Qnum armed) as (Hsched & Hrun & Hconf & _).
  destruct (C5_single_run_in_flight Qnum loadedDevice) as (_ & _ & _ & Hguard).
  split; [|split; [|split]].
  - destruct (Hsched 1100 true) as (_ & Hb & Hr & _);
      [vm_compute; discriminate|now split].
  - apply Hrun. vm_compute. reflexivity.
  - apply (Hconf exampleConfig). vm_compute. reflexivity.
  - apply Hguard; [apply RunGuard_idle; vm_compute; reflexivity|].
    repeat constructor.
Defined.

(** C5 (as stated) fails: a write of the inputs register between the
    scheduling of a run and its execution puts 0 in place of the
    sentinel, and the next reading schedules a second run while the
    first is still in flight. *)
Lemma C5_counterexample :
  let es := [HostPacket (setAutoInvoke 1);
             CollectorPacket 0 (readingReport 1000 1 2 3 4);
             CollectorPacket 0 (readingReport 1100 5 6 7 8)] in
  let reconfigure :=
    HostPacket (setInputs ([100; 0; 2; 0; 0; 0; 0; 0]
                             ++ sampleEntry 8 TFLiteSampleType.I16 0)) in
  let w1 := run Qnum es loadedDevice in
  let w2 := step Qnum w1 reconfigure in
  let w3 := step Qnum w2 (CollectorPacket 0 (readingReport 1200 9 9 9 9)) in
  (background w1 = [TaskRunModel] /\ lastRunNumSamples (host w1) = -1)
  /\ (background w2 = [TaskRunModel] /\ lastRunNumSamples (host w2) = 0)
  /\ background w3 = [TaskRunModel; TaskRunModel]
  /\ pendingRuns w3 = 2%nat.
Proof. vm_compute. repeat split; reflexivity. Qed.

(** ** Upload: the header comes last *)

Lemma band_seven (x : Z) : band x 7 = 0 -> x mod 8 = 0.
Proof.
  unfold band. rewrite (toInt32_small 7) by lia.
  change 7 with (Z.ones 3). rewrite Z.land_ones by lia.
  change (2 ^ 3) with 8. intros H.
  assert (Hwrap : toInt32 x = x + (- (2 ^ 29 * ((x + 2 ^ 31) / 2 ^ 32))) * 8).
  { unfold toInt32. rewrite Z.mod_eq by lia. lia. }
  rewrite Hwrap in H.
  now rewrite Z.mod_add in H by lia.
Qed.

Lemma write_keeps_header (r src : Buffer.t) (off : Z) :
  8 <= off -> take 8 (Buffer.write r off src) = take 8 r.
Proof.
  intros Hoff. unfold Buffer.write.
  destruct (_ || _) eqn:E; [reflexivity|].
  apply orb_false_iff in E as [_ E]. apply Z.ltb_ge in E.
  unfold Buffer.length in E.
  rewrite take_app_le by (rewrite length_take; lia).
  rewrite take_take. f_equal. lia.
Qed.

Lemma binstore_write_header (flash : nat) (off : Z) (src : Buffer.t) (w : World) :
  8 <= off ->
  regionHeader flash (with_binstore (binstore_write flash off src (binstore w)) w)
  = regionHeader flash w.
Proof.
  intros Hoff. unfold regionHeader, binstore_write.
  cbn [with_binstore binstore buffers].
  rewrite list_lookup_alter_eq, <- option_fmap_compose.
  apply option_fmap_ext. intros r. cbn.
  rewrite write_keeps_header by exact Hoff.
  pose proof (Buffer_length_write r src off) as Hlen.
  unfold Buffer.length in Hlen. f_equal. lia.
Qed.

Lemma streamBytes_nonneg (chunks : list Buffer.t) : 0 <= streamBytes chunks.
Proof.
  unfold streamBytes. induction chunks as [|c cs IH]; cbn; [lia|].
  pose proof (Buffer_length_nonneg c). lia.
Qed.

(** The loop writes below offset 8 only when it completes, and it
    completes only once [sz] bytes have been received. *)
Lemma readLoop_header (flash : nat) (sz : Z) (chunks : list Buffer.t) (off : Z)
    (headBuffer : Buffer.t) (w : World) :
  off = 0 \/ 8 <= off ->
  let r := readLoop flash sz chunks off headBuffer w in
  (fst r <> Completed -> regionHeader flash (snd r) = regionHeader flash w)
  /\ (fst r = Completed -> sz <= off + streamBytes chunks)
  /\ fst r <> Rejected.
Proof.
  revert off headBuffer w.
  induction chunks as [|buf rest IH]; intros off headBuffer w Hoff;
    [cbn; repeat split; congruence|].
  cbn [readLoop]. cbv zeta.
  pose proof (Buffer_length_nonneg buf) as Hbuf.
  pose proof (streamBytes_nonneg rest) as Hrest.
  set (w1 := if off =? 0
             then with_binstore
                    (binstore_write flash 8 (Buffer.slice buf 8 (-1)) (binstore w)) w
             else with_binstore (binstore_write flash off buf (binstore w)) w).
  assert (Hw1 : regionHeader flash w1 = regionHeader flash w).
  { unfold w1. destruct (Z.eqb_spec off 0); apply binstore_write_header; lia. }
  change (streamBytes (buf :: rest)) with (Buffer.length buf + streamBytes rest).
  destruct (Z.leb_spec sz (off + Buffer.length buf)).
  { cbn [fst snd]. repeat split; try congruence. intros _. lia. }
  destruct (Z.eqb_spec (band (off + Buffer.length buf) 7) 0) as [Haligned|_];
    cbn [negb]; [|cbn [fst snd]; repeat split; congruence].
  apply band_seven in Haligned.
  destruct (IH (off + Buffer.length buf)
              (if off =? 0 then Buffer.write headBuffer 0 buf else headBuffer) w1)
    as (H1 & H2 & H3).
  { destruct (Z.eq_dec (off + Buffer.length buf) 0); [now left|right].
    assert (0 < off + Buffer.length buf) by lia.
    pose proof (Z.div_mod (off + Buffer.length buf) 8 ltac:(lia)) as Hdm.
    assert (0 < (off + Buffer.length buf) / 8)
      by (apply Z.div_str_pos; split; [lia|]; destruct (Z_le_gt_dec 8 (off + Buffer.length buf)); lia).
    lia. }
  split; [intros Hst; rewrite H1 by exact Hst; exact Hw1|].
  split; [intros Hst; specialize (H2 Hst); lia|exact H3].
Qed.

(** How an accepted upload ends. *)
Lemma readModel_outcome (packet : JDPacket) (port : Z) (chunks : list Buffer.t)
    (lo : LoadOutcome) (w : World) :
  let sz := intData packet in
  let r := readModel packet port chunks lo w in
  (fst r = Completed -> sz <= streamBytes chunks)
  /\ (fst r = StreamClosed \/ fst r = InvalidStreamSize ->
      regionHeader 0 (snd r)
      = Some (take 8 (replicate (Z.to_nat sz) 255), Z.to_nat sz)
      /\ host (snd r) = host w)
  /\ (sz <= totalSize (binstore w) - 8 -> fst r <> Rejected).
Proof.
  cbv zeta. unfold readModel.
  destruct (Z.ltb_spec (totalSize (binstore w) - 8) (intData packet)) as [Hbig|Hfits].
  { cbn [fst snd]. split; [discriminate|]. split; [|lia].
    intros [Hst|Hst]; discriminate. }
  cbn [binstore_addBuffer].
  change (List.length (buffers (binstore (eraseModel w)))) with 0%nat.
  change (buffers (binstore (eraseModel w))) with (@nil Buffer.t).
  match goal with |- context [readLoop ?f ?s ?c ?o ?h ?w0] =>
    pose proof (readLoop_header f s c o h w0 (or_introl eq_refl)) as Hloop;
    pose proof (readLoop_frame f s c o h w0) as Hframe;
    destruct (readLoop f s c o h w0) as [st w1]
  end.
  cbv zeta in Hloop. cbn [fst snd] in Hloop, Hframe.
  destruct Hloop as (Hhdr & Hdone & Hrej). destruct Hframe as (Hhost & _).
  destruct st; cbn [fst snd].
  - now contradiction Hrej.
  - split; [discriminate|]. split; [|discriminate]. intros _.
    rewrite Hhdr by discriminate. split; [|exact Hhost].
    unfold regionHeader. cbn. now rewrite length_replicate.
  - split; [discriminate|]. split; [|discriminate]. intros _.
    rewrite Hhdr by discriminate. split; [|exact Hhost].
    unfold regionHeader. cbn. now rewrite length_replicate.
  - split; [intros _; specialize (Hdone eq_refl); lia|].
    split; [intros [H|H]; discriminate|discriminate].
Qed.

(** A region of at least four bytes whose header is still erased reads
    as "no model". *)
Lemma erased_header_no_model (n : nat) (w : World) :
  regionHeader 0 w = Some (take 8 (replicate n 255), n) -> (4 <= n)%nat ->
  modelBuffer w = None /\ modelSize w = 0.
Proof.
  unfold regionHeader, modelSize, modelBuffer. intros Hhdr Hn.
  destruct (buffers (binstore w) !! 0%nat) as [r|]; [|discriminate].
  cbn in Hhdr. injection Hhdr as Htake Hlen.
  assert (Hword : Buffer.getNumber r Int32LE 0 = -1).
  { unfold Buffer.getNumber, Buffer.length.
    cbn [Buffer.sizeOfNumberFormat Buffer.isSigned andb].
    replace (Z.of_nat (List.length r) <? 0 + 4) with false
      by (symmetry; apply Z.ltb_ge; lia).
    cbn [Z.ltb Z.compare orb]. change (Z.to_nat 0) with 0%nat.
    change (Z.to_nat 4) with 4%nat. rewrite drop_0.
    replace (take 4 r) with (take 4 (take 8 r)) by (rewrite take_take; reflexivity).
    rewrite Htake, take_take, take_replicate.
    replace (Nat.min (Nat.min 4 8) n) with 4%nat by lia.
    reflexivity. }
  now rewrite Hword.
Qed.

(** No accepted upload ends at the capacity check or completes short
    of the declared size. *)
Lemma readModel_short (packet : JDPacket) (port : Z) (chunks : list Buffer.t)
    (lo : LoadOutcome) (w : World) :
  intData packet <= totalSize (binstore w) - 8 ->
  streamBytes chunks < intData packet ->
  fst (readModel packet port chunks lo w) = StreamClosed
  \/ fst (readModel packet port chunks lo w) = InvalidStreamSize.
Proof.
  intros Hfits Hshort.
  destruct (readModel_outcome packet port chunks lo w) as (Hdone & _ & Hacc).
  destruct (fst (readModel packet port chunks lo w)); auto.
  - now contradiction (Hacc Hfits).
  - specialize (Hdone eq_refl). lia.
Qed.

(** ** Reading the ModelSize and LastError registers *)

Lemma handleRegInt_get (packet : JDPacket) (register current : Z) (w : World) :
  sar (service_command packet) 12 = 1 ->
  band (service_command packet) 0xfff = register ->
  handleRegInt packet register current w
  = (current, sendReport (service_command packet) (Buffer.leBytes 4 current) w).
Proof.
  intros Hget Hreg. unfold handleRegInt. rewrite Hget, Hreg.
  cbn [Z.eqb Z.ltb Z.compare Pos.compare Pos.compare_cont orb Pos.eqb].
  now rewrite Z.eqb_refl.
Qed.

Ltac decide_commands :=
  repeat match goal with
         | |- context [?a =? ?b] =>
             let v := eval vm_compute in (a =? b) in
             change (a =? b) with v
         end.

Lemma registerReply_ModelSize (w : World) :
  registerReply TFLiteReg.ModelSize w
  = [SendReport (bor CMD_GET_REG TFLiteReg.ModelSize)
       (Buffer.leBytes 4 (modelSize w))].
Proof.
  unfold registerReply, handlePacket, handleRegisters.
  set (p := getRegister TFLiteReg.ModelSize).
  assert (Hidle : forall reg, reg <> TFLiteReg.ModelSize ->
            sar (service_command p) 12 = 0
            \/ band (service_command p) 0xfff <> reg)
    by (intros reg Hreg; right; intros H; apply Hreg; rewrite <- H; reflexivity).
  rewrite !(handleRegInt_idle p _ _ w) by (apply Hidle; discriminate).
  rewrite (handleRegInt_get p TFLiteReg.ModelSize) by reflexivity.
  repeat first
    [ rewrite handleRegInt_idle by (apply Hidle; discriminate)
    | rewrite handleRegBuffer_idle by (apply Hidle; discriminate)
    | rewrite set_outputs_same ].
  rewrite !set_streamSamples_same, !set_autoInvokeSamples_same.
  unfold handleCommand. cbv zeta.
  change (service_command p) with (bor CMD_GET_REG TFLiteReg.ModelSize).
  decide_commands. cbv iota.
  unfold sendReport, emit. cbn [effects].
  now rewrite drop_app_length.
Qed.

Lemma registerReply_LastError (w : World) :
  registerReply TFLiteReg.LastError w
  = [SendReport (bor TFLiteReg.LastError CMD_GET_REG)
       (fromUTF8 (if isSet (lastError (host w))
                  then default EmptyString (lastError (host w))
                  else EmptyString))].
Proof.
  unfold registerReply, handlePacket.
  set (p := getRegister TFLiteReg.LastError).
  assert (Hidle : forall reg, reg <> TFLiteReg.LastError ->
            sar (service_command p) 12 = 0
            \/ band (service_command p) 0xfff <> reg)
    by (intros reg Hreg; right; intros H; apply Hreg; rewrite <- H; reflexivity).
  assert (Hregs : handleRegisters p w = w).
  { unfold handleRegisters.
    repeat first
      [ rewrite handleRegInt_idle by (apply Hidle; discriminate)
      | rewrite handleRegBuffer_idle by (apply Hidle; discriminate)
      | rewrite set_outputs_same ].
    now rewrite !set_streamSamples_same, !set_autoInvokeSamples_same. }
  rewrite Hregs. unfold handleCommand. cbv zeta.
  change (service_command p) with (bor CMD_GET_REG TFLiteReg.LastError).
  decide_commands. cbv iota.
  unfold sendReport, emit. cbn [effects].
  now rewrite drop_app_length.
Qed.

(** C9 (as amended).  When a SetModel upload declares 1024 bytes (and
    is accepted) but the stream closes after 512, the ModelSize
    register reads 0 afterwards, while the last-error is what it was
    before the upload: the handler returns at the end of the stream
    without a load attempt.  The LastError register reads "no model"
    after the next load attempt. *)
Theorem C9_partial_upload (packet : JDPacket) (port : Z) (chunks : list Buffer.t)
    (lo : LoadOutcome) (w : World) :
  intData packet = 1024 ->
  1032 <= totalSize (binstore w) ->
  streamBytes chunks = 512 ->
  let w' := snd (readModel packet port chunks lo w) in
  modelSize w' = 0
  /\ registerReply TFLiteReg.ModelSize w'
     = [SendReport (bor CMD_GET_REG TFLiteReg.ModelSize) [0; 0; 0; 0]]
  /\ lastError (host w') = lastError (host w)
  /\ registerReply TFLiteReg.LastError w' = registerReply TFLiteReg.LastError w
  /\ (forall lo',
        lastError (host (loadModel lo' w')) = Some "no model"%string
        /\ registerReply TFLiteReg.LastError (loadModel lo' w')
           = [SendReport (bor TFLiteReg.LastError CMD_GET_REG)
                (fromUTF8 "no model")]).
Proof.
  intros Hsz Hcap Hbytes w'.
  destruct (readModel_outcome packet port chunks lo w) as (_ & Habort & _).
  assert (Hst : fst (readModel packet port chunks lo w) = StreamClosed
                \/ fst (readModel packet port chunks lo w) = InvalidStreamSize)
    by (apply readModel_short; lia).
  destruct (Habort Hst) as [Hhdr Hhost]. fold w' in Hhdr, Hhost.
  destruct (erased_header_no_model _ w' Hhdr ltac:(lia)) as [Hnone Hzero].
  split; [exact Hzero|].
  split; [rewrite registerReply_ModelSize, Hzero; reflexivity|].
  split; [now rewrite Hhost|].
  split; [rewrite !registerReply_LastError; now rewrite Hhost|].
  intros lo'.
  assert (Hload : lastError (host (loadModel lo' w')) = Some "no model"%string).
  { unfold loadModel.
    change (modelBuffer (onHost (set_lastError None) w')) with (modelBuffer w').
    now rewrite Hnone. }
  split; [exact Hload|].
  rewrite registerReply_LastError, Hload. reflexivity.
Qed.

Lemma C9_partial_upload_witness :
  let w' := snd (readModel (setModelPacket 1024) 1 halfStream (LoadReturns 2000)
                   (device 4096 None)) in
  modelSize w' = 0
  /\ registerReply TFLiteReg.ModelSize w'
     = [SendReport (bor CMD_GET_REG TFLiteReg.ModelSize) [0; 0; 0; 0]]
  /\ lastError (host (loadModel (LoadReturns 2000) w')) = Some "no model"%string.
Proof.
  intros w'.
  destruct (C9_partial_upload (setModelPacket 1024) 1 halfStream (LoadReturns 2000)
              (device 4096 None))
    as (Hzero & Hreg & _ & _ & Hload);
    [vm_compute; reflexivity|vm_compute; discriminate|vm_compute; reflexivity|].
  split; [exact Hzero|]. split; [exact Hreg|]. apply Hload.
Defined.

(** C9 (as stated) fails: on a device whose model was loaded without
    error, an upload of declared size 1024 that closes after 512 bytes
    leaves the LastError register reading the empty text, not
    "no model". *)
Lemma C9_counterexample :
  let w' := snd (readModel (setModelPacket 1024) 1 halfStream (LoadReturns 2000)
                   loadedDevice) in
  intData (setModelPacket 1024) = 1024
  /\ streamBytes halfStream = 512
  /\ modelSize w' = 0
  /\ lastError (host w') = None
  /\ registerReply TFLiteReg.LastError w'
     = [SendReport (bor TFLiteReg.LastError CMD_GET_REG) []]
  /\ registerReply TFLiteReg.LastError w'
     <> [SendReport (bor TFLiteReg.LastError CMD_GET_REG) (fromUTF8 "no model")].
Proof. vm_compute. repeat split; discriminate. Qed.

(** * Further properties of the code *)

(** ** Packing number arrays *)

Lemma leValue_leBytes (n : nat) (v : Z) :
  Buffer.leValue (Buffer.leBytes n v) = v mod 256 ^ Z.of_nat n.
Proof.
  unfold Buffer.leValue. revert v. induction n as [|n IH]; intros v.
  - cbn. now rewrite Z.mod_1_r.
  - cbn [Buffer.leBytes foldr]. rewrite IH, Z.mod_mod by lia.
    rewrite Nat2Z.inj_succ, Z.pow_succ_r by lia.
    rewrite Z.rem_mul_r by lia.
    reflexivity.
Qed.

(** The loop of [packArray], for any element writer [put] that stores
    the [sz] bytes [enc v] when they fit. *)
Lemma pack_loop {A : Type} (sz : nat) (enc : A -> list Z)
    (put : Buffer.t -> Z -> A -> Buffer.t) (arr : list A) :
  (forall v, List.length (enc v) = sz) ->
  (forall b off v, 0 <= off -> off + Z.of_nat sz <= Buffer.length b ->
                   put b off v = Buffer.write b off (enc v)) ->
  forall (k : nat) (done : Buffer.t),
    List.length done = (k * sz)%nat ->
    fold_left (fun res '(i, v) => put res (Z.of_nat i * Z.of_nat sz) v)
      (imap (fun i v => ((k + i)%nat, v)) arr)
      (done ++ replicate (List.length arr * sz) 0)
    = done ++ concat (map enc arr).
Proof.
  intros Henc Hput. induction arr as [|a rest IH]; intros k done Hdone.
  - cbn. reflexivity.
  - rewrite imap_cons. cbn [fold_left map concat List.length].
    rewrite Nat.add_0_r, Hput.
    2: lia.
    2: { unfold Buffer.length. rewrite length_app, length_replicate. nia. }
    rewrite Buffer_write_inside.
    2: lia.
    2: { unfold Buffer.length. rewrite length_app, length_replicate, Henc. nia. }
    replace (Z.to_nat (Z.of_nat k * Z.of_nat sz)) with (List.length done) by nia.
    rewrite take_app_length, drop_app_ge by lia.
    replace (List.length done + List.length (enc a) - List.length done)%nat
      with sz by (rewrite Henc; lia).
    replace (S (List.length rest) * sz)%nat
      with (sz + List.length rest * sz)%nat by lia.
    rewrite drop_replicate_add.
    rewrite (imap_ext _ (fun i v => ((S k + i)%nat, v)))
      by (intros i x _; cbn; f_equal; lia).
    rewrite (app_assoc done). rewrite IH by (rewrite length_app, Henc; lia).
    now rewrite <- app_assoc.
Qed.

Lemma packArray_concat (arr : list Z) (fmt : NumberFormat) :
  packArray arr fmt
  = concat (map (Buffer.leBytes (Z.to_nat (Buffer.sizeOfNumberFormat (Some fmt))))
              arr).
Proof.
  unfold packArray, Buffer.create.
  set (sz := Z.to_nat (Buffer.sizeOfNumberFormat (Some fmt))).
  assert (Hsz : Buffer.sizeOfNumberFormat (Some fmt) = Z.of_nat sz)
    by (destruct fmt; reflexivity).
  rewrite Hsz.
  replace (Z.to_nat (Z.of_nat (List.length arr) * Z.of_nat sz))
    with (List.length arr * sz)%nat by lia.
  apply (pack_loop sz (Buffer.leBytes sz)
           (fun b off v => Buffer.setNumber b fmt off v) arr
           (length_leBytes sz)
           ltac:(intros b off v H0 Hfit; unfold Buffer.setNumber;
                 rewrite Hsz;
                 replace (off <? 0) with false by (symmetry; apply Z.ltb_ge; lia);
                 replace (Buffer.length b <? off + Z.of_nat sz) with false
                   by (symmetry; apply Z.ltb_ge; lia);
                 cbn [orb]; now rewrite Nat2Z.id)
           0%nat []).
  reflexivity.
Qed.

(** Chunks of equal length sit at multiples of that length in their
    concatenation. *)
Lemma concat_cell {A : Type} (n : nat) (cs : list (list A)) (i : nat) (c : list A) :
  Forall (fun c => List.length c = n) cs -> cs !! i = Some c ->
  take n (drop (i * n) (concat cs)) = c.
Proof.
  intros Hall. revert i. induction Hall as [|x cs Hx Hall IH]; intros i Hi;
    [discriminate|].
  destruct i as [|i]; cbn in Hi; cbn [concat].
  - injection Hi as ->. cbn. now apply take_app_length'.
  - replace (S i * n)%nat with (n + i * n)%nat by lia.
    rewrite <- drop_drop, drop_app_length' by (symmetry; exact Hx).
    now apply IH.
Qed.

Lemma concat_cells_length {A : Type} (n : nat) (cs : list (list A)) :
  Forall (fun c => List.length c = n) cs ->
  List.length (concat cs) = (List.length cs * n)%nat.
Proof.
  induction 1 as [|x cs Hx Hall IH]; [reflexivity|].
  cbn. rewrite length_app, IH, Hx. lia.
Qed.

Lemma getNumber_leBytes (fmt : NumberFormat) (arr : list Z) (i : nat) (v : Z) :
  arr !! i = Some v ->
  Buffer.getNumber
    (concat (map (Buffer.leBytes (Z.to_nat (Buffer.sizeOfNumberFormat (Some fmt))))
               arr))
    fmt (Z.of_nat i * Buffer.sizeOfNumberFormat (Some fmt))
  = wrapNumber fmt v.
Proof.
  intros Hv. unfold Buffer.getNumber, wrapNumber.
  set (sz := Z.to_nat (Buffer.sizeOfNumberFormat (Some fmt))).
  assert (Hsz : Buffer.sizeOfNumberFormat (Some fmt) = Z.of_nat sz)
    by (destruct fmt; reflexivity).
  assert (Hpos : (0 < sz)%nat) by (unfold sz; destruct fmt; cbn; lia).
  rewrite Hsz.
  assert (Hall : Forall (fun c => List.length c = sz) (map (Buffer.leBytes sz) arr)).
  { apply Forall_forall. intros c Hc. apply list_elem_of_fmap in Hc as (x & -> & _).
    apply length_leBytes. }
  pose proof (lookup_lt_Some _ _ _ Hv) as Hi.
  replace (Z.of_nat i * Z.of_nat sz <? 0) with false
    by (symmetry; apply Z.ltb_ge; lia).
  replace (Buffer.length (concat (map (Buffer.leBytes sz) arr))
           <? Z.of_nat i * Z.of_nat sz + Z.of_nat sz) with false.
  2: { symmetry. apply Z.ltb_ge. unfold Buffer.length.
       rewrite (concat_cells_length sz) by exact Hall. rewrite length_map. nia. }
  cbn [orb]. rewrite ?Nat2Z.id.
  replace (Z.to_nat (Z.of_nat i * Z.of_nat sz)) with (i * sz)%nat by lia.
  rewrite (concat_cell sz _ i (Buffer.leBytes sz v)); [|exact Hall|].
  2: { now rewrite list_lookup_fmap, Hv. }
  rewrite leValue_leBytes.
  replace (256 ^ Z.of_nat sz) with (2 ^ (8 * Z.of_nat sz)).
  2: { rewrite Z.pow_mul_r by lia. reflexivity. }
  reflexivity.
Qed.

(** X1.  Packing and decoding are inverse up to the width of the
    format: decoding [packArray(arr, fmt)] with the same format gives
    back every element reduced to that width, so arrays whose elements
    fit the format (as the tensor shapes packed as UInt16LE do) come
    back unchanged; the packed buffer has one element width per
    element. *)
Theorem X1_packArray_roundtrip (arr : list Z) (fmt : NumberFormat) :
  Z.of_nat (List.length arr) < 2 ^ 28 ->
  Buffer.length (packArray arr fmt)
  = Z.of_nat (List.length arr) * Buffer.sizeOfNumberFormat (Some fmt)
  /\ Buffer.toArray (packArray arr fmt) fmt = map (wrapNumber fmt) arr
  /\ (Forall (fun v => wrapNumber fmt v = v) arr ->
      Buffer.toArray (packArray arr fmt) fmt = arr).
Proof.
  intros Hlen. rewrite packArray_concat.
  set (sz := Z.to_nat (Buffer.sizeOfNumberFormat (Some fmt))).
  assert (Hsz : Buffer.sizeOfNumberFormat (Some fmt) = Z.of_nat sz)
    by (destruct fmt; reflexivity).
  assert (Hrange : (1 <= sz <= 4)%nat) by (unfold sz; destruct fmt; cbn; lia).
  assert (Hall : Forall (fun c => List.length c = sz) (map (Buffer.leBytes sz) arr)).
  { apply Forall_forall. intros c Hc. apply list_elem_of_fmap in Hc as (x & -> & _).
    apply length_leBytes. }
  assert (Hbytes : Buffer.length (concat (map (Buffer.leBytes sz) arr))
                   = Z.of_nat (List.length arr) * Z.of_nat sz).
  { unfold Buffer.length. rewrite (concat_cells_length sz) by exact Hall.
    rewrite length_map. lia. }
  assert (Hdecode : Buffer.toArray (concat (map (Buffer.leBytes sz) arr)) fmt
                    = map (wrapNumber fmt) arr).
  { unfold Buffer.toArray. cbv zeta. rewrite Hbytes, Hsz.
    rewrite idiv_nonneg by nia.
    rewrite Z.div_mul by lia. rewrite Nat2Z.id.
    apply list_eq. intros i. rewrite !list_lookup_fmap.
    destruct (arr !! i) as [v|] eqn:Hv; cbn.
    - pose proof (lookup_lt_Some _ _ _ Hv) as Hi.
      rewrite lookup_seq_lt by exact Hi. cbn. f_equal.
      rewrite <- Hsz. now apply getNumber_leBytes.
    - apply lookup_ge_None in Hv. now rewrite lookup_seq_ge. }
  split; [now rewrite Hsz|]. split; [exact Hdecode|].
  intros Hfit. rewrite Hdecode. clear - Hfit.
  induction Hfit as [|v vs Hv _ IH]; [reflexivity|].
  cbn. now rewrite Hv, IH.
Qed.

Lemma X1_packArray_roundtrip_witness :
  Buffer.toArray (packArray [1; 96; 96; 3] UInt16LE) UInt16LE = [1; 96; 96; 3].
Proof.
  destruct (X1_packArray_roundtrip [1; 96; 96; 3] UInt16LE) as (_ & _ & H);
    [vm_compute; reflexivity|].
  apply H. repeat constructor.
Defined.

Section PackFloat32.

Variable float32Bits : Q -> Z.

Lemma packArrayF32_concat (arr : list Q) :
  packArrayF32 float32Bits arr
  = concat (map (fun v => Buffer.leBytes 4 (float32Bits v)) arr).
Proof.
  unfold packArrayF32, Buffer.create.
  replace (Z.to_nat (Z.of_nat (List.length arr) * 4))
    with (List.length arr * 4)%nat by lia.
  apply (pack_loop 4 (fun v => Buffer.leBytes 4 (float32Bits v))
           (fun b off v => setNumberF32 float32Bits b off v) arr
           (fun v => length_leBytes 4 (float32Bits v))
           ltac:(intros b off v H0 Hfit; unfold setNumberF32;
                 replace (off <? 0) with false by (symmetry; apply Z.ltb_ge; lia);
                 replace (Buffer.length b <? off + 4) with false
                   by (symmetry; apply Z.ltb_ge; lia);
                 reflexivity)
           0%nat []).
  reflexivity.
Qed.

(** X2.  After a run that is not skipped and whose invocation returns,
    the output vector holds the first output tensor as consecutive
    float32 values in order: four bytes per value, value [i] at byte
    offset [4 i]. *)
Theorem X2_outputs_layout (t0 t1 : Z) (res0 : list Q) (w : World) :
  isSet (lastError (host w)) = false ->
  let out := outputs (host (runModel float32Bits t0 t1 (InvokeReturns res0) w)) in
  out = concat (map (fun v => Buffer.leBytes 4 (float32Bits v)) res0)
  /\ Buffer.length out = 4 * Z.of_nat (List.length res0)
  /\ (forall i v, res0 !! i = Some v ->
                  float32Cell i out = Buffer.leBytes 4 (float32Bits v)).
Proof.
  intros Hclear out.
  assert (Hout : out = concat (map (fun v => Buffer.leBytes 4 (float32Bits v)) res0)).
  { unfold out, runModel. rewrite Hclear. cbn. apply packArrayF32_concat. }
  assert (Hall : Forall (fun c => List.length c = 4%nat)
                   (map (fun v => Buffer.leBytes 4 (float32Bits v)) res0)).
  { apply Forall_forall. intros c Hc. apply list_elem_of_fmap in Hc as (x & -> & _).
    apply length_leBytes. }
  split; [exact Hout|]. rewrite Hout. split.
  - unfold Buffer.length. rewrite (concat_cells_length 4) by exact Hall.
    rewrite length_map. lia.
  - intros i v Hv. unfold float32Cell. rewrite Nat.mul_comm.
    apply concat_cell; [exact Hall|]. now rewrite list_lookup_fmap, Hv.
Qed.

End PackFloat32.

Lemma X2_outputs_layout_witness :
  outputs (host (runModel Qnum 0 9 (InvokeReturns [3%Q; 258%Q]) loadedDevice))
  = [3; 0; 0; 0; 2; 1; 0; 0].
Proof.
  assert (Hclear : isSet (lastError (host loadedDevice)) = false)
    by (vm_compute; reflexivity).
  destruct (X2_outputs_layout Qnum 0 9 [3%Q; 258%Q] loadedDevice Hclear) as (H & _).
  exact H.
Defined.

(** ** Collectors: element count and reports *)

Lemma getNumber_out_of_range (b : Buffer.t) (fmt : NumberFormat) (off : Z) :
  Buffer.length b < off + Buffer.sizeOfNumberFormat (Some fmt) ->
  Buffer.getNumber b fmt off = 0.
Proof.
  intros H. unfold Buffer.getNumber.
  replace (Buffer.length b <? off + Buffer.sizeOfNumberFormat (Some fmt)) with true
    by (symmetry; apply Z.ltb_lt; exact H).
  now rewrite orb_true_r.
Qed.

(** X3.  The collector constructor gives the last-sample vector one
    float32 (four bytes) per declared element: the element count is
    the declared sample size divided by the width of the sample type,
    rounded down, between 0 and 255.  A sample type outside the six
    known ones has width 0 and the division by zero gives 0 elements,
    and so does an entry cut short before its sample-size byte. *)
Theorem X3_collector_elements (entry : Buffer.t) :
  let c := Collector.create entry in
  0 <= Collector.numElts c <= 255
  /\ Buffer.length (Collector.lastSample c) = 4 * Collector.numElts c
  /\ (forall f, numberFmt (entrySampleType entry) = Some f ->
                Collector.numElts c
                = entrySampleSize entry / Buffer.sizeOfNumberFormat (Some f))
  /\ (numberFmt (entrySampleType entry) = None ->
      Collector.numElts c = 0 /\ Collector.lastSample c = [])
  /\ (Buffer.length entry <= 13 ->
      Collector.numElts c = 0 /\ Collector.lastSample c = []).
Proof.
  intros c.
  pose proof (getNumber_u8_range entry 13) as Hsize.
  fold (entrySampleSize entry) in Hsize.
  assert (Hn : Collector.numElts c
               = idiv (entrySampleSize entry)
                   (Buffer.sizeOfNumberFormat (numberFmt (entrySampleType entry))))
    by reflexivity.
  assert (Hvalid : forall f, numberFmt (entrySampleType entry) = Some f ->
            Collector.numElts c
            = entrySampleSize entry / Buffer.sizeOfNumberFormat (Some f)).
  { intros f Hf. rewrite Hn, Hf. apply idiv_nonneg; [lia|destruct f; cbn; lia]. }
  assert (Hnone : numberFmt (entrySampleType entry) = None -> Collector.numElts c = 0).
  { intros Hf. rewrite Hn, Hf. reflexivity. }
  assert (Hrange : 0 <= Collector.numElts c <= 255).
  { destruct (numberFmt (entrySampleType entry)) as [f|] eqn:Hf.
    - rewrite (Hvalid f eq_refl).
      assert (0 < Buffer.sizeOfNumberFormat (Some f)) by (destruct f; cbn; lia).
      split; [apply Z.div_pos; lia|].
      apply Z.div_le_upper_bound; nia.
    - rewrite Hnone by reflexivity. lia. }
  assert (Hlast : Collector.lastSample c = Buffer.create (Collector.numElts c * 4))
    by reflexivity.
  split; [exact Hrange|]. split; [rewrite Hlast, Buffer_length_create; lia|].
  split; [exact Hvalid|]. split.
  - intros Hf. rewrite Hlast, Hnone by exact Hf. now split.
  - intros Hshort.
    assert (H0 : Collector.numElts c = 0).
    { rewrite Hn. unfold entrySampleSize.
      rewrite getNumber_out_of_range by (cbn; lia).
      unfold idiv. rewrite (toInt32_small 0) by lia. cbn.
      now destruct (toInt32 _ =? 0). }
    rewrite Hlast, H0. now split.
Qed.

Lemma X3_collector_elements_witness :
  Collector.numElts (Collector.create (sampleEntry 7 TFLiteSampleType.I16 0)) = 3
  /\ Collector.lastSample (Collector.create (sampleEntry 8 0x42 0)) = []
  /\ Collector.lastSample (Collector.create [1; 2; 3]) = [].
Proof.
  destruct (X3_collector_elements (sampleEntry 7 TFLiteSampleType.I16 0))
    as (_ & _ & Hv & _).
  destruct (X3_collector_elements (sampleEntry 8 0x42 0)) as (_ & _ & _ & Hn & _).
  destruct (X3_collector_elements [1; 2; 3]) as (_ & _ & _ & _ & Hs).
  split; [apply (Hv Int16LE); reflexivity|].
  split; [apply Hn; reflexivity|apply Hs; vm_compute; discriminate].
Defined.

Section ReportProofs.

Variable float32Bits : Q -> Z.

(** Elements from the end of the decoded values on are left alone. *)
Lemma storeSamples_after (c : Collector.t) (arr : list Z) (i k : nat)
    (b : Buffer.t) :
  Z.of_nat (i + List.length arr) < 2 ^ 29 -> (i + List.length arr <= k)%nat ->
  float32Cell k (storeSamples float32Bits c arr (Z.of_nat i) b) = float32Cell k b.
Proof.
  revert i b. induction arr as [|a rest IH]; intros i b Hsmall Hk; [reflexivity|].
  cbn [storeSamples List.length] in *.
  replace (Z.of_nat i + 1) with (Z.of_nat (S i)) by lia.
  rewrite IH by lia.
  rewrite shl_two by lia.
  apply setNumberF32_cell_ne. lia.
Qed.

Lemma iter_pushData_collectors (n : nat) (w : World) :
  collectors (host (Nat.iter n pushData w)) = collectors (host w).
Proof.
  induction n as [|n IH]; [reflexivity|].
  rewrite Nat.iter_succ.
  destruct (pushData_host (Nat.iter n pushData w)) as (_ & _ & -> & _).
  exact IH.
Qed.

Lemma newData_collectors (ts : Z) (isPost : bool) (w : World) :
  collectors (host (newData ts isPost w)) = collectors (host w).
Proof.
  unfold newData.
  set (w0 := if lastSample (host w) =? 0 then onHost (set_lastSample ts) w else w).
  assert (H0 : collectors (host w0) = collectors (host w))
    by (unfold w0; destruct (_ =? 0); reflexivity).
  destruct (frameCount _ _ =? 0); [exact H0|]. destruct isPost.
  - destruct (pushData_host (onHost (set_lastSample ts) w0)) as (_ & _ & Hc & _).
    destruct (_ && _); cbn [onHost with_host runInBackground host
                            set_lastRunNumSamples collectors];
      rewrite Hc; exact H0.
  - now rewrite iter_pushData_collectors.
Qed.

(** X4.  A register-read report of any length never changes the
    length of the collector's last-sample vector, and the elements the
    report does not reach keep the value of the previous report; for a
    collector whose sample type has no number format the report stores
    nothing at all. *)
Theorem X4_report_keeps_vector (c : Collector.t) (fmt : NumberFormat)
    (payload : Buffer.t) (k : nat) :
  Buffer.length payload < 2 ^ 29 ->
  let c' := collectorUpdate float32Bits c fmt payload in
  let decoded := Buffer.toArray payload fmt in
  Buffer.length (Collector.lastSample c') = Buffer.length (Collector.lastSample c)
  /\ ((List.length decoded <= k)%nat ->
      float32Cell k (Collector.lastSample c') = float32Cell k (Collector.lastSample c))
  /\ (forall (i : nat) (packet : JDPacket) (w : World),
        collectors (host w) !! i = Some c ->
        numberFmt (Collector.sampleType c) = None ->
        collectors (host (collectorHandlePacket float32Bits i packet w))
        = collectors (host w)).
Proof.
  intros Hlen c' decoded. split; [|split].
  - apply storeSamples_length.
  - intros Hk.
    pose proof (toArray_length payload fmt Hlen).
    apply (storeSamples_after c decoded 0 k); cbn [Nat.add]; [fold decoded in H|]; lia.
  - intros i packet w Hc Hfmt. unfold collectorHandlePacket.
    rewrite Hc, Hfmt. destruct (_ =? _); [|reflexivity].
    apply newData_collectors.
Qed.

End ReportProofs.

Lemma X4_report_keeps_vector_witness :
  let c := Collector.with_lastSample [1; 1; 1; 1; 2; 2; 2; 2]
             (Collector.create (sampleEntry 2 TFLiteSampleType.U8 0)) in
  Buffer.length (Collector.lastSample (collectorUpdate Qnum c UInt8LE [9; 9; 9])) = 8
  /\ float32Cell 1 (Collector.lastSample (collectorUpdate Qnum c UInt8LE [7]))
     = [2; 2; 2; 2].
Proof.
  intros c.
  destruct (X4_report_keeps_vector Qnum c UInt8LE [9; 9; 9] 5) as (Hlen & _ & _);
    [vm_compute; reflexivity|].
  destruct (X4_report_keeps_vector Qnum c UInt8LE [7] 1) as (_ & Hcell & _);
    [vm_compute; reflexivity|].
  split; [exact Hlen|]. apply Hcell. vm_compute. lia.
Defined.

(** ** Streaming of samples *)

Lemma WindowHolds_length (w : World) (history : list Buffer.t) :
  WindowHolds w history ->
  Buffer.length (samplesBuffer (host w))
  = samplesInWindow (host w) * sampleSize (host w).
Proof.
  intros (Hwin & Hsz & _ & Hhist & ->). unfold windowOf, Buffer.length.
  set (n := Z.to_nat (samplesInWindow (host w))).
  set (L := replicate n (Buffer.create (sampleSize (host w))) ++ history).
  assert (HL : Forall (fun f => List.length f = Z.to_nat (sampleSize (host w))) L).
  { apply Forall_app; split.
    - apply Forall_replicate. unfold Buffer.create. apply length_replicate.
    - eapply Forall_impl; [exact Hhist|]. unfold Buffer.length. intros f Hf. lia. }
  rewrite (concat_cells_length (Z.to_nat (sampleSize (host w))))
    by (apply Forall_drop, HL).
  rewrite lastN_length by (unfold L; rewrite length_app, length_replicate; lia).
  unfold n. nia.
Qed.

Lemma slice_tail (front frame : Buffer.t) :
  Buffer.slice (front ++ frame)
    (Buffer.length (front ++ frame) - Buffer.length frame) (Buffer.length frame)
  = frame.
Proof.
  unfold Buffer.slice, Buffer.length. rewrite length_app.
  replace (Z.of_nat (List.length frame) <? 0) with false
    by (symmetry; apply Z.ltb_ge; lia).
  replace (Z.of_nat (List.length front + List.length frame)
           - Z.of_nat (List.length frame)) with (Z.of_nat (List.length front)) by lia.
  rewrite (Z.min_r _ (Z.of_nat (List.length front))) by lia.
  rewrite Z.min_l by lia.
  rewrite !Nat2Z.id, drop_app_length. apply firstn_all.
Qed.

(** What one push does to the stream counter and to the outside. *)
Lemma pushData_stream (w : World) :
  let w' := pushData w in
  (0 < streamSamples (host w) ->
   streamSamples (host w') = streamSamples (host w) - 1
   /\ effects w'
      = effects w
        ++ [SendReport (bor TFLiteReg.CurrentSample CMD_GET_REG)
              (Buffer.slice (samplesBuffer (host w'))
                 (Buffer.length (samplesBuffer (host w')) - sampleSize (host w'))
                 (sampleSize (host w')))])
  /\ (streamSamples (host w) <= 0 ->
      streamSamples (host w') = streamSamples (host w) /\ effects w' = effects w).
Proof.
  unfold pushData. cbv zeta.
  cbn [host onHost with_host set_samplesBuffer set_numSamples streamSamples].
  destruct (Z.ltb_spec 0 (streamSamples (host w))); split; intros; try lia.
  - split; reflexivity.
  - split; reflexivity.
Qed.

(** X5.  While the stream counter is positive, a push on a window of
    at least one frame decrements the counter and sends exactly one
    CurrentSample report, carrying the frame just pushed; with the
    counter at 0 (or below) a push sends nothing and leaves the counter
    alone. *)
Theorem X5_push_streams_frame (w : World) (history : list Buffer.t) :
  (WindowHolds w history -> 1 <= samplesInWindow (host w) ->
   0 < streamSamples (host w) ->
   effects (pushData w)
   = effects w ++ [SendReport (bor TFLiteReg.CurrentSample CMD_GET_REG)
                     (currentFrame (host w))]
   /\ streamSamples (host (pushData w)) = streamSamples (host w) - 1)
  /\ (streamSamples (host w) <= 0 ->
      effects (pushData w) = effects w
      /\ streamSamples (host (pushData w)) = streamSamples (host w)).
Proof.
  destruct (pushData_stream w) as [Hpos Hzero]. split.
  - intros Hwin Hone Hs. destruct (Hpos Hs) as [Hdec Heff].
    split; [|exact Hdec]. rewrite Heff. do 3 f_equal.
    pose proof (WindowHolds_length w history Hwin) as Hlen.
    destruct Hwin as (_ & Hsz & Hframe & _).
    destruct (pushData_host w) as (_ & _ & _ & -> & _).
    rewrite pushData_slides by (try assumption; nia).
    rewrite <- Hframe. apply slice_tail.
  - intros Hs. destruct (Hzero Hs). now split.
Qed.

Lemma X5_push_streams_frame_witness :
  let w := onHost (set_streamSamples 2) loadedDevice in
  effects (pushData w)
  = effects w ++ [SendReport 0x1187 (replicate 16 0)]
  /\ streamSamples (host (pushData w)) = 1
  /\ effects (pushData loadedDevice) = effects loadedDevice.
Proof.
  intros w.
  destruct (X5_push_streams_frame w []) as [Hpos _].
  destruct (X5_push_streams_frame loadedDevice []) as [_ Hzero].
  destruct Hpos as [Heff Hdec].
  - unfold WindowHolds. vm_compute. repeat split; try discriminate. constructor.
  - vm_compute. discriminate.
  - vm_compute. reflexivity.
  - split; [exact Heff|]. split; [exact Hdec|].
    apply Hzero. vm_compute. discriminate.
Defined.

(** X6.  A stream counter set to N is a budget: over any number k of
    pushes exactly min(k, N) CurrentSample reports go out and nothing
    else, the counter ends at max(0, N - k), and the sample counter
    advances by k. *)
Theorem X6_stream_budget (k : nat) (w : World) :
  0 <= streamSamples (host w) ->
  let w' := Nat.iter k pushData w in
  streamSamples (host w') = Z.max 0 (streamSamples (host w) - Z.of_nat k)
  /\ numSamples (host w') = numSamples (host w) + Z.of_nat k
  /\ exists frames,
       effects w'
       = effects w
         ++ map (SendReport (bor TFLiteReg.CurrentSample CMD_GET_REG)) frames
       /\ List.length frames = Nat.min k (Z.to_nat (streamSamples (host w))).
Proof.
  intros Hn. cbv zeta. induction k as [|k (IHs & IHn & frames & IHe & IHl)].
  - cbn [Nat.iter nat_rect]. split; [lia|]. split; [lia|].
    exists []. cbn. rewrite app_nil_r. split; [reflexivity|lia].
  - rewrite Nat.iter_succ.
    destruct (pushData_stream (Nat.iter k pushData w)) as [Hpos Hzero].
    destruct (pushData_host (Nat.iter k pushData w)) as (_ & Hnum & _).
    cbv zeta in Hpos, Hzero.
    split; [|split; [rewrite Hnum, IHn; lia|]].
    + destruct (Z_lt_le_dec 0 (streamSamples (host (Nat.iter k pushData w))))
        as [Hs|Hs].
      * destruct (Hpos Hs) as [-> _]. lia.
      * destruct (Hzero Hs) as [-> _]. lia.
    + destruct (Z_lt_le_dec 0 (streamSamples (host (Nat.iter k pushData w))))
        as [Hs|Hs].
      * destruct (Hpos Hs) as [_ ->]. rewrite IHe.
        eexists (frames ++ [_]). rewrite map_app, app_assoc. split; [reflexivity|].
        rewrite length_app, IHl. cbn [List.length]. lia.
      * destruct (Hzero Hs) as [_ ->]. exists frames. split; [exact IHe|]. lia.
Qed.

Lemma X6_stream_budget_witness :
  let w := onHost (set_streamSamples 2) loadedDevice in
  streamSamples (host (Nat.iter 3 pushData w)) = 0
  /\ numSamples (host (Nat.iter 3 pushData w)) = 3
  /\ List.length (effects (Nat.iter 3 pushData w)) = (List.length (effects w) + 2)%nat.
Proof.
  intros w.
  destruct (X6_stream_budget 3 w) as (Hs & Hn & frames & He & Hl);
    [vm_compute; discriminate|].
  split; [exact Hs|]. split; [exact Hn|].
  rewrite He, length_app, length_map, Hl. reflexivity.
Defined.

(** ** Sample accounting of the reconciler *)

Lemma pushData_clock (w : World) :
  lastSample (host (pushData w)) = lastSample (host w)
  /\ samplingInterval (host (pushData w)) = samplingInterval (host w)
  /\ numSamples (host (pushData w)) = numSamples (host w) + 1.
Proof.
  unfold pushData. cbv zeta. destruct (0 <? _); cbn; repeat split; reflexivity.
Qed.

Lemma iter_pushData_clock (n : nat) (w : World) :
  lastSample (host (Nat.iter n pushData w)) = lastSample (host w)
  /\ samplingInterval (host (Nat.iter n pushData w)) = samplingInterval (host w)
  /\ numSamples (host (Nat.iter n pushData w)) = numSamples (host w) + Z.of_nat n.
Proof.
  induction n as [|n (IH1 & IH2 & IH3)]; [cbn; repeat split; lia|].
  rewrite Nat.iter_succ.
  destruct (pushData_clock (Nat.iter n pushData w)) as (H1 & H2 & H3).
  rewrite H1, H2, H3, IH1, IH2, IH3. repeat split; lia.
Qed.

(** Frames one event of the reconciler pushes, and where it leaves the
    tick. *)
Lemma newData_count (ts : Z) (isPost : bool) (w : World) :
  let tick := if lastSample (host w) =? 0 then ts else lastSample (host w) in
  let fc := frameCount (ts - tick) (samplingInterval (host w)) in
  numSamples (host (newData ts isPost w))
  = numSamples (host w)
    + (if fc =? 0 then 0 else if isPost then 1 else Z.max 0 (Z.min 5 (fc - 1)))
  /\ lastSample (host (newData ts isPost w))
     = (if (fc =? 0) || negb isPost then tick else ts)
  /\ samplingInterval (host (newData ts isPost w)) = samplingInterval (host w).
Proof.
  cbv zeta. unfold newData.
  set (w0 := if lastSample (host w) =? 0 then onHost (set_lastSample ts) w else w).
  assert (H0 : lastSample (host w0)
               = (if lastSample (host w) =? 0 then ts else lastSample (host w))
               /\ samplingInterval (host w0) = samplingInterval (host w)
               /\ numSamples (host w0) = numSamples (host w))
    by (unfold w0; destruct (_ =? 0); repeat split; reflexivity).
  destruct H0 as (Ht & Hi & Hn). rewrite Ht, Hi.
  destruct (frameCount _ _ =? 0) eqn:Hfc; cbn [orb].
  { rewrite Ht, Hi, Hn. repeat split; lia. }
  destruct isPost; cbn [negb].
  - set (w1 := onHost (set_lastSample ts) w0).
    destruct (pushData_clock w1) as (P1 & P2 & P3).
    change (lastSample (host w1)) with ts in P1.
    change (samplingInterval (host w1)) with (samplingInterval (host w0)) in P2.
    change (numSamples (host w1)) with (numSamples (host w0)) in P3.
    destruct (_ && _); cbn [host onHost with_host runInBackground
                            set_lastRunNumSamples numSamples lastSample
                            samplingInterval];
      rewrite P1, P2, P3, Hi, Hn; repeat split; reflexivity.
  - match goal with |- context [Nat.iter ?n pushData w0] =>
      destruct (iter_pushData_clock n w0) as (I1 & I2 & I3)
    end.
    rewrite I1, I2, I3, Ht, Hi, Hn. split; [|split; reflexivity].
    f_equal. destruct (5 <? _) eqn:E;
      [apply Z.ltb_lt in E|apply Z.ltb_ge in E]; lia.
Qed.

Section ReportCount.

Variable float32Bits : Q -> Z.

(** X7.  A register-read report for a collector of the host advances
    the sample counter by the frame count for the time since the last
    tick, capped at six: up to five catch-up frames of the stale
    readings and one frame of the fresh ones (one frame also when the
    count is negative, none when it is 0), and the tick moves to the
    report's timestamp exactly when something was pushed.  For a
    collector whose sample type is none of the six the handler ends
    after the catch-up frames: no fresh frame is pushed and the tick
    is not moved. *)
Theorem X7_report_sample_count (i : nat) (c : Collector.t) (packet : JDPacket)
    (w : World) :
  service_command packet = bor CMD_GET_REG REG_READING ->
  collectors (host w) !! i = Some c ->
  let tick := if lastSample (host w) =? 0 then timestamp packet
              else lastSample (host w) in
  let fc := frameCount (timestamp packet - tick) (samplingInterval (host w)) in
  let stale := if fc =? 0 then 0 else Z.max 0 (Z.min 5 (fc - 1)) in
  let w' := collectorHandlePacket float32Bits i packet w in
  (numberFmt (Collector.sampleType c) <> None ->
   numSamples (host w')
   = numSamples (host w) + (if fc =? 0 then 0 else stale + 1)
   /\ lastSample (host w') = (if fc =? 0 then tick else timestamp packet))
  /\ (numberFmt (Collector.sampleType c) = None ->
      numSamples (host w') = numSamples (host w) + stale
      /\ lastSample (host w') = tick)
  /\ numSamples (host w) <= numSamples (host w') <= numSamples (host w) + 6.
Proof.
  intros Hcmd Hc tick fc stale w'.
  destruct (newData_count (timestamp packet) false w) as (N1 & T1 & I1).
  cbv zeta in N1, T1. fold tick in N1, T1. fold fc in N1, T1. fold stale in N1.
  rewrite orb_true_r in T1.
  assert (Hstale : 0 <= stale <= 5) by (unfold stale; destruct (fc =? 0); lia).
  assert (Hknown : forall fmt, numberFmt (Collector.sampleType c) = Some fmt ->
            numSamples (host w')
            = numSamples (host w) + (if fc =? 0 then 0 else stale + 1)
            /\ lastSample (host w') = (if fc =? 0 then tick else timestamp packet)).
  { intros fmt Hfmt. unfold w', collectorHandlePacket.
    rewrite Hc, Hcmd, Z.eqb_refl, Hfmt.
    set (w1 := newData (timestamp packet) false w) in *.
    set (w2 := onHost _ w1).
    destruct (newData_count (timestamp packet) true w2) as (N2 & T2 & _).
    cbv zeta in N2, T2.
    change (lastSample (host w2)) with (lastSample (host w1)) in N2, T2.
    change (samplingInterval (host w2)) with (samplingInterval (host w1)) in N2, T2.
    change (numSamples (host w2)) with (numSamples (host w1)) in N2.
    rewrite T1, I1 in N2, T2.
    assert (Htick : (if tick =? 0 then timestamp packet else tick) = tick).
    { unfold tick. destruct (Z.eqb_spec (lastSample (host w)) 0) as [E|E].
      - destruct (Z.eqb_spec (timestamp packet) 0); congruence.
      - destruct (Z.eqb_spec (lastSample (host w)) 0); congruence. }
    rewrite Htick in N2, T2. fold fc in N2, T2.
    rewrite N2, T2, N1. rewrite orb_false_r. unfold stale.
    destruct (fc =? 0); split; try reflexivity; lia. }
  assert (Hunknown : numberFmt (Collector.sampleType c) = None ->
            numSamples (host w') = numSamples (host w) + stale
            /\ lastSample (host w') = tick).
  { intros Hfmt. unfold w', collectorHandlePacket.
    rewrite Hc, Hcmd, Z.eqb_refl, Hfmt. split; [exact N1|exact T1]. }
  split; [|split; [exact Hunknown|]].
  - intros Hfmt. destruct (numberFmt (Collector.sampleType c)) as [fmt|] eqn:E;
      [now apply (Hknown fmt)|now contradiction Hfmt].
  - destruct (numberFmt (Collector.sampleType c)) as [fmt|] eqn:E.
    + destruct (Hknown fmt eq_refl) as [-> _]. destruct (fc =? 0); lia.
    + destruct (Hunknown eq_refl) as [-> _]. lia.
Qed.

End ReportCount.

Lemma X7_report_sample_count_witness :
  let w := onHost (set_lastSample 1000) loadedDevice in
  numSamples (host (collectorHandlePacket Qnum 0 (readingReport 2000 1 2 3 4) w)) = 6
  /\ lastSample (host (collectorHandlePacket Qnum 0 (readingReport 2000 1 2 3 4) w))
     = 2000.
Proof.
  intros w.
  assert (Hc : collectors (host w) !! 0%nat
               = Some (Collector.create (sampleEntry 8 TFLiteSampleType.I16 0)))
    by (vm_compute; reflexivity).
  destruct (X7_report_sample_count Qnum 0 _ (readingReport 2000 1 2 3 4) w
              eq_refl Hc) as (Hknown & _ & _).
  destruct Hknown as [Hn Ht]; [vm_compute; discriminate|].
  split; [exact Hn|exact Ht].
Defined.

(** ** Upload: what arrives is what is stored *)

Lemma band_seven_zero (x : Z) : x mod 8 = 0 -> band x 7 = 0.
Proof.
  intros H. unfold band. rewrite (toInt32_small 7) by lia.
  change 7 with (Z.ones 3). rewrite Z.land_ones by lia.
  change (2 ^ 3) with 8.
  assert (Hwrap : toInt32 x = x + (- (2 ^ 29 * ((x + 2 ^ 31) / 2 ^ 32))) * 8).
  { unfold toInt32. rewrite Z.mod_eq by lia. lia. }
  rewrite Hwrap. now rewrite Z.mod_add by lia.
Qed.

Lemma slice_from (b : Buffer.t) (k : nat) :
  Buffer.slice b (Z.of_nat k) (-1) = drop k b.
Proof.
  unfold Buffer.slice, Buffer.length. cbn [Z.ltb Z.compare].
  destruct (Nat.le_gt_cases k (List.length b)).
  - rewrite (Z.min_r _ (Z.of_nat k)) by lia. rewrite Z.min_r by lia.
    rewrite Nat2Z.id. apply take_ge. rewrite length_drop. lia.
  - rewrite (Z.min_l _ (Z.of_nat k)) by lia. rewrite Z.min_r by lia.
    replace (Z.to_nat (Z.of_nat (List.length b) - Z.of_nat (List.length b)))
      with 0%nat by lia.
    rewrite take_0. symmetry. apply drop_ge. lia.
Qed.

Lemma Buffer_write_front (dst src : Buffer.t) :
  Buffer.write dst 0 src
  = take (Nat.min (List.length src) (List.length dst)) src
      ++ drop (Nat.min (List.length src) (List.length dst)) dst.
Proof.
  unfold Buffer.write, Buffer.length.
  replace (Z.of_nat (List.length dst) <? 0) with false
    by (symmetry; apply Z.ltb_ge; lia).
  cbn [Z.ltb Z.compare orb]. change (Z.to_nat 0) with 0%nat. rewrite take_0.
  cbn [app]. f_equal; f_equal; lia.
Qed.

Lemma Buffer_write_beyond (dst src : Buffer.t) (off : Z) :
  Buffer.length dst < off -> Buffer.write dst off src = dst.
Proof.
  intros H. unfold Buffer.write.
  replace (Buffer.length dst <? off) with true by (symmetry; apply Z.ltb_lt; lia).
  now rewrite orb_true_r.
Qed.

(** The first chunk: its bytes from offset 8 on go to the region. *)
Lemma first_chunk_region (r buf : Buffer.t) :
  (List.length buf <= List.length r)%nat ->
  drop 8 (take (List.length buf) (Buffer.write r 8 (Buffer.slice buf 8 (-1))))
  = drop 8 buf.
Proof.
  intros Hfit. change 8 with (Z.of_nat 8) at 1 2. rewrite slice_from.
  destruct (Nat.le_gt_cases 8 (List.length r)) as [Hr|Hr].
  - rewrite Buffer_write_inside
      by (unfold Buffer.length; rewrite ?length_drop; lia).
    rewrite Nat2Z.id, length_drop.
    destruct (Nat.le_gt_cases (List.length buf) 8) as [Hb|Hb].
    + rewrite (drop_ge buf) by lia. apply drop_ge. rewrite length_take. lia.
    + rewrite app_assoc, take_app_length'
        by (rewrite length_app, length_take, length_drop; lia).
      rewrite drop_app_length' by (rewrite length_take; lia).
      reflexivity.
  - rewrite Buffer_write_beyond by (unfold Buffer.length; lia).
    rewrite (drop_ge buf) by lia. apply drop_ge. rewrite length_take. lia.
Qed.

(** The first chunk: its first 8 bytes are staged. *)
Lemma first_chunk_head (head buf : Buffer.t) :
  List.length head = 8%nat ->
  take (Nat.min 8 (List.length buf)) (Buffer.write head 0 buf) = take 8 buf.
Proof.
  intros Hhead. rewrite Buffer_write_front, Hhead.
  rewrite take_app_length' by (rewrite length_take; lia).
  destruct (Nat.le_gt_cases 8 (List.length buf)).
  - f_equal. lia.
  - rewrite !take_ge by lia. reflexivity.
Qed.

(** A later chunk lands at its offset. *)
Lemma next_chunk_region (r buf : Buffer.t) (off : nat) :
  (8 <= off)%nat -> (off + List.length buf <= List.length r)%nat ->
  drop 8 (take (off + List.length buf) (Buffer.write r (Z.of_nat off) buf))
  = drop 8 (take off r) ++ buf.
Proof.
  intros Hoff Hfit.
  rewrite Buffer_write_inside by (unfold Buffer.length; lia).
  rewrite Nat2Z.id, app_assoc.
  rewrite take_app_length' by (rewrite length_app, length_take; lia).
  rewrite drop_app_le by (rewrite length_take; lia).
  reflexivity.
Qed.

(** Writing the staged header completes the content. *)
Lemma commit_header (r head all : Buffer.t) :
  List.length head = 8%nat -> List.length r = List.length all ->
  take (Nat.min 8 (List.length all)) head = take 8 all ->
  drop 8 r = drop 8 all ->
  Buffer.write r 0 head = all.
Proof.
  intros Hhead Hlen Hh Hr. rewrite Buffer_write_front, Hhead, Hlen.
  destruct (Nat.le_gt_cases 8 (List.length all)) as [H8|H8].
  - rewrite Nat.min_l in * by lia. rewrite Hh, Hr. apply take_drop.
  - rewrite Nat.min_r in * by lia. rewrite Hh.
    rewrite (take_ge all) by lia. rewrite drop_ge by lia. apply app_nil_r.
Qed.

Lemma streamBytes_zero (chunks : list Buffer.t) :
  streamBytes chunks = 0 -> concat chunks = [].
Proof.
  unfold streamBytes. induction chunks as [|c cs IH]; [reflexivity|].
  cbn [map foldr concat]. intros H.
  pose proof (Buffer_length_nonneg c).
  pose proof (streamBytes_nonneg cs) as Hcs. unfold streamBytes in Hcs.
  rewrite IH by lia.
  destruct c as [|x c]; [reflexivity|].
  unfold Buffer.length in *. cbn [List.length] in *. lia.
Qed.

Lemma streamBytes_concat (chunks : list Buffer.t) :
  streamBytes chunks = Buffer.length (concat chunks).
Proof.
  unfold streamBytes, Buffer.length. induction chunks as [|c cs IH]; [reflexivity|].
  cbn [map foldr concat]. rewrite length_app, IH. lia.
Qed.

Lemma region_after_write (flash : nat) (off : Z) (src r : Buffer.t) (w : World) :
  buffers (binstore w) !! flash = Some r ->
  buffers (binstore (with_binstore (binstore_write flash off src (binstore w)) w))
    !! flash
  = Some (Buffer.write r off src).
Proof.
  intros Hr. unfold binstore_write. cbn [with_binstore binstore buffers].
  now rewrite list_lookup_alter_eq, Hr.
Qed.

Lemma length_write_nat (dst src : Buffer.t) (off : Z) :
  List.length (Buffer.write dst off src) = List.length dst.
Proof.
  pose proof (Buffer_length_write dst src off) as H. unfold Buffer.length in H. lia.
Qed.

(** The loop on an aligned stream that brings the received bytes to
    the declared size: it completes, and the region then holds what was
    received, in order. *)
Lemma readLoop_delivers (flash size : nat) (chunks : list Buffer.t) :
  forall (pre head r : Buffer.t) (w : World),
    buffers (binstore w) !! flash = Some r ->
    List.length head = 8%nat -> List.length r = size ->
    take (Nat.min 8 (List.length pre)) head = take 8 pre ->
    drop 8 (take (List.length pre) r) = drop 8 pre ->
    alignedStream chunks -> chunks <> [] ->
    Z.of_nat (List.length pre) mod 8 = 0 ->
    Z.of_nat (List.length pre) + streamBytes chunks = Z.of_nat size ->
    let res := readLoop flash (Z.of_nat size) chunks
                 (Z.of_nat (List.length pre)) head w in
    fst res = Completed
    /\ buffers (binstore (snd res)) !! flash = Some (pre ++ concat chunks).
Proof.
  induction chunks as [|buf rest IH];
    intros pre head r w Hr Hhead Hsize Hstaged Hstored Haligned Hne Hmod Htotal;
    [congruence|].
  cbv zeta. cbn [readLoop].
  pose proof (streamBytes_nonneg rest) as Hrest.
  change (streamBytes (buf :: rest))
    with (Buffer.length buf + streamBytes rest) in Htotal.
  unfold Buffer.length in Htotal |- *.
  (* the region and the staged header after this chunk *)
  assert (Hstep : exists r1 head1 w1,
             (if Z.of_nat (List.length pre) =? 0
              then Buffer.write head 0 buf else head) = head1
             /\ (if Z.of_nat (List.length pre) =? 0
                 then with_binstore
                        (binstore_write flash 8 (Buffer.slice buf 8 (-1))
                           (binstore w)) w
                 else with_binstore
                        (binstore_write flash (Z.of_nat (List.length pre)) buf
                           (binstore w)) w) = w1
             /\ buffers (binstore w1) !! flash = Some r1
             /\ List.length head1 = 8%nat /\ List.length r1 = size
             /\ take (Nat.min 8 (List.length (pre ++ buf))) head1
                = take 8 (pre ++ buf)
             /\ drop 8 (take (List.length (pre ++ buf)) r1) = drop 8 (pre ++ buf)).
  { destruct (Z.eqb_spec (Z.of_nat (List.length pre)) 0) as [Hzero|Hpos].
    - assert (pre = []) as -> by (destruct pre; [reflexivity|cbn in Hzero; lia]).
      cbn [app List.length] in *.
      eexists _, _, _. split; [reflexivity|]. split; [reflexivity|].
      split; [apply region_after_write; exact Hr|].
      split; [now rewrite length_write_nat|].
      split; [now rewrite length_write_nat|].
      split; [now apply first_chunk_head|].
      apply first_chunk_region. lia.
    - assert (8 <= List.length pre)%nat as Hpre.
      { pose proof (Z.div_mod (Z.of_nat (List.length pre)) 8 ltac:(lia)) as Hdm.
        destruct (Z_le_gt_dec 8 (Z.of_nat (List.length pre))); [lia|].
        assert (Z.of_nat (List.length pre) / 8 = 0)
          by (apply Z.div_small; lia).
        lia. }
      rewrite Nat.min_l in Hstaged by lia.
      eexists _, _, _. split; [reflexivity|]. split; [reflexivity|].
      split; [apply region_after_write; exact Hr|].
      split; [exact Hhead|]. split; [now rewrite length_write_nat|].
      rewrite length_app. split.
      + rewrite Nat.min_l by lia. rewrite take_app_le by lia. exact Hstaged.
      + rewrite next_chunk_region by lia.
        rewrite Hstored, drop_app_le by lia. reflexivity. }
  destruct Hstep as (r1 & head1 & w1 & -> & -> & Hr1 & Hhead1 & Hsize1 & Hst1 & Hsd1).
  replace (Z.of_nat (List.length pre) + Z.of_nat (List.length buf))
    with (Z.of_nat (List.length (pre ++ buf))) by (rewrite length_app; lia).
  assert (Hlen : Z.of_nat (List.length (pre ++ buf)) + streamBytes rest
                 = Z.of_nat size) by (rewrite length_app; lia).
  destruct (Z.leb_spec (Z.of_nat size) (Z.of_nat (List.length (pre ++ buf))))
    as [Hdone|Hmore].
  - cbn [fst snd]. split; [reflexivity|].
    etrans; [exact (region_after_write flash 0 head1 r1 w1 Hr1)|].
    cbn [concat]. rewrite (streamBytes_zero rest) by lia. rewrite app_nil_r.
    f_equal. apply commit_header; try assumption; [lia|].
    rewrite <- Hsd1. f_equal. symmetry. apply take_ge. lia.
  - destruct rest as [|c2 rest'].
    { cbn in Hlen. lia. }
    destruct Haligned as [Hbuf Haligned].
    assert (Hmod1 : Z.of_nat (List.length (pre ++ buf)) mod 8 = 0).
    { rewrite length_app, Nat2Z.inj_add, Z.add_mod, Hmod by lia.
      unfold Buffer.length in Hbuf. rewrite Hbuf. reflexivity. }
    rewrite (band_seven_zero _ Hmod1). cbn [Z.eqb negb].
    assert (Hne' : c2 :: rest' <> []) by discriminate.
    destruct (IH (pre ++ buf) head1 r1 w1 Hr1 Hhead1 Hsize1 Hst1 Hsd1 Haligned
                Hne' Hmod1 Hlen) as [Hfin Hreg].
    split; [exact Hfin|]. rewrite Hreg. cbn [concat]. now rewrite <- app_assoc.
Qed.

Lemma modelBuffer_region (w : World) (m : Buffer.t) :
  buffers (binstore w) !! 0%nat = Some m ->
  modelBuffer w
  = if Buffer.getNumber m Int32LE 0 =? -1 then None else Some m.
Proof. intros H. unfold modelBuffer. now rewrite H. Qed.

(** X8.  An accepted upload whose stream delivers exactly the declared
    number of bytes, every chunk but the last a multiple of 8 bytes
    long, completes, and the region then holds the received bytes in the
    order received (the first 8 of them written last).  Unless their
    first 32-bit word reads -1, they are the model: [modelSize] is the
    declared size and the interpreter is handed exactly these bytes;
    when the interpreter accepts them the last error is clear.  If the
    first word reads -1 the upload completes all the same but the device
    reports [no model]. *)
Theorem X8_upload_roundtrip (packet : JDPacket) (port : Z)
    (chunks : list Buffer.t) (lo : LoadOutcome) (w : World) :
  intData packet <= totalSize (binstore w) - 8 ->
  alignedStream chunks -> chunks <> [] ->
  streamBytes chunks = intData packet ->
  let r := readModel packet port chunks lo w in
  let model := concat chunks in
  fst r = Completed
  /\ buffers (binstore (snd r)) !! 0%nat = Some model
  /\ (Buffer.getNumber model Int32LE 0 <> -1 ->
      modelBuffer (snd r) = Some model
      /\ modelSize (snd r) = intData packet
      /\ forall arena, lo = LoadReturns arena ->
           loadedModel (tf (snd r)) = Some model
           /\ lastError (host (snd r)) = None)
  /\ (Buffer.getNumber model Int32LE 0 = -1 ->
      modelSize (snd r) = 0
      /\ lastError (host (snd r)) = Some "no model"%string).
Proof.
  intros Hfits Haligned Hne Htotal. cbv zeta. unfold readModel.
  replace (_ <? intData packet) with false by (symmetry; apply Z.ltb_ge; lia).
  cbn [binstore_addBuffer].
  pose proof (streamBytes_nonneg chunks) as Hpos.
  match goal with |- context [readLoop ?f ?s ?c ?o ?h ?w0] =>
    pose proof (readLoop_delivers 0 (Z.to_nat (intData packet)) chunks []
                  (Buffer.create 8) (replicate (Z.to_nat (intData packet)) 255)
                  w0 eq_refl eq_refl
                  (length_replicate _ _) eq_refl eq_refl Haligned Hne eq_refl)
      as Hloop;
    change f with 0%nat;
    set (w1 := w0) in *
  end.
  rewrite Z2Nat.id in Hloop by lia.
  specialize (Hloop Htotal). cbv zeta in Hloop. cbn [List.length app] in Hloop.
  change (Z.of_nat 0) with 0 in Hloop.
  destruct (readLoop 0 (intData packet) chunks 0 (Buffer.create 8) w1)
    as [st w2].
  cbn [fst snd] in Hloop. destruct Hloop as [-> Hregion]. cbn [fst snd].
  destruct (loadModel_keeps lo (emit PipeClose w2)) as (_ & _ & Hstore).
  assert (Hregion' : buffers (binstore (loadModel lo (emit PipeClose w2)))
                       !! 0%nat = Some (concat chunks))
    by (rewrite Hstore; exact Hregion).
  split; [reflexivity|]. split; [exact Hregion'|].
  assert (Hlen : Buffer.length (concat chunks) = intData packet).
  { rewrite <- Htotal. clear. induction chunks as [|c rest IH]; [reflexivity|].
    cbn [concat]. change (streamBytes (c :: rest))
      with (Buffer.length c + streamBytes rest).
    rewrite <- IH. unfold Buffer.length. rewrite length_app. lia. }
  split.
  - intros Hword. apply Z.eqb_neq in Hword.
    assert (Hmodel : modelBuffer (loadModel lo (emit PipeClose w2))
                     = Some (concat chunks))
      by (rewrite (modelBuffer_region _ _ Hregion'), Hword; reflexivity).
    split; [exact Hmodel|]. split.
    + unfold modelSize. rewrite Hmodel. exact Hlen.
    + intros arena ->. unfold loadModel.
      rewrite (modelBuffer_region _ (concat chunks)) by exact Hregion.
      rewrite Hword.
      destruct (arenaSizeSettings _); split; reflexivity.
  - intros Hword. apply Z.eqb_eq in Hword. split.
    + unfold modelSize.
      rewrite (modelBuffer_region _ _ Hregion'), Hword. reflexivity.
    + unfold loadModel.
      rewrite (modelBuffer_region _ (concat chunks)) by exact Hregion.
      rewrite Hword. reflexivity.
Qed.

Lemma X8_upload_roundtrip_witness :
  let chunks := [[28; 0; 0; 0; 84; 70; 76; 51]; [1; 2; 3; 4; 5; 6; 7; 8]] in
  let r := readModel (setModelPacket 16) 1 chunks (LoadReturns 2000)
             configuredDevice in
  fst r = Completed
  /\ buffers (binstore (snd r)) !! 0%nat = Some (concat chunks)
  /\ modelSize (snd r) = intData (setModelPacket 16).
Proof.
  intros chunks r.
  destruct (X8_upload_roundtrip (setModelPacket 16) 1 chunks (LoadReturns 2000)
              configuredDevice)
    as (Hdone & Hregion & Hmodel & _);
    [vm_compute; discriminate|vm_compute; split; [reflexivity|exact I]
    |discriminate|vm_compute; reflexivity|].
  split; [exact Hdone|]. split; [exact Hregion|].
  apply Hmodel. vm_compute. discriminate.
Defined.

(** ** Upload: how the stream decides the outcome *)

Lemma streamBytes_cons (c : Buffer.t) (rest : list Buffer.t) :
  streamBytes (c :: rest) = Buffer.length c + streamBytes rest.
Proof. reflexivity. Qed.

Lemma streamBytes_app (pre post : list Buffer.t) :
  streamBytes (pre ++ post) = streamBytes pre + streamBytes post.
Proof.
  induction pre as [|c pre IH]; [reflexivity|].
  cbn [app]. rewrite !streamBytes_cons, IH. lia.
Qed.

(** With every chunk a multiple of 8 bytes long the loop never stops at
    the alignment check: it completes with the chunk that brings the
    count to the declared size, and otherwise runs to the end of the
    stream. *)
Lemma readLoop_status_aligned (flash : nat) (sz : Z) (chunks : list Buffer.t) :
  forall (off : Z) (head : Buffer.t) (w : World),
    off mod 8 = 0 ->
    Forall (fun c => Buffer.length c mod 8 = 0) chunks ->
    fst (readLoop flash sz chunks off head w)
    = match chunks with
      | [] => StreamClosed
      | _ :: _ => if sz <=? off + streamBytes chunks then Completed
                  else StreamClosed
      end.
Proof.
  induction chunks as [|c rest IH]; intros off head w Hoff Hall; [reflexivity|].
  apply Forall_cons in Hall as [Hc Hrest].
  cbn [readLoop]. rewrite streamBytes_cons.
  pose proof (streamBytes_nonneg rest) as Hpos.
  destruct (Z.leb_spec sz (off + Buffer.length c)) as [Hdone|Hmore].
  - cbn [fst]. now replace (sz <=? _) with true by (symmetry; apply Z.leb_le; lia).
  - assert (Hoff' : (off + Buffer.length c) mod 8 = 0)
      by (rewrite Z.add_mod, Hoff, Hc by lia; reflexivity).
    rewrite (band_seven_zero _ Hoff'). cbn [Z.eqb negb].
    rewrite IH by assumption.
    destruct rest as [|c2 rest'].
    + change (streamBytes []) with 0.
      now replace (sz <=? _) with false by (symmetry; apply Z.leb_gt; lia).
    + now rewrite Z.add_assoc.
Qed.

(** A chunk that leaves the count short of the declared size and not on
    a multiple of 8 stops the loop at the alignment check. *)
Lemma readLoop_status_misaligned (flash : nat) (sz : Z)
    (pre : list Buffer.t) (c : Buffer.t) (post : list Buffer.t) :
  forall (off : Z) (head : Buffer.t) (w : World),
    off mod 8 = 0 ->
    Forall (fun c => Buffer.length c mod 8 = 0) pre ->
    Buffer.length c mod 8 <> 0 ->
    off + streamBytes pre + Buffer.length c < sz ->
    fst (readLoop flash sz (pre ++ c :: post) off head w) = InvalidStreamSize.
Proof.
  induction pre as [|p pre IH]; intros off head w Hoff Hall Hc Hshort.
  - cbn [app readLoop]. change (streamBytes []) with 0 in Hshort.
    replace (sz <=? _) with false by (symmetry; apply Z.leb_gt; lia).
    destruct (Z.eqb_spec (band (off + Buffer.length c) 7) 0) as [Hband|_];
      [|reflexivity].
    apply band_seven in Hband.
    rewrite Z.add_mod, Hoff in Hband by lia.
    rewrite Z.add_0_l, Z.mod_mod in Hband by lia. contradiction.
  - apply Forall_cons in Hall as [Hp Hpre].
    rewrite streamBytes_cons in Hshort.
    pose proof (streamBytes_nonneg pre) as Hpos.
    pose proof (Buffer_length_nonneg c) as Hcpos.
    cbn [app readLoop].
    replace (sz <=? _) with false by (symmetry; apply Z.leb_gt; lia).
    assert (Hoff' : (off + Buffer.length p) mod 8 = 0)
      by (rewrite Z.add_mod, Hoff, Hp by lia; reflexivity).
    rewrite (band_seven_zero _ Hoff'). cbn [Z.eqb negb].
    apply IH; [assumption..|lia].
Qed.

(** X9.  How an accepted upload ends.  When every chunk of the stream
    is a multiple of 8 bytes long it is never refused for its alignment:
    it completes if the stream delivers at least one chunk and at least
    the declared number of bytes, and ends with the stream otherwise (an
    empty stream never completes, even for a declared size of 0).  A
    chunk that leaves the count short of the declared size and off a
    multiple of 8 ends it at the alignment check, whatever follows. *)
Theorem X9_upload_status (packet : JDPacket) (port : Z)
    (chunks : list Buffer.t) (lo : LoadOutcome) (w : World) :
  intData packet <= totalSize (binstore w) - 8 ->
  let status := fst (readModel packet port chunks lo w) in
  (Forall (fun c => Buffer.length c mod 8 = 0) chunks ->
   status = match chunks with
            | [] => StreamClosed
            | _ :: _ => if intData packet <=? streamBytes chunks then Completed
                        else StreamClosed
            end)
  /\ (forall pre c post,
        chunks = pre ++ c :: post ->
        Forall (fun c => Buffer.length c mod 8 = 0) pre ->
        Buffer.length c mod 8 <> 0 ->
        streamBytes pre + Buffer.length c < intData packet ->
        status = InvalidStreamSize).
Proof.
  intros Hfits. cbv zeta. unfold readModel.
  replace (_ <? intData packet) with false by (symmetry; apply Z.ltb_ge; lia).
  cbn [binstore_addBuffer].
  match goal with |- context [readLoop ?f ?s ?c ?o ?h ?w0] =>
    pose proof (readLoop_status_aligned f s c o h w0 eq_refl) as Haligned;
    pose proof (fun pre c1 post =>
                  readLoop_status_misaligned f s pre c1 post o h w0 eq_refl)
      as Hmis;
    destruct (readLoop f s c o h w0) as [st w1] eqn:Hloop
  end.
  cbn [fst] in Haligned. rewrite Z.add_0_l in Haligned. split.
  - intros Hall. rewrite <- (Haligned Hall). now destruct st.
  - intros pre c post -> Hpre Hc Hshort.
    specialize (Hmis pre c post Hpre Hc ltac:(lia)).
    rewrite Hloop in Hmis. cbn [fst] in Hmis. now subst st.
Qed.

Lemma X9_upload_status_witness :
  fst (readModel (setModelPacket 16) 1 [replicate 8 1; replicate 8 2]
         (LoadReturns 0) configuredDevice) = Completed
  /\ fst (readModel (setModelPacket 16) 1 [replicate 8 1; replicate 4 2; replicate 4 3]
            (LoadReturns 0) configuredDevice) = InvalidStreamSize.
Proof.
  split.
  - destruct (X9_upload_status (setModelPacket 16) 1
                [replicate 8 1; replicate 8 2] (LoadReturns 0) configuredDevice)
      as [Haligned _]; [vm_compute; discriminate|].
    apply Haligned. repeat constructor.
  - destruct (X9_upload_status (setModelPacket 16) 1
                [replicate 8 1; replicate 4 2; replicate 4 3] (LoadReturns 0)
                configuredDevice)
      as [_ Hmis]; [vm_compute; discriminate|].
    apply (Hmis [replicate 8 1] (replicate 4 2) [replicate 4 3]);
      [reflexivity|repeat constructor|vm_compute; discriminate
      |vm_compute; reflexivity].
Defined.

(** ** Upload: what it does besides storing bytes *)

Lemma readLoop_interp (flash : nat) (sz : Z) (chunks : list Buffer.t) :
  forall (off : Z) (head : Buffer.t) (w : World),
    tf (snd (readLoop flash sz chunks off head w)) = tf w.
Proof.
  induction chunks as [|buf rest IH]; intros off head w; [reflexivity|].
  cbn [readLoop].
  destruct (sz <=? _); [destruct (off =? 0); reflexivity|].
  destruct (negb _); [destruct (off =? 0); reflexivity|].
  rewrite IH. destruct (off =? 0); reflexivity.
Qed.

Lemma modelBuffer_store (w w' : World) :
  binstore w' = binstore w -> modelBuffer w' = modelBuffer w.
Proof. intros H. unfold modelBuffer. now rewrite H. Qed.

(** X10.  What an accepted upload does besides storing bytes.  It opens
    one pipe and reports its port under the command of the request, and
    closes the pipe only when it completes (not when the stream ends
    early or fails the alignment check).  The inputs configuration is
    kept.  Short of completion the interpreter holds no model and no
    arena size is stored; the same holds after a completed upload that
    stored no model.  After a completed upload whose model the
    interpreter loads, the stored arena size is the interpreter's arena
    plus 32, whatever was stored before. *)
Theorem X10_upload_side_effects (packet : JDPacket) (port : Z)
    (chunks : list Buffer.t) (lo : LoadOutcome) (w : World) :
  intData packet <= totalSize (binstore w) - 8 ->
  let r := readModel packet port chunks lo w in
  effects (snd r)
  = effects w
    ++ PipeOpen port
       :: SendReport (service_command packet) (Buffer.leBytes 2 port)
       :: match fst r with Completed => [PipeClose] | _ => [] end
  /\ inputSettings (snd r) = inputSettings w
  /\ (fst r <> Completed \/ modelBuffer (snd r) = None ->
      loadedModel (tf (snd r)) = None
      /\ arenaSizeSettings (settings (snd r)) = None)
  /\ (fst r = Completed -> modelBuffer (snd r) <> None ->
      forall arena, lo = LoadReturns arena ->
        arenaBytes (tf (snd r)) = arena
        /\ arenaSizeSettings (settings (snd r)) = Some (arena + 32)).
Proof.
  intros Hfits. cbv zeta. unfold readModel.
  replace (_ <? intData packet) with false by (symmetry; apply Z.ltb_ge; lia).
  cbn [binstore_addBuffer].
  match goal with |- context [readLoop ?f ?s ?c ?o ?h ?w0] =>
    destruct (readLoop_frame f s c o h w0) as (_ & _ & Hset & Heff);
    pose proof (readLoop_interp f s c o h w0) as Htf;
    destruct (readLoop f s c o h w0) as [st w1]
  end.
  cbn [snd] in Hset, Heff, Htf.
  cbn [sendReport emit with_binstore eraseModel with_settings with_tf
       settings effects tf] in Hset, Heff, Htf.
  rewrite <- app_assoc in Heff. cbn [app] in Heff.
  assert (Hload :
            effects (loadModel lo (emit PipeClose w1))
            = effects w1 ++ [PipeClose]
            /\ inputsSettings (settings (loadModel lo (emit PipeClose w1)))
               = inputsSettings (settings w)
            /\ (modelBuffer (loadModel lo (emit PipeClose w1)) = None ->
                loadedModel (tf (loadModel lo (emit PipeClose w1))) = None
                /\ arenaSizeSettings
                     (settings (loadModel lo (emit PipeClose w1))) = None)
            /\ (modelBuffer (loadModel lo (emit PipeClose w1)) <> None ->
                forall arena, lo = LoadReturns arena ->
                  arenaBytes (tf (loadModel lo (emit PipeClose w1))) = arena
                  /\ arenaSizeSettings
                       (settings (loadModel lo (emit PipeClose w1)))
                     = Some (arena + 32))).
  { destruct (loadModel_keeps lo (emit PipeClose w1)) as (_ & _ & Hstore).
    rewrite (modelBuffer_store _ _ Hstore).
    unfold loadModel.
    change (modelBuffer (onHost (set_lastError None) (emit PipeClose w1)))
      with (modelBuffer (emit PipeClose w1)).
    destruct (modelBuffer (emit PipeClose w1)) as [m|];
      [destruct lo as [arena|[s|]]|];
      repeat (cbn [onHost with_host with_tf with_settings emit settings tf
                   effects host catchIntoLastError];
              rewrite ?Hset, ?Htf;
              cbn [inputsSettings arenaSizeSettings loadedModel arenaBytes]);
      (split; [reflexivity|]); (split; [reflexivity|]);
      (split;
       [intros H; try discriminate H; split; reflexivity
       |intros H; try (now contradiction H); intros a Ha; try discriminate Ha;
        injection Ha as <-; split; reflexivity]). }
  destruct Hload as (Heff' & Hin & Hnone & Hsome).
  destruct st; cbn [fst snd]; unfold inputSettings;
    rewrite ?Heff', ?Heff, ?Hset, ?Htf, ?Hin, <- ?app_assoc;
    cbn [app inputsSettings arenaSizeSettings loadedModel];
    (split; [reflexivity|]); (split; [reflexivity|]);
    (split; [| intros Hst; try discriminate Hst; exact Hsome]).
  1-3: intros _; split; reflexivity.
  intros [Hst|Hst]; [now contradiction Hst|exact (Hnone Hst)].
Qed.

Lemma X10_upload_side_effects_witness :
  effects (snd (readModel (setModelPacket 1024) 1 halfStream (LoadReturns 2000)
                  loadedDevice))
  = effects loadedDevice
    ++ [PipeOpen 1; SendReport TFLiteCmd.SetModel [1; 0]]
  /\ arenaSizeSettings
       (settings (snd (readModel (setModelPacket 1024) 1 halfStream
                         (LoadReturns 2000) loadedDevice))) = None.
Proof.
  destruct (X10_upload_side_effects (setModelPacket 1024) 1 halfStream
              (LoadReturns 2000) loadedDevice)
    as (Heff & _ & Herased & _); [vm_compute; discriminate|].
  assert (Hst : fst (readModel (setModelPacket 1024) 1 halfStream
                       (LoadReturns 2000) loadedDevice) = StreamClosed)
    by (vm_compute; reflexivity).
  rewrite Hst in Heff, Herased. split; [exact Heff|].
  apply Herased. left. discriminate.
Defined.

(** ** Register writes *)







(** ** Register reads *)

Lemma get_command_fields (reg : Z) :
  0 <= reg < 0x1000 ->
  bor CMD_GET_REG reg = 0x1000 + reg
  /\ sar (bor CMD_GET_REG reg) 12 = 1
  /\ band (bor CMD_GET_REG reg) 0xfff = reg.
Proof.
  intros Hreg.
  assert (Hbor : bor CMD_GET_REG reg = 0x1000 + reg).
  { unfold bor, CMD_GET_REG. rewrite !toInt32_small by lia.
    assert (Hdisjoint : Z.land 0x1000 reg = 0).
    { rewrite <- (Z.mod_small reg (2 ^ 12)) by lia.
      rewrite <- Z.land_ones by lia.
      rewrite (Z.land_comm reg), Z.land_assoc. reflexivity. }
    now rewrite <- Z.lxor_lor, <- Z.add_nocarry_lxor. }
  split; [exact Hbor|]. rewrite Hbor. split.
  - unfold sar. rewrite toInt32_small by lia.
    rewrite Z.shiftr_div_pow2 by lia.
    change (2 ^ 12) with 4096. symmetry. apply (Z.div_unique _ _ _ reg); lia.
  - unfold band. rewrite !toInt32_small by lia.
    change 4095 with (Z.ones 12). rewrite Z.land_ones by lia.
    change (2 ^ 12) with 4096. symmetry. apply (Z.mod_unique _ _ 1); lia.
Qed.

Lemma handleRegInt_read (packet : JDPacket) (register current : Z) (w : World) :
  sar (service_command packet) 12 = 1 ->
  handleRegInt packet register current w
  = (current,
     if band (service_command packet) 0xfff =? register
     then sendReport (service_command packet) (Buffer.leBytes 4 current) w
     else w).
Proof.
  intros Hget. unfold handleRegInt. rewrite Hget.
  cbn [Z.eqb Z.ltb Z.compare Pos.compare Pos.compare_cont orb Pos.eqb].
  now destruct (_ =? register).
Qed.

Lemma handleRegBuffer_read (packet : JDPacket) (register : Z)
    (current : Buffer.t) (w : World) :
  sar (service_command packet) 12 = 1 ->
  handleRegBuffer packet register current w
  = (current,
     if band (service_command packet) 0xfff =? register
     then sendReport (service_command packet) current w
     else w).
Proof.
  intros Hget. unfold handleRegBuffer. rewrite Hget.
  cbn [Z.eqb Z.ltb Z.compare Pos.compare Pos.compare_cont orb Pos.eqb].
  now destruct (_ =? register).
Qed.

Lemma lastError_text (e : option string) :
  (if isSet e then default EmptyString e else EmptyString)
  = default EmptyString e.
Proof. destruct e as [[|c s]|]; reflexivity. Qed.

Lemma set_outputs_sent (cmd : Z) (payload : Buffer.t) (w : World) :
  onHost (set_outputs (outputs (host w))) (sendReport cmd payload w)
  = sendReport cmd payload w.
Proof.
  unfold onHost, with_host, sendReport, emit, set_outputs.
  cbn [host binstore settings tf effects background]. now rewrite host_eta.
Qed.

Lemma set_streamSamples_sent (cmd : Z) (payload : Buffer.t) (w : World) :
  onHost (set_streamSamples (streamSamples (host w))) (sendReport cmd payload w)
  = sendReport cmd payload w.
Proof.
  unfold onHost, with_host, sendReport, emit, set_streamSamples.
  cbn [host binstore settings tf effects background]. now rewrite host_eta.
Qed.

Lemma set_autoInvokeSamples_sent (cmd : Z) (payload : Buffer.t) (w : World) :
  onHost (set_autoInvokeSamples (autoInvokeSamples (host w)))
    (sendReport cmd payload w)
  = sendReport cmd payload w.
Proof.
  unfold onHost, with_host, sendReport, emit, set_autoInvokeSamples.
  cbn [host binstore settings tf effects background]. now rewrite host_eta.
Qed.

(** Settles a comparison of two integers: by evaluation when both are
    known, from the context when they are known to differ. *)
Ltac settle_test :=
  match goal with
  | |- context [?a =? ?b] =>
      first
        [ let v := eval vm_compute in (a =? b) in
          match v with
          | true => change (a =? b) with true
          | false => change (a =? b) with false
          end
        | let b' := eval vm_compute in b in
          replace (a =? b) with false
            by (symmetry; apply Z.eqb_neq; change b with b'; lia)
        | let a' := eval vm_compute in a in
          replace (a =? b) with false
            by (symmetry; apply Z.eqb_neq; change a with a'; lia) ]
  end.

(** X12.  Register reads.  A read of one of the thirteen registers the
    service knows sends exactly one report: it carries the command of
    the request and the register's current value (integers as four
    little-endian bytes, the shapes as 16-bit elements, the last error
    as its text or the empty text, the inputs as the stored blob, the
    current sample as the last frame of the window buffer).  A read of
    any other register code sends nothing.  In neither case does
    anything else change.  The current sample is read on a configured
    host and the inputs with a blob saved: without them the code has
    no buffer to slice and no blob to send. *)
Theorem X12_register_reads (float32Bits : Q -> Z) (reg : Z) (w : World) :
  0 <= reg < 0x1000 ->
  (reg = TFLiteReg.CurrentSample -> Configured float32Bits w) ->
  (reg = TFLiteReg.Inputs -> inputSettings w <> None) ->
  handlePacket (getRegister reg) w
  = match registerPayload reg w with
    | Some payload => sendReport (bor CMD_GET_REG reg) payload w
    | None => w
    end.
Proof.
  intros Hreg _ Hsaved.
  destruct (get_command_fields reg Hreg) as (Hbor & Hsar & Hband).
  set (p := getRegister reg).
  assert (HI : forall register current w0,
            handleRegInt p register current w0
            = (current,
               if reg =? register
               then sendReport (bor CMD_GET_REG reg) (Buffer.leBytes 4 current) w0
               else w0))
    by (intros; rewrite (handleRegInt_read p) by exact Hsar;
        unfold p, getRegister; cbn [service_command]; now rewrite Hband).
  assert (HB : forall register current w0,
            handleRegBuffer p register current w0
            = (current,
               if reg =? register
               then sendReport (bor CMD_GET_REG reg) current w0
               else w0))
    by (intros; rewrite (handleRegBuffer_read p) by exact Hsar;
        unfold p, getRegister; cbn [service_command]; now rewrite Hband).
  clear Hsar Hband.
  assert (Hcases :
            reg = TFLiteReg.AllocatedArenaSize \/ reg = TFLiteReg.LastRunTime
            \/ reg = TFLiteReg.ModelSize \/ reg = TFLiteReg.NumSamples
            \/ reg = TFLiteReg.SampleSize \/ reg = TFLiteReg.Outputs
            \/ reg = TFLiteReg.StreamSamples \/ reg = TFLiteReg.AutoInvokeEvery
            \/ reg = TFLiteReg.Inputs \/ reg = TFLiteReg.OutputShape
            \/ reg = TFLiteReg.InputShape \/ reg = TFLiteReg.CurrentSample
            \/ reg = TFLiteReg.LastError
            \/ (reg <> 0x183 /\ reg <> 0x182 /\ reg <> 0x184 /\ reg <> 0x185
                /\ reg <> 0x186 /\ reg <> 0x101 /\ reg <> 0x82 /\ reg <> 0x81
                /\ reg <> 0x80 /\ reg <> 0x181 /\ reg <> 0x180 /\ reg <> 0x187
                /\ reg <> 0x188))
    by (unfold TFLiteReg.AllocatedArenaSize, TFLiteReg.LastRunTime,
          TFLiteReg.ModelSize, TFLiteReg.NumSamples, TFLiteReg.SampleSize,
          TFLiteReg.Outputs, TFLiteReg.StreamSamples, TFLiteReg.AutoInvokeEvery,
          TFLiteReg.Inputs, TFLiteReg.OutputShape, TFLiteReg.InputShape,
          TFLiteReg.CurrentSample, TFLiteReg.LastError; lia).
  unfold handlePacket, handleRegisters.
  repeat (destruct Hcases as [Hcase|Hcases]; [|]);
    [subst reg; clear Hbor Hreg..|rewrite Hbor in *];
    repeat (first [rewrite HI | rewrite HB]; cbv beta iota zeta;
            repeat settle_test; cbv iota;
            rewrite ?set_outputs_same, ?set_outputs_sent,
              ?set_streamSamples_same, ?set_autoInvokeSamples_same,
              ?set_streamSamples_sent, ?set_autoInvokeSamples_sent);
    unfold handleCommand, p, getRegister; cbn [service_command];
    try rewrite Hbor;
    cbv zeta; repeat settle_test; cbv iota;
    unfold registerPayload, registerTable; cbn [find fst snd];
    repeat settle_test;
    cbn [fmap option_fmap option_map snd];
    rewrite ?lastError_text;
    first [ reflexivity
          | destruct (inputSettings w) as [blob|];
            [reflexivity|now contradiction (Hsaved eq_refl)] ].
Qed.

Lemma X12_register_reads_witness :
  handlePacket (getRegister TFLiteReg.SampleSize) configuredDevice
  = sendReport (bor CMD_GET_REG TFLiteReg.SampleSize) [16; 0; 0; 0]
      configuredDevice
  /\ handlePacket (getRegister TFLiteReg.CurrentSample) configuredDevice
     = sendReport (bor CMD_GET_REG TFLiteReg.CurrentSample) (replicate 16 0)
         configuredDevice
  /\ handlePacket (getRegister TFLiteReg.Inputs) configuredDevice
     = sendReport (bor CMD_GET_REG TFLiteReg.Inputs) exampleConfig
         configuredDevice
  /\ handlePacket (getRegister 7) configuredDevice = configuredDevice.
Proof.
  assert (Hconfigured : Configured Qnum configuredDevice)
    by (apply Configured_now; discriminate).
  assert (Hsaved : inputSettings configuredDevice <> None)
    by (vm_compute; discriminate).
  split; [|split; [|split]].
  - pose proof (X12_register_reads Qnum TFLiteReg.SampleSize configuredDevice)
      as Hread.
    assert (Hvalue : registerPayload TFLiteReg.SampleSize configuredDevice
                     = Some [16; 0; 0; 0]) by (vm_compute; reflexivity).
    rewrite Hvalue in Hread.
    apply Hread; [vm_compute; split; [discriminate|reflexivity]
                 |intros _; exact Hconfigured|intros _; exact Hsaved].
  - pose proof (X12_register_reads Qnum TFLiteReg.CurrentSample configuredDevice)
      as Hread.
    assert (Hvalue : registerPayload TFLiteReg.CurrentSample configuredDevice
                     = Some (replicate 16 0)) by (vm_compute; reflexivity).
    rewrite Hvalue in Hread.
    apply Hread; [vm_compute; split; [discriminate|reflexivity]
                 |intros _; exact Hconfigured|intros _; exact Hsaved].
  - pose proof (X12_register_reads Qnum TFLiteReg.Inputs configuredDevice)
      as Hread.
    assert (Hvalue : registerPayload TFLiteReg.Inputs configuredDevice
                     = Some exampleConfig) by (vm_compute; reflexivity).
    rewrite Hvalue in Hread.
    apply Hread; [vm_compute; split; [discriminate|reflexivity]
                 |intros _; exact Hconfigured|intros _; exact Hsaved].
  - pose proof (X12_register_reads Qnum 7 configuredDevice) as Hread.
    assert (Hvalue : registerPayload 7 configuredDevice = None)
      by (vm_compute; reflexivity).
    rewrite Hvalue in Hread.
    apply Hread; [vm_compute; split; [discriminate|reflexivity]
                 |intros _; exact Hconfigured|intros _; exact Hsaved].
Defined.

(** ** The window across all events *)

Lemma sameWindow_refl (h : TFLiteHost) : sameWindow h h.
Proof. repeat split. Qed.

Lemma sameWindow_holds (w w' : World) (history : list Buffer.t) :
  sameWindow (host w) (host w') ->
  WindowHolds w history -> WindowHolds w' history.
Proof. intros (H1 & H2 & H3 & H4). now apply WindowHolds_same. Qed.

Lemma handleRegisters_window (packet : JDPacket) (w : World) :
  sameWindow (host w) (host (handleRegisters packet w))
  /\ settings (handleRegisters packet w) = settings w.
Proof.
  destruct (handleRegisters_host packet w) as (out & stream & auto & -> & _ & _ & Hs).
  split; [repeat split|exact Hs].
Qed.

Lemma loadModel_window (lo : LoadOutcome) (w : World) :
  sameWindow (host w) (host (loadModel lo w)).
Proof.
  unfold loadModel.
  destruct (modelBuffer _); [|repeat split].
  destruct lo as [arena|[s|]]; [destruct (arenaSizeSettings _)| |];
    repeat split.
Qed.

Lemma readModel_window (packet : JDPacket) (port : Z) (chunks : list Buffer.t)
    (lo : LoadOutcome) (w : World) :
  sameWindow (host w) (host (snd (readModel packet port chunks lo w))).
Proof.
  unfold readModel.
  destruct (_ <? intData packet); [apply sameWindow_refl|].
  cbn [binstore_addBuffer].
  match goal with |- context [readLoop ?f ?s ?c ?o ?h ?w0] =>
    destruct (readLoop_frame f s c o h w0) as (Hh & _);
    destruct (readLoop f s c o h w0) as [st w1]
  end.
  cbn [snd] in Hh.
  assert (Hsame : sameWindow (host w) (host w1))
    by (rewrite Hh; apply sameWindow_refl).
  destruct st; cbn [snd]; try exact Hsame.
  destruct (loadModel_window lo (emit PipeClose w1)) as (H1 & H2 & H3 & H4).
  destruct Hsame as (G1 & G2 & G3 & G4).
  cbn [emit host] in H1, H2, H3, H4.
  repeat split; congruence.
Qed.

(** An event of the reconciler appends copies of the frame current at
    the event: none when the frame count is 0, else one in the post
    phase and [min(fc - 1, 5)] in the pre phase. *)
Lemma newData_frames (ts : Z) (isPost : bool) (w : World)
    (history : list Buffer.t) :
  WindowHolds w history ->
  let tick := if lastSample (host w) =? 0 then ts else lastSample (host w) in
  let fc := frameCount (ts - tick) (samplingInterval (host w)) in
  WindowHolds (newData ts isPost w)
    (history
       ++ replicate (if fc =? 0 then 0%nat
                     else if isPost then 1%nat
                          else Z.to_nat (Z.min 5 (fc - 1)))
            (currentFrame (host w))).
Proof.
  intros Hwin tick fc. unfold newData.
  set (w0 := if lastSample (host w) =? 0 then onHost (set_lastSample ts) w else w).
  assert (H0 : WindowHolds w0 history
               /\ collectors (host w0) = collectors (host w)
               /\ lastSample (host w0) = tick
               /\ samplingInterval (host w0) = samplingInterval (host w)).
  { unfold w0, tick. destruct (lastSample (host w) =? 0).
    - split; [|repeat split].
      eapply WindowHolds_same; [..|exact Hwin]; reflexivity.
    - split; [exact Hwin|repeat split]. }
  destruct H0 as (Hwin0 & Hc0 & Ht0 & Hi0).
  assert (Hframe : currentFrame (host w0) = currentFrame (host w))
    by (unfold currentFrame; now rewrite Hc0).
  rewrite Ht0, Hi0. fold fc.
  destruct (fc =? 0).
  { cbn [replicate]. now rewrite app_nil_r. }
  destruct isPost.
  - cbn [replicate]. rewrite <- Hframe.
    set (w1 := onHost (set_lastSample ts) w0).
    assert (Hwin1 : WindowHolds w1 history)
      by (eapply WindowHolds_same; [..|exact Hwin0]; reflexivity).
    pose proof (pushData_window w1 history Hwin1) as Hpush.
    change (currentFrame (host w1)) with (currentFrame (host w0)) in Hpush.
    destruct (_ && _); [|exact Hpush].
    eapply WindowHolds_same; [..|exact Hpush]; reflexivity.
  - replace (if 5 <? fc - 1 then 5 else fc - 1) with (Z.min 5 (fc - 1))
      by (destruct (Z.ltb_spec 5 (fc - 1)); lia).
    rewrite <- Hframe. now apply iter_pushData_window.
Qed.

Section WindowInvariant.

Variable float32Bits : Q -> Z.

Lemma runModel_window (t0 t1 : Z) (io : InvokeOutcome) (w : World) :
  sameWindow (host w) (host (runModel float32Bits t0 t1 io w)).
Proof.
  unfold runModel. destruct (isSet _); [apply sameWindow_refl|].
  destruct io as [res0|[s|]]; repeat split.
Qed.

(** A report extends the history by exactly the frames the description
    of the reconciler gives. *)
Lemma collectorHandlePacket_frames (i : nat) (packet : JDPacket) (w : World)
    (history : list Buffer.t) :
  WindowHolds w history ->
  WindowHolds (collectorHandlePacket float32Bits i packet w)
    (history ++ reportFrames float32Bits i packet w).
Proof.
  intros Hwin. unfold collectorHandlePacket, reportFrames.
  destruct (collectors (host w) !! i) as [c|];
    [|now rewrite app_nil_r].
  destruct (_ =? bor CMD_GET_REG REG_READING); [|now rewrite app_nil_r].
  cbv zeta.
  pose proof (newData_frames (timestamp packet) false w history Hwin) as Hpre.
  cbv zeta in Hpre.
  destruct (newData_count (timestamp packet) false w) as (_ & T1 & I1).
  cbv zeta in T1. rewrite orb_true_r in T1.
  pose proof (newData_collectors (timestamp packet) false w) as C1.
  set (tick := if lastSample (host w) =? 0 then timestamp packet
               else lastSample (host w)) in *.
  set (fc := frameCount (timestamp packet - tick) (samplingInterval (host w))) in *.
  set (w1 := newData (timestamp packet) false w) in *.
  destruct (numberFmt (Collector.sampleType c)) as [fmt|].
  2: { destruct (fc =? 0); [exact Hpre|]. now rewrite app_nil_r. }
  set (w2 := onHost (fun h => set_collectors
                       (alter (fun c => collectorUpdate float32Bits c fmt
                                          (data packet)) i
                          (collectors h)) h) w1).
  assert (Hwin2 : forall past, WindowHolds w1 past -> WindowHolds w2 past).
  { intros past (H1 & H2 & H3 & H4 & H5).
    unfold WindowHolds, currentFrame in *.
    cbn [w2 host onHost with_host set_collectors samplesInWindow sampleSize
         collectors samplesBuffer].
    repeat split; try assumption.
    rewrite frameBytes_concat in *.
    rewrite frameBytes_alter; [exact H3|].
    intros c0. apply collectorUpdate_length. }
  pose proof (newData_frames (timestamp packet) true w2 _ (Hwin2 _ Hpre)) as Hpost.
  cbv zeta in Hpost.
  change (lastSample (host w2)) with (lastSample (host w1)) in Hpost.
  change (samplingInterval (host w2)) with (samplingInterval (host w1)) in Hpost.
  rewrite T1, I1 in Hpost.
  assert (Htick : (if tick =? 0 then timestamp packet else tick) = tick).
  { unfold tick. destruct (Z.eqb_spec (lastSample (host w)) 0) as [E|E].
    - destruct (Z.eqb_spec (timestamp packet) 0); congruence.
    - destruct (Z.eqb_spec (lastSample (host w)) 0); congruence. }
  rewrite Htick in Hpost. fold fc in Hpost.
  assert (Hfresh : currentFrame (host w2)
                   = concat (map Collector.lastSample
                               (alter (fun c => collectorUpdate float32Bits c fmt
                                                  (data packet)) i
                                  (collectors (host w)))))
    by (unfold currentFrame, w2; cbn [host onHost with_host set_collectors
                                      collectors]; now rewrite C1).
  rewrite Hfresh in Hpost.
  destruct (fc =? 0).
  - cbn [replicate] in Hpost. rewrite !app_nil_r in *. exact Hpost.
  - cbn [replicate] in Hpost. now rewrite <- app_assoc in Hpost.
Qed.

Lemma handleCommand_frames (packet : JDPacket) (w : World)
    (history : list Buffer.t) :
  WindowHolds w history ->
  WindowHolds (handleCommand packet w)
    (if reconfigures (HostPacket packet) w then [] else history).
Proof.
  intros Hwin. unfold handleCommand, reconfigures. cbv zeta.
  destruct (Z.eqb_spec (service_command packet) TFLiteCmd.SetModel) as [E|_].
  { rewrite E. exact Hwin. }
  destruct (Z.eqb_spec (service_command packet)
              (bor TFLiteReg.Inputs CMD_GET_REG)) as [E|_].
  { rewrite E. cbn [andb]. destruct (inputSettings w); exact Hwin. }
  destruct (service_command packet =? bor TFLiteReg.Inputs CMD_SET_REG).
  { cbn [andb].
    assert (Hcfg : WindowHolds
                     (configureInputs
                        (with_settings
                           {| inputsSettings := Some (data packet);
                              arenaSizeSettings := arenaSizeSettings (settings w) |}
                           w)) [])
      by now apply (configureInputs_window (data packet)).
    destruct (inputSettings w) as [current|].
    - unfold Buffer.equals.
      destruct (decide (data packet = current)) as [->|Hne].
      + rewrite !bool_decide_eq_true_2 by reflexivity. exact Hwin.
      + rewrite !bool_decide_eq_false_2 by congruence. exact Hcfg.
    - rewrite bool_decide_eq_false_2 by discriminate. exact Hcfg. }
  cbn [andb].
  destruct (_ =? _); [exact Hwin|]. destruct (_ =? _); [exact Hwin|].
  destruct (_ =? _); [exact Hwin|]. destruct (_ =? _); exact Hwin.
Qed.

(** One event: a reconfiguration leaves the empty history, anything
    else the old history with the frames it pushed. *)
Lemma step_frames (e : Event) (w : World) (history : list Buffer.t) :
  WindowHolds w history ->
  WindowHolds (step float32Bits w e)
    (if reconfigures e w then []
     else history ++ eventFrames float32Bits e w).
Proof.
  intros Hwin. destruct e as [packet|i packet|o]; cbn [step eventFrames].
  - unfold handlePacket.
    destruct (handleRegisters_window packet w) as [Hsame Hset].
    pose proof (handleCommand_frames packet (handleRegisters packet w) history
                  (sameWindow_holds _ _ _ Hsame Hwin)) as Hcmd.
    assert (Hre : reconfigures (HostPacket packet) (handleRegisters packet w)
                  = reconfigures (HostPacket packet) w)
      by (unfold reconfigures, inputSettings; now rewrite Hset).
    rewrite Hre in Hcmd. rewrite app_nil_r. exact Hcmd.
  - cbn [reconfigures]. now apply collectorHandlePacket_frames.
  - cbn [reconfigures]. rewrite app_nil_r. unfold runTask.
    destruct (background w) as [|[|packet] rest]; [exact Hwin| |].
    + apply (sameWindow_holds (with_background rest w)); [|exact Hwin].
      apply runModel_window.
    + apply (sameWindow_holds (with_background rest w)); [|exact Hwin].
      apply readModel_window.
Qed.

(** X13.  The window across all events.  Whatever arrives (host
    packets, collector reports, background runs and uploads, in any
    order), the window buffer is the window over the history of frames
    the events pushed: a write of the inputs register with a new blob
    empties the history, a collector report appends the catch-up
    copies of the frame before it and the frame with its readings, and
    no other event touches it.  So the buffer always has the window
    length times the frame size in bytes, the frame size being the
    total length of the collectors' last-sample vectors. *)
Theorem X13_window_invariant (es : list Event) (w : World)
    (history : list Buffer.t) :
  WindowHolds w history ->
  let w' := run float32Bits es w in
  WindowHolds w' (historyAfter float32Bits es w history)
  /\ Buffer.length (samplesBuffer (host w'))
     = samplesInWindow (host w') * sampleSize (host w')
  /\ sampleSize (host w') = Buffer.length (currentFrame (host w')).
Proof.
  intros Hwin. cbv zeta.
  assert (Hrun : WindowHolds (run float32Bits es w)
                   (historyAfter float32Bits es w history)).
  { revert w history Hwin. unfold run.
    induction es as [|e es IH]; intros w history Hwin;
      cbn [fold_left historyAfter]; [exact Hwin|].
    apply IH. now apply step_frames. }
  split; [exact Hrun|]. split; [now apply (WindowHolds_length _ _ Hrun)|].
  destruct Hrun as (_ & _ & Hframe & _). now rewrite Hframe.
Qed.

End WindowInvariant.

Lemma X13_window_invariant_witness :
  let es := [CollectorPacket 0 (readingReport 100 1 2 3 4);
             HostPacket (setAutoInvoke 1);
             CollectorPacket 0 (readingReport 200 5 6 7 8)] in
  let w' := run Qnum es configuredDevice in
  historyAfter Qnum es configuredDevice []
  = [[5; 0; 0; 0; 6; 0; 0; 0; 7; 0; 0; 0; 8; 0; 0; 0]]
  /\ WindowHolds w' (historyAfter Qnum es configuredDevice [])
  /\ Buffer.length (samplesBuffer (host w'))
     = samplesInWindow (host w') * sampleSize (host w').
Proof.
  intros es w'.
  assert (Hstart : WindowHolds configuredDevice []).
  { unfold WindowHolds. vm_compute. repeat split; try discriminate. constructor. }
  destruct (X13_window_invariant Qnum es configuredDevice [] Hstart)
    as (Hwindow & Hlength & _).
  split; [vm_compute; reflexivity|]. split; [exact Hwindow|exact Hlength].
Defined.

(** ** First start *)

(** X14.  Starting on a device with nothing in the model store: the
    interpreter is not asked to load anything (the outcome does not
    depend on what it would do), the last error is [no model] and stays
    so through configuration, and nothing is scheduled.  Without saved
    inputs nothing else happens; with saved inputs the collectors are
    built from them, each is sent its streaming setup (no collector is
    destroyed), and the window holds the empty history. *)
Theorem X14_first_start (capacity : Z) (saved : option Buffer.t)
    (lo : LoadOutcome) :
  let w := start capacity saved lo in
  lastError (host w) = Some "no model"%string
  /\ modelSize w = 0
  /\ tf w = tf (device capacity saved)
  /\ background w = []
  /\ match saved with
     | None => w = onHost (set_lastError (Some "no model"%string))
                     (device capacity saved)
     | Some config =>
         collectors (host w) = map Collector.create (configEntries config)
         /\ effects w
            = flat_map (streamingSetup (Buffer.getNumber config UInt16LE 0))
                (collectors (host w))
         /\ WindowHolds w []
     end.
Proof.
  cbv zeta. unfold start.
  assert (Hload : loadModel lo (device capacity saved)
                  = onHost (set_lastError (Some "no model"%string))
                      (device capacity saved)) by reflexivity.
  rewrite Hload. destruct saved as [config|].
  - set (w0 := onHost _ (device capacity (Some config))).
    assert (Hcfg : inputSettings w0 = Some config) by reflexivity.
    destruct (configureInputs_window config w0 Hcfg) as (Hwin & Hcolls & _).
    rewrite Hcolls. split; [|split; [|split; [|split; [|split; [|split]]]]];
      try exact Hwin; try reflexivity;
      rewrite (configureInputs_stored config w0 Hcfg); reflexivity.
  - repeat split; reflexivity.
Qed.

(** ** Upload: the declared size

    The SetModel command is documented to carry the model size as an
    unsigned 32-bit integer; [readModel] reads it with [intData], as a
    signed one.  The two agree below 2^31. *)

Lemma leValue_bound (bs : list Z) :
  Buffer.leValue bs < 256 ^ Z.of_nat (List.length bs).
Proof.
  unfold Buffer.leValue. induction bs as [|b bs IH]; [cbn; lia|].
  change (b mod 256 + 256 * foldr (fun b acc => b mod 256 + 256 * acc) 0 bs
          < 256 ^ Z.of_nat (S (List.length bs))).
  rewrite Nat2Z.inj_succ, Z.pow_succ_r by lia.
  set (p := 256 ^ Z.of_nat (List.length bs)) in *.
  pose proof (Z.mod_pos_bound b 256 ltac:(lia)). lia.
Qed.

Lemma intData_declared (packet : JDPacket) :
  Buffer.length (data packet) = 4 ->
  0 <= declaredSize packet < 2 ^ 32
  /\ (declaredSize packet < 2 ^ 31 -> intData packet = declaredSize packet)
  /\ (2 ^ 31 <= declaredSize packet ->
      intData packet = declaredSize packet - 2 ^ 32).
Proof.
  intros Hlen. unfold intData, declaredSize, Buffer.getNumber. rewrite Hlen.
  cbn [Z.leb Z.ltb Z.compare Pos.compare Pos.compare_cont Z.add orb
       Buffer.sizeOfNumberFormat Buffer.isSigned andb Z.mul Pos.mul Z.sub
       Z.opp Z.pos_sub Pos.pred_double].
  set (u := Buffer.leValue _).
  assert (Hu : 0 <= u < 2 ^ 32).
  { split; [apply leValue_nonneg|].
    pose proof (leValue_bound (take (Z.to_nat 4) (drop (Z.to_nat 0) (data packet))))
      as Hb.
    fold u in Hb. rewrite length_take, length_drop in Hb.
    unfold Buffer.length in Hlen.
    replace (Z.of_nat (Z.to_nat 4 `min` (List.length (data packet) - Z.to_nat 0)))
      with 4 in Hb by lia.
    exact Hb. }
  split; [exact Hu|].
  change (4 <? 0 + 4) with false. cbv iota.
  change (2 ^ (8 * 4 - 1)) with (2 ^ 31). change (2 ^ (8 * 4)) with (2 ^ 32).
  destruct (Z.leb_spec (2 ^ 31) u); split; intros; lia.
Qed.

(** What [readModel] has done once the capacity check has let the
    command through: the pipe is open and its port reported, and unless
    the upload completes the interpreter holds no model and no arena
    size is stored. *)
Lemma readModel_accepted (packet : JDPacket) (port : Z) (chunks : list Buffer.t)
    (lo : LoadOutcome) (w : World) :
  intData packet <= totalSize (binstore w) - 8 ->
  let r := readModel packet port chunks lo w in
  fst r <> Rejected
  /\ (exists rest,
        effects (snd r)
        = effects w
          ++ PipeOpen port
             :: SendReport (service_command packet) (Buffer.leBytes 2 port)
             :: rest)
  /\ (fst r <> Completed ->
      loadedModel (tf (snd r)) = None
      /\ arenaSizeSettings (settings (snd r)) = None).
Proof.
  intros Hfits. cbv zeta.
  destruct (readModel_outcome packet port chunks lo w) as (_ & _ & Hacc).
  split; [now apply Hacc|].
  unfold readModel.
  replace (_ <? intData packet) with false by (symmetry; apply Z.ltb_ge; lia).
  cbn [binstore_addBuffer].
  match goal with |- context [readLoop ?f ?s ?c ?o ?h ?w0] =>
    destruct (readLoop_frame f s c o h w0) as (_ & _ & Hset & Heff);
    pose proof (readLoop_interp f s c o h w0) as Htf;
    destruct (readLoop f s c o h w0) as [st w1]
  end.
  cbn [snd] in Hset, Heff, Htf.
  cbn [sendReport emit with_binstore eraseModel with_settings with_tf
       settings effects tf] in Hset, Heff, Htf.
  rewrite <- app_assoc in Heff. cbn [app] in Heff.
  assert (Hload : exists rest,
            effects (loadModel lo (emit PipeClose w1)) = effects w1 ++ rest).
  { exists [PipeClose]. unfold loadModel.
    destruct (modelBuffer _); [|reflexivity].
    destruct lo as [arena|[s|]]; [destruct (arenaSizeSettings _)| |];
      reflexivity. }
  destruct st; cbn [fst snd].
  - split; [exists []; exact Heff|]. intros _. now rewrite Htf, Hset.
  - split; [exists []; exact Heff|]. intros _. now rewrite Htf, Hset.
  - split; [exists []; exact Heff|]. intros _. now rewrite Htf, Hset.
  - split; [|intros Habsurd; now contradiction Habsurd].
    destruct Hload as [rest ->]. rewrite Heff, <- app_assoc. cbn [app].
    now exists rest.
Qed.

(** A region too short for a 32-bit word does not read as erased: its
    first word reads 0, and the region counts as a model. *)
Lemma short_region_is_model (n : nat) (w : World) :
  regionHeader 0 w = Some (take 8 (replicate n 255), n) -> (n < 4)%nat ->
  modelBuffer w = Some (replicate n 255) /\ modelSize w = Z.of_nat n.
Proof.
  unfold regionHeader, modelSize, modelBuffer. intros Hhdr Hn.
  destruct (buffers (binstore w) !! 0%nat) as [r|]; [|discriminate].
  cbn in Hhdr. injection Hhdr as Htake Hlen.
  assert (Hr : r = replicate n 255).
  { rewrite <- (take_ge r 8) by lia. rewrite Htake. apply take_ge.
    rewrite length_replicate. lia. }
  subst r.
  assert (Hword : Buffer.getNumber (replicate n 255) Int32LE 0 = 0).
  { unfold Buffer.getNumber, Buffer.length. rewrite length_replicate.
    cbn [Buffer.sizeOfNumberFormat].
    replace (Z.of_nat n <? 0 + 4) with true by (symmetry; apply Z.ltb_lt; lia).
    reflexivity. }
  rewrite Hword. cbn [Z.eqb]. split; [reflexivity|].
  unfold Buffer.length. now rewrite length_replicate.
Qed.

(** C7.  The capacity check of [readModel] compares the size read as a
    signed integer with the capacity of the store less the 8 header
    bytes: a command whose size, read so, exceeds that bound is
    rejected before anything is touched (model not erased, no region
    allocated, no pipe opened, no report sent), and so is the whole
    path from the command packet through the background closure.  For
    the unsigned 32-bit size the command is documented to carry this
    rejects every declared size below 2^31 that exceeds the bound.  A
    declared size of 2^31 or more reads as negative and passes the
    check although it exceeds the bound: the stored model is erased,
    the pipe is opened and its port reported. *)
Theorem C7_oversized_upload_rejected (float32Bits : Q -> Z) (packet : JDPacket)
    (o : Oracle) (w : World) :
  let r := readModel packet (pipePort o) (pipeChunks o) (load o) w in
  (totalSize (binstore w) - 8 < intData packet ->
   r = (Rejected, w)
   /\ (service_command packet = TFLiteCmd.SetModel -> background w = [] ->
       run float32Bits [HostPacket packet; Background o] w = w))
  /\ (Buffer.length (data packet) = 4 ->
      totalSize (binstore w) - 8 < declaredSize packet ->
      (declaredSize packet < 2 ^ 31 -> r = (Rejected, w))
      /\ (2 ^ 31 <= declaredSize packet ->
          declaredSize packet - 2 ^ 32 <= totalSize (binstore w) - 8 ->
          fst r <> Rejected
          /\ (exists rest,
                effects (snd r)
                = effects w
                  ++ PipeOpen (pipePort o)
                     :: SendReport (service_command packet)
                          (Buffer.leBytes 2 (pipePort o))
                     :: rest)
          /\ (fst r <> Completed ->
              loadedModel (tf (snd r)) = None
              /\ arenaSizeSettings (settings (snd r)) = None))).
Proof.
  cbv zeta. split.
  - intros Hbig. split; [now apply readModel_rejects|].
    intros Hcmd Hbg. cbn [run fold_left step].
    unfold handlePacket, handleCommand.
    rewrite handleRegisters_idle by (left; now rewrite Hcmd).
    cbv zeta. rewrite Hcmd, Z.eqb_refl.
    unfold runTask, runInBackground. cbn [background]. rewrite Hbg. cbn [app].
    rewrite readModel_rejects by exact Hbig.
    destruct w; cbn in *; now subst.
  - intros Hlen Hbig.
    destruct (intData_declared packet Hlen) as (_ & Hlow & Hhigh).
    split.
    + intros Hsmall. apply readModel_rejects. rewrite (Hlow Hsmall). exact Hbig.
    + intros Hlarge Hpasses.
      apply readModel_accepted. rewrite (Hhigh Hlarge). exact Hpasses.
Qed.

(** The failing input of C7: on the example device with its 16-byte
    model loaded, a SetModel command declaring 4294967295 bytes (far
    beyond the 4096 bytes of the store) is not rejected; the stream
    then closing at once, the model is gone. *)
Lemma C7_oversized_upload_rejected_witness :
  let packet := {| service_command := TFLiteCmd.SetModel;
                   data := [255; 255; 255; 255]; timestamp := 0 |} in
  let o := {| micros0 := 0; micros1 := 0; invoke := InvokeReturns [];
              pipePort := 1; pipeChunks := []; load := LoadReturns 0 |} in
  let r := readModel packet 1 [] (LoadReturns 0) loadedDevice in
  (declaredSize packet = 4294967295 /\ totalSize (binstore loadedDevice) = 4096
   /\ modelSize loadedDevice = 16)
  /\ fst r <> Rejected
  /\ loadedModel (tf (snd r)) = None
  /\ arenaSizeSettings (settings (snd r)) = None
  /\ modelSize (snd r) = 0.
Proof.
  intros packet o r.
  split; [vm_compute; repeat split; reflexivity|].
  destruct (C7_oversized_upload_rejected Qnum packet o loadedDevice)
    as [_ Hdeclared].
  destruct Hdeclared as [_ Hlarge];
    [reflexivity|vm_compute; reflexivity|].
  destruct Hlarge as (Haccepted & _ & Herased);
    [vm_compute; discriminate|vm_compute; discriminate|].
  assert (Hstatus : fst r = StreamClosed) by (vm_compute; reflexivity).
  split; [exact Haccepted|].
  destruct Herased as [Hmodel Hhint].
  { intros Hdone. assert (Hdone' : fst r = Completed) by exact Hdone.
    rewrite Hstatus in Hdone'. discriminate Hdone'. }
  split; [exact Hmodel|]. split; [exact Hhint|]. vm_compute. reflexivity.
Defined.

(** C1.  In every upload the header reaches offset 0 of the region
    only when the transfer completes, which takes at least as many
    received bytes as the size read by the handler; when the stream
    closes or the transfer aborts earlier, and likewise after every
    part of the stream that is shorter, the first 8 bytes of the region
    are still erased.  A region of at least one word then reads as "no
    model"; a region shorter than that (a size below 4) has no first
    word to read -1 and counts as a model of that size.  Any region
    whose first 32-bit word reads -1 is reported as no model present:
    [modelBuffer] null, model size 0.  The handler reads the size as a
    signed integer: for the unsigned 32-bit size the command is
    documented to carry the two agree below 2^31, while a declared size
    of 2^31 or more reads as negative and the transfer completes with
    the first chunk, whatever its length. *)
Theorem C1_header_written_last (packet : JDPacket) (port : Z)
    (chunks : list Buffer.t) (lo : LoadOutcome) (w w0 : World) (b0 : Buffer.t) :
  let sz := intData packet in
  let r := readModel packet port chunks lo w in
  (fst r = Completed -> sz <= streamBytes chunks)
  /\ (fst r = StreamClosed \/ fst r = InvalidStreamSize ->
      regionHeader 0 (snd r)
      = Some (take 8 (replicate (Z.to_nat sz) 255), Z.to_nat sz)
      /\ (4 <= sz -> modelBuffer (snd r) = None /\ modelSize (snd r) = 0)
      /\ (sz < 4 ->
          modelBuffer (snd r) = Some (replicate (Z.to_nat sz) 255)
          /\ modelSize (snd r) = Z.max 0 sz))
  /\ (forall n,
        sz <= totalSize (binstore w) - 8 -> streamBytes (take n chunks) < sz ->
        regionHeader 0 (snd (readModel packet port (take n chunks) lo w))
        = Some (take 8 (replicate (Z.to_nat sz) 255), Z.to_nat sz))
  /\ (buffers (binstore w0) !! 0%nat = Some b0 ->
      Buffer.getNumber b0 Int32LE 0 = -1 ->
      modelBuffer w0 = None /\ modelSize w0 = 0)
  /\ (Buffer.length (data packet) = 4 ->
      (declaredSize packet < 2 ^ 31 -> sz = declaredSize packet)
      /\ (2 ^ 31 <= declaredSize packet ->
          sz <= totalSize (binstore w) - 8 -> chunks <> [] ->
          fst r = Completed)).
Proof.
  intros sz r.
  destruct (readModel_outcome packet port chunks lo w) as (Hdone & Habort & _).
  split; [exact Hdone|]. split; [|split; [|split]].
  - intros Hst. destruct (Habort Hst) as [Hhdr _]. split; [exact Hhdr|]. split.
    + intros Hsz. apply (erased_header_no_model (Z.to_nat (intData packet)));
        [exact Hhdr|lia].
    + intros Hsz.
      destruct (short_region_is_model (Z.to_nat (intData packet)) (snd r) Hhdr)
        as [Hmodel Hsize]; [fold sz; lia|].
      split; [exact Hmodel|]. rewrite Hsize. fold sz. lia.
  - intros n Hfits Hshort.
    destruct (readModel_outcome packet port (take n chunks) lo w) as (_ & Hpart & _).
    apply Hpart. now apply readModel_short.
  - intros Hb0 Hword. unfold modelSize, modelBuffer. now rewrite Hb0, Hword.
  - intros Hlen. destruct (intData_declared packet Hlen) as (_ & Hlow & Hhigh).
    split; [exact Hlow|].
    intros Hlarge Hfits Hne. specialize (Hhigh Hlarge).
    destruct (intData_declared packet Hlen) as (Hrange & _).
    unfold r, readModel. fold sz.
    replace (_ <? sz) with false by (symmetry; apply Z.ltb_ge; exact Hfits).
    cbn [binstore_addBuffer].
    destruct chunks as [|buf rest]; [now contradiction Hne|].
    cbn [readLoop].
    pose proof (Buffer_length_nonneg buf) as Hbuf.
    replace (sz <=? 0 + Buffer.length buf) with true
      by (symmetry; apply Z.leb_le; fold sz in Hhigh; lia).
    reflexivity.
Qed.

(** The failing input of C1: a SetModel command declaring 4294967280
    bytes completes with the first chunk of 8 bytes.  An upload of 1024
    declared bytes that stops after 512 leaves the header erased and no
    model, and so does a region whose first word reads -1. *)
Lemma C1_header_written_last_witness :
  let large := {| service_command := TFLiteCmd.SetModel;
                  data := [0xf0; 255; 255; 255]; timestamp := 0 |} in
  let r := readModel (setModelPacket 1024) 1 halfStream (LoadReturns 2000)
             loadedDevice in
  let blank := with_binstore {| totalSize := 64; buffers := [[255; 255; 255; 255; 1; 2]] |}
                 (device 64 None) in
  (declaredSize large = 4294967280
   /\ streamBytes [[1; 2; 3; 4; 5; 6; 7; 8]] = 8
   /\ fst (readModel large 1 [[1; 2; 3; 4; 5; 6; 7; 8]] (LoadReturns 2000)
             loadedDevice) = Completed)
  /\ fst r = StreamClosed
  /\ (regionHeader 0 (snd r) = Some (replicate 8 255, 1024%nat)
      /\ modelBuffer (snd r) = None /\ modelSize (snd r) = 0)
  /\ (modelBuffer blank = None /\ modelSize blank = 0).
Proof.
  intros large r blank.
  assert (Hst : fst r = StreamClosed) by (vm_compute; reflexivity).
  destruct (C1_header_written_last large 1 [[1; 2; 3; 4; 5; 6; 7; 8]]
              (LoadReturns 2000) loadedDevice blank [255; 255; 255; 255; 1; 2])
    as (_ & _ & _ & _ & Hdeclared).
  destruct (Hdeclared eq_refl) as [_ Hlarge].
  destruct (C1_header_written_last (setModelPacket 1024) 1 halfStream
              (LoadReturns 2000) loadedDevice blank [255; 255; 255; 255; 1; 2])
    as (_ & Habort & _ & Hblank & _).
  destruct (Habort (or_introl Hst)) as (Hhdr & Hnone & _).
  split; [|split; [exact Hst|split]].
  - split; [vm_compute; reflexivity|]. split; [vm_compute; reflexivity|].
    apply Hlarge; vm_compute; discriminate.
  - split; [exact Hhdr|]. apply Hnone. vm_compute. discriminate.
  - apply Hblank; reflexivity.
Defined.
